(** * Emotion-based playlist service: aggregation, engine interop, routes

    A shallow embedding of
      - [Sentiment Analysis/classify.py]  (class [EmotionClassifier]),
      - [web/backend/routes/playlist_route.py],
      - [web/backend/routes/classify_route.py],
    followed by the properties of the aggregation step, of the mood table,
    of the engine client and of the three HTTP operations.

    Python floats are binary64 values and are embedded as Rocq's primitive
    floats, so comparisons and [round(score, 4)] are the ones Python
    performs.  Calls that leave the repository (the tokenizer and the
    network, [subprocess.run], [json.loads], [request.get_json]) are answered
    by an environment record; every such call is recorded in an event log. *)

From Stdlib Require Import ZArith List String Ascii Bool Lia Floats Sorted.
From Stdlib Require Uint63.
From stdpp Require Import base option gmap sets strings.
Import ListNotations.

Set Warnings "-inexact-float,-register-all".
#[local] Arguments String.append : simpl nomatch.
Local Open Scope string_scope.
Local Open Scope Z_scope.

(** ** Python values, exceptions and effects *)

(** The values [request.get_json()] and [json.loads] can return.  A [dict]
    keeps its items as a list of pairs with distinct keys. *)
Inductive PyVal : Type :=
| PyNone
| PyBool (b : bool)
| PyInt (z : Z)
| PyFloat (f : float)
| PyStr (s : string)
| PyList (l : list PyVal)
| PyDict (d : list (string * PyVal)).

(** Exception classes the three files raise or catch.  All of them derive
    from [Exception], which is what the handlers of the routes catch. *)
Inductive ExcClass : Type :=
| Exception
| TypeError
| KeyError
| IndexError
| RuntimeError
| ValueError
| TimeoutExpired
| JSONDecodeError
| FileNotFoundError
| OtherError (name : string).

(** An exception object: its class and [str(e)]. *)
Record PyExc : Type := mkExc { exc_class : ExcClass; exc_str : string }.

Inductive result (A : Type) : Type :=
| Ok (a : A)
| Raise (e : PyExc).
Arguments Ok {A} a.
Arguments Raise {A} e.

Module subprocess.
(** The keyword arguments [call_cpp_engine] passes to [subprocess.run]. *)
Record RunArgs : Type := mkRunArgs {
  args : list string;
  capture_output : bool;
  text : bool;
  timeout : Z
}.

(** What [run] returns under [capture_output=True, text=True]. *)
Record CompletedProcess : Type := mkCompleted {
  returncode : Z;
  stdout : string;
  stderr : string
}.
End subprocess.

(** Calls that leave the process, in the order they happen. *)
Inductive Event : Type :=
| EvInfer (text : string)
| EvRun (a : subprocess.RunArgs)
| EvLoads (doc : string)
| EvPrint (line : string).

(** A computation: the events it performed and how it ended. *)
Record Py (A : Type) : Type := mkPy { events : list Event; outcome : result A }.
Arguments mkPy {A} events outcome.
Arguments events {A} p.
Arguments outcome {A} p.

Definition py_ret {A} (a : A) : Py A := mkPy [] (Ok a).
Definition py_raise {A} (e : PyExc) : Py A := mkPy [] (Raise e).
Definition py_lift {A} (r : result A) : Py A := mkPy [] r.
Definition py_emit {A} (ev : Event) (r : result A) : Py A := mkPy [ev] r.

Definition py_bind {A B} (m : Py A) (k : A -> Py B) : Py B :=
  match outcome m with
  | Ok a => mkPy (events m ++ events (k a)) (outcome (k a))
  | Raise e => mkPy (events m) (Raise e)
  end.

(** [try: m  except ... as e: h e] where [h] decides by the class of [e]. *)
Definition py_try {A} (m : Py A) (h : PyExc -> Py A) : Py A :=
  match outcome m with
  | Ok a => m
  | Raise e => mkPy (events m ++ events (h e)) (outcome (h e))
  end.

#[export] Instance py_mret : MRet Py := @py_ret.
#[export] Instance py_mbind : MBind Py := fun A B k m => py_bind m k.

(** ** Built-in operations used by the sources *)

(** [str.isspace] on one character (code points below 256). *)
Definition is_space (c : ascii) : bool :=
  let n := Z.of_nat (nat_of_ascii c) in
  ((9 <=? n) && (n <=? 13)) || ((28 <=? n) && (n <=? 32))
  || (n =? 133) || (n =? 160).

Fixpoint all_space (s : string) : bool :=
  match s with
  | EmptyString => true
  | String c s' => is_space c && all_space s'
  end.

(** Truth value of [s.strip()]: some character is not white space. *)
Definition strip_nonempty (s : string) : bool := negb (all_space s).

(** [sep.join(l)]. *)
Definition str_join (sep : string) (l : list string) : string :=
  String.concat sep l.

Fixpoint is_prefix (p s : string) : bool :=
  match p, s with
  | EmptyString, _ => true
  | String a p', String b s' => Ascii.eqb a b && is_prefix p' s'
  | String _ _, EmptyString => false
  end.

(** [p in s] on strings. *)
Fixpoint is_substring (p s : string) : bool :=
  is_prefix p s ||
  match s with
  | EmptyString => false
  | String _ s' => is_substring p s'
  end.

Fixpoint insert_sorted (x : string) (l : list string) : list string :=
  match l with
  | [] => [x]
  | y :: l' => if String.ltb x y then x :: l else y :: insert_sorted x l'
  end.

(** [sorted(l)] on strings (code point order). *)
Definition py_sorted (l : list string) : list string :=
  foldr insert_sorted [] l.

(** Truth value of a Python object. *)
Definition py_truthy (v : PyVal) : bool :=
  match v with
  | PyNone => false
  | PyBool b => b
  | PyInt z => negb (z =? 0)
  | PyFloat f => negb (PrimFloat.eqb f 0%float)
  | PyStr s => negb (String.eqb s "")
  | PyList l => match l with [] => false | _ => true end
  | PyDict d => match d with [] => false | _ => true end
  end.

Fixpoint dict_lookup (d : list (string * PyVal)) (key : string) : option PyVal :=
  match d with
  | [] => None
  | (k, v) :: d' => if String.eqb k key then Some v else dict_lookup d' key
  end.

Definition is_py_str (key : string) (v : PyVal) : bool :=
  match v with
  | PyStr s => String.eqb s key
  | _ => false
  end.

(** ** Rounding a float to four decimals *)

(** Nearest integer to [n / d] for [d > 0], ties to the even neighbour. *)
Definition round_half_even_div (n d : Z) : Z :=
  let q := n / d in
  match 2 * (n mod d) ?= d with
  | Lt => q
  | Gt => q + 1
  | Eq => if Z.even q then q else q + 1
  end.

Definition float_of_Z (n : Z) : float := PrimFloat.of_uint63 (Uint63.of_Z n).

(** [round(x, 4)]: the exact value of [x] is rounded to a multiple of
    [10^-4] (ties to even) and the binary64 nearest to that decimal is
    returned.  Zeros, infinities and NaN are returned unchanged; so is a
    value so large that its neighbours are further apart than [10^-4]. *)
Definition py_round4 (x : float) : float :=
  match Prim2SF x with
  | S754_finite s m e =>
      let n := if 0 <=? e then Zpos m * 2 ^ e * 10000
               else round_half_even_div (Zpos m * 10000) (2 ^ (- e)) in
      if n <? 2 ^ 53 then
        let r := PrimFloat.div (float_of_Z n) (float_of_Z 10000) in
        if s then PrimFloat.opp r else r
      else x
  | _ => x
  end.

(** ** Comparing a float with an int *)

(** Python orders a [float] and an [int] by their exact values, without
    converting the [int].  [float_compare_Z x z] is where [x] stands
    relative to [z]; a NaN is not ordered. *)
Definition float_compare_Z (x : float) (z : Z) : option comparison :=
  match Prim2SF x with
  | S754_nan => None
  | S754_infinity true => Some Lt
  | S754_infinity false => Some Gt
  | S754_zero _ => Some (0 ?= z)
  | S754_finite s m e =>
      let n := if s then Z.neg m else Z.pos m in
      Some (if 0 <=? e then n * 2 ^ e ?= z else n ?= z * 2 ^ (- e))
  end.

(** [x >= z]. *)
Definition float_geb_Z (x : float) (z : Z) : bool :=
  match float_compare_Z x z with
  | Some Gt | Some Eq => true
  | _ => false
  end.

(** [z < x]. *)
Definition Z_ltb_float (z : Z) (x : float) : bool :=
  match float_compare_Z x z with
  | Some Gt => true
  | _ => false
  end.

(** ** torch.topk *)

(** Messages of exceptions raised by the interpreter and by libraries are
    not text of this repository; where a handler forwards [str(e)] the
    environment supplies it. *)
Inductive LibFailure : Type :=
| TopkOutOfRange (k : Z)   (* [torch.topk] refused [k] *)
| TopkNotInt (k : PyVal)   (* [torch.topk] takes an [int] for [k] *)
| Unordered (op lhs : string) (rhs : PyVal)
                           (* [lhs op rhs] between a [lhs] and this value *)
| NotAContainer (v : PyVal)
| NotSubscriptable (v : PyVal).

(** [x != x]. *)
Definition is_nan (x : float) : bool := negb (PrimFloat.eqb x x).

(** [x] comes after [y] in torch's descending order: [x < y], a NaN
    counting as greater than every number. *)
Definition ranks_below (x y : float) : bool :=
  if is_nan y then negb (is_nan x) else PrimFloat.ltb x y.

Fixpoint insert_desc (x : float * nat) (l : list (float * nat))
  : list (float * nat) :=
  match l with
  | [] => [x]
  | y :: l' =>
      if ranks_below (fst x) (fst y) then y :: insert_desc x l'
      else x :: y :: l'
  end.

(** The scores paired with their positions, largest score first, NaN
    before the numbers.  Torch does not fix the order among equal scores
    (it may differ from one [k] to the next); here the lower position comes
    first.  The general statements below hold for any order among equal
    scores; the one that compares the results of two values of [k] assumes
    that the scores differ ([distinct_scores]). *)
Definition sort_desc (probs : list float) : list (float * nat) :=
  foldr insert_desc [] (combine probs (seq 0 (length probs))).

(** [torch.topk(probs, k)] followed by the two [tolist()] calls, zipped.
    A [k] that does not fit a signed 64-bit integer is refused with a
    [ValueError] when the argument is unpacked; a [k] outside
    [0 .. len(probs)] is refused with a [RuntimeError]. *)
Definition torch_topk (msg : LibFailure -> string) (probs : list float) (k : Z)
  : result (list (float * nat)) :=
  if (k <? - 2 ^ 63) || (2 ^ 63 <=? k)
  then Raise (mkExc ValueError (msg (TopkOutOfRange k)))
  else if (k <? 0) || (Z.of_nat (length probs) <? k)
  then Raise (mkExc RuntimeError (msg (TopkOutOfRange k)))
  else Ok (firstn (Z.to_nat k) (sort_desc probs)).

(** Each two scores are ordered one way or the other: no score occurs
    twice and none is unordered against another, so the descending order
    of the scores is unique. *)
Fixpoint distinct_scores (probs : list float) : bool :=
  match probs with
  | [] => true
  | s :: rest =>
      forallb (fun t => PrimFloat.ltb s t || PrimFloat.ltb t s) rest
      && distinct_scores rest
  end.

(** ** classify.py *)

Module EmotionClassifier.

Definition EMOTION_LABELS : list string :=
  [ "admiration"; "amusement"; "anger"; "annoyance"; "approval"; "caring";
    "confusion"; "curiosity"; "desire"; "disappointment"; "disapproval";
    "disgust"; "embarrassment"; "excitement"; "fear"; "gratitude"; "grief";
    "joy"; "love"; "nervousness"; "optimism"; "pride"; "realization";
    "relief"; "remorse"; "sadness"; "surprise"; "neutral" ].

Definition EMOTION_MAPPING : gmap string string :=
  list_to_map
    [ ("joy", "happy");
      ("amusement", "happy");
      ("excitement", "excited");
      ("optimism", "excited");
      ("approval", "happy");
      ("admiration", "happy");
      ("gratitude", "happy");
      ("love", "happy");
      ("pride", "excited");
      ("relief", "happy");
      ("sadness", "sad");
      ("grief", "sad");
      ("disappointment", "sad");
      ("remorse", "sad");
      ("embarrassment", "sad");
      ("nervousness", "sad");
      ("fear", "sad");
      ("anger", "sad");
      ("annoyance", "sad");
      ("disapproval", "sad");
      ("disgust", "sad");
      ("neutral", "neutral");
      ("realization", "neutral");
      ("confusion", "neutral");
      ("curiosity", "neutral");
      ("surprise", "excited");
      ("desire", "excited");
      ("caring", "happy") ].

(** [self.EMOTION_MAPPING.get(emotion_label, 'neutral')]. *)
Definition mapToMood (emotion_label : string) : string :=
  default "neutral" (EMOTION_MAPPING !! emotion_label).

(** One item of [raw_emotions]. *)
Record RawEmotion : Type := mkRaw { emotion : string; score : float }.

(** The dictionary [classify] returns. *)
Record Classification : Type := mkClassification {
  text : string;
  raw_emotions : list RawEmotion;
  simplified_emotions : list string;
  dominant_emotion : string;
  confidence : float
}.

(** A loaded classifier: tokenizer, forward pass and softmax, as the
    function from the text to [probs] (or to the exception raised). *)
Record Model : Type := mkModel { softmax_probs : string -> result (list float) }.

(** [self.EMOTION_LABELS[idx]] for an index that [topk] returned. *)
Definition label_at (idx : nat) : result string :=
  match nth_error EMOTION_LABELS idx with
  | Some l => Ok l
  | None => Raise (mkExc IndexError "list index out of range")
  end.

(** The body of the [for score, idx in zip(...)] loop, run over the
    remaining pairs with the two accumulators. *)
Fixpoint classify_loop (pairs : list (float * nat)) (threshold : float)
    (raw_emotions : list RawEmotion) (simplified_emotions : gset string)
  : result (list RawEmotion * gset string) :=
  match pairs with
  | [] => Ok (raw_emotions, simplified_emotions)
  | (score, idx) :: rest =>
      if PrimFloat.leb threshold score then
        match label_at idx with
        | Ok emotion_label =>
            let simplified := mapToMood emotion_label in
            classify_loop rest threshold
              (raw_emotions ++ [mkRaw emotion_label (py_round4 score)])
              (simplified_emotions ∪ {[ simplified ]})
        | Raise e => Raise e
        end
      else classify_loop rest threshold raw_emotions simplified_emotions
  end.

(** Everything in [classify] after [probs] is known. *)
Definition aggregate (msg : LibFailure -> string) (txt : string)
    (probs : list float) (top_k : Z) (threshold : float)
  : result Classification :=
  match torch_topk msg probs (Z.min top_k (Z.of_nat (length probs))) with
  | Raise e => Raise e
  | Ok pairs =>
      match classify_loop pairs threshold [] ∅ with
      | Raise e => Raise e
      | Ok (raw, simplified) =>
          Ok {| text := txt;
                raw_emotions := raw;
                simplified_emotions := py_sorted (elements simplified);
                dominant_emotion :=
                  match raw with
                  | r :: _ => emotion r
                  | [] => "neutral"
                  end;
                confidence :=
                  match raw with
                  | r :: _ => score r
                  | [] => 0%float
                  end |}
      end
  end.

(** [EmotionClassifier.classify(text, top_k, threshold)] with the arguments
    of the annotated types. *)
Definition classify (msg : LibFailure -> string) (self : Model)
    (txt : string) (top_k : Z) (threshold : float) : Py Classification :=
  probs ← py_emit (EvInfer txt) (softmax_probs self txt);
  py_lift (aggregate msg txt probs top_k threshold).

(** *** The same method on the values a request can carry

    The annotations are not enforced: the routes pass [top_k] and
    [threshold] as they come out of the JSON body.  A [bool] is an [int]
    in Python. *)

(** [min(top_k, n)] for [n = len(probs)]: [n] when [n < top_k], else
    [top_k].  [None], strings, lists and dicts are not ordered against an
    [int]. *)
Definition min_with_len (msg : LibFailure -> string) (top_k : PyVal) (n : Z)
  : result PyVal :=
  match top_k with
  | PyInt k => Ok (PyInt (Z.min k n))
  | PyBool b => Ok (if n <? Z.b2z b then PyInt n else PyBool b)
  | PyFloat f => Ok (if Z_ltb_float n f then PyInt n else PyFloat f)
  | _ => Raise (mkExc TypeError (msg (Unordered "<" "int" top_k)))
  end.

(** [torch.topk(probs, k=k)]: a [k] that is not an [int] (a [bool]
    included) is refused by the argument parser. *)
Definition torch_topk_dyn (msg : LibFailure -> string) (probs : list float)
    (k : PyVal) : result (list (float * nat)) :=
  match k with
  | PyInt k => torch_topk msg probs k
  | _ => Raise (mkExc TypeError (msg (TopkNotInt k)))
  end.

(** [score >= threshold]. *)
Definition score_passes (msg : LibFailure -> string) (score : float)
    (threshold : PyVal) : result bool :=
  match threshold with
  | PyFloat th => Ok (PrimFloat.leb th score)
  | PyInt z => Ok (float_geb_Z score z)
  | PyBool b => Ok (float_geb_Z score (Z.b2z b))
  | _ => Raise (mkExc TypeError (msg (Unordered ">=" "float" threshold)))
  end.

Fixpoint classify_loop_dyn (msg : LibFailure -> string)
    (pairs : list (float * nat)) (threshold : PyVal)
    (raw_emotions : list RawEmotion) (simplified_emotions : gset string)
  : result (list RawEmotion * gset string) :=
  match pairs with
  | [] => Ok (raw_emotions, simplified_emotions)
  | (score, idx) :: rest =>
      match score_passes msg score threshold with
      | Raise e => Raise e
      | Ok true =>
          match label_at idx with
          | Ok emotion_label =>
              let simplified := mapToMood emotion_label in
              classify_loop_dyn msg rest threshold
                (raw_emotions ++ [mkRaw emotion_label (py_round4 score)])
                (simplified_emotions ∪ {[ simplified ]})
          | Raise e => Raise e
          end
      | Ok false =>
          classify_loop_dyn msg rest threshold raw_emotions simplified_emotions
      end
  end.

Definition aggregate_dyn (msg : LibFailure -> string) (txt : string)
    (probs : list float) (top_k threshold : PyVal) : result Classification :=
  match min_with_len msg top_k (Z.of_nat (length probs)) with
  | Raise e => Raise e
  | Ok k =>
      match torch_topk_dyn msg probs k with
      | Raise e => Raise e
      | Ok pairs =>
          match classify_loop_dyn msg pairs threshold [] ∅ with
          | Raise e => Raise e
          | Ok (raw, simplified) =>
              Ok {| text := txt;
                    raw_emotions := raw;
                    simplified_emotions := py_sorted (elements simplified);
                    dominant_emotion :=
                      match raw with
                      | r :: _ => emotion r
                      | [] => "neutral"
                      end;
                    confidence :=
                      match raw with
                      | r :: _ => score r
                      | [] => 0%float
                      end |}
          end
      end
  end.

(** [classify] on a [str] text; the tokenizer and the model run before
    [top_k] and [threshold] are looked at.  At the annotated types this is
    [classify] (lemma [classify_dyn_annotated]). *)
Definition classify_dyn (msg : LibFailure -> string) (self : Model)
    (txt : string) (top_k threshold : PyVal) : Py Classification :=
  probs ← py_emit (EvInfer txt) (softmax_probs self txt);
  py_lift (aggregate_dyn msg txt probs top_k threshold).

End EmotionClassifier.

(** ** The environment of one request *)

Record Env : Type := mkEnv {
  (** [os.path.join(os.path.dirname(__file__), ...)], fixed at import time. *)
  CPP_EXECUTABLE : string;
  SONGS_CSV : string;
  (** [subprocess.run(...)]: the completed process or the exception. *)
  subprocess_run : subprocess.RunArgs -> result subprocess.CompletedProcess;
  (** [json.loads(doc)]. *)
  json_loads : string -> result PyVal;
  (** The global [_classifier] when the request arrives. *)
  _classifier : option EmotionClassifier.Model;
  (** [from classify import EmotionClassifier]. *)
  import_classify : result unit;
  (** [EmotionClassifier()]: loading the tokenizer and the model. *)
  new_classifier : result EmotionClassifier.Model;
  (** [str(e)] of interpreter and library exceptions. *)
  lib_message : LibFailure -> string;
  (** [classify] called with a [text] that is not a [str]: the tokenizer
      decides what happens (it refuses most values and takes a list of
      strings as a batch). *)
  dyn_classify : EmotionClassifier.Model -> PyVal -> PyVal -> PyVal
                 -> result EmotionClassifier.Classification
}.

(** [key in v] for a string [key]. *)
Definition py_contains (env : Env) (key : string) (v : PyVal) : result bool :=
  match v with
  | PyDict d => Ok (bool_decide (is_Some (dict_lookup d key)))
  | PyList l => Ok (existsb (is_py_str key) l)
  | PyStr s => Ok (is_substring key s)
  | _ => Raise (mkExc TypeError (lib_message env (NotAContainer v)))
  end.

(** [v[key]] for a string [key]; [str(KeyError(key))] is the quoted key. *)
Definition py_getitem (env : Env) (v : PyVal) (key : string) : result PyVal :=
  match v with
  | PyDict d =>
      match dict_lookup d key with
      | Some x => Ok x
      | None => Raise (mkExc KeyError ("'" ++ key ++ "'"))
      end
  | _ => Raise (mkExc TypeError (lib_message env (NotSubscriptable v)))
  end.

(** [v.get(key, dflt)]; only reached on a [dict]. *)
Definition py_get (v : PyVal) (key : string) (dflt : PyVal) : PyVal :=
  match v with
  | PyDict d => default dflt (dict_lookup d key)
  | _ => dflt
  end.

(** [not data or key not in data]. *)
Definition missing_field (env : Env) (data : PyVal) (key : string) : result bool :=
  if negb (py_truthy data) then Ok true
  else match py_contains env key data with
       | Ok b => Ok (negb b)
       | Raise e => Raise e
       end.

(** ** HTTP requests and responses *)

Inductive Method : Type := OPTIONS | POST.

Record Request : Type := mkRequest {
  method : Method;
  (** [request.get_json()]: the parsed body, [None], or an exception. *)
  get_json : result PyVal
}.

Inductive Body : Type :=
| EmptyBody
| ErrorBody (error message : string)
| ClassifyBody (c : EmotionClassifier.Classification)
| PlaylistBody (emotions : list string) (songs count : PyVal)
| FullBody (text : PyVal) (classification : EmotionClassifier.Classification)
           (emotions : list string) (songs count : PyVal)
| AnalyzeBody (emotion : string) (confidence : float) (playlist : PyVal).

Record Response : Type := mkResponse { body : Body; status : Z }.

Definition bad_request (message : string) : Response :=
  mkResponse (ErrorBody "Bad Request" message) 400.

(** The [except Exception as e:] clause shared by the routes. *)
Definition internal_error (endpoint : string) (e : PyExc) : Py Response :=
  _ ← py_emit (EvPrint ("Error in " ++ endpoint ++ " endpoint: " ++ exc_str e))
              (Ok tt);
  mret (mkResponse (ErrorBody "Internal Server Error" (exc_str e)) 500).

(** ** playlist_route.py: the engine client *)

Definition engine_args (env : Env) (emotions_str : string) : subprocess.RunArgs :=
  {| subprocess.args := [CPP_EXECUTABLE env; SONGS_CSV env; emotions_str];
     subprocess.capture_output := true;
     subprocess.text := true;
     subprocess.timeout := 10 |}.

(** The [except] clauses of [call_cpp_engine], tried in order: the
    exception each one raises in place of [e]. *)
Definition call_cpp_engine_except (env : Env) (e : PyExc) : PyExc :=
  match exc_class e with
  | TimeoutExpired => mkExc Exception "C++ engine timeout"
  | JSONDecodeError =>
      mkExc Exception ("Failed to parse C++ output: " ++ exc_str e)
  | FileNotFoundError =>
      mkExc Exception ("C++ executable not found at " ++ CPP_EXECUTABLE env)
  | _ => mkExc Exception ("C++ engine error: " ++ exc_str e)
  end.

Definition call_cpp_engine (env : Env) (emotions : list string) : Py PyVal :=
  py_try
    (let emotions_str := str_join "," emotions in
     result ← py_emit (EvRun (engine_args env emotions_str))
                      (subprocess_run env (engine_args env emotions_str));
     if negb (subprocess.returncode result =? 0) then
       py_raise (mkExc Exception
                   ("C++ engine error: " ++ subprocess.stderr result))
     else
       playlist_data ← py_emit (EvLoads (subprocess.stdout result))
                               (json_loads env (subprocess.stdout result));
       mret playlist_data)
    (fun e => py_raise (call_cpp_engine_except env e)).

(** ** classify_route.py *)

Definition get_classifier (env : Env) : result EmotionClassifier.Model :=
  match _classifier env with
  | Some c => Ok c
  | None =>
      match import_classify env with
      | Ok _ => new_classifier env
      | Raise e => Raise e
      end
  end.

(** [classifier.classify(text, top_k=top_k, threshold=threshold)] on the
    values taken from the request. *)
Definition call_classify (env : Env) (classifier : EmotionClassifier.Model)
    (text top_k threshold : PyVal) : Py EmotionClassifier.Classification :=
  match text with
  | PyStr t =>
      EmotionClassifier.classify_dyn (lib_message env) classifier t
        top_k threshold
  | _ => py_lift (dyn_classify env classifier text top_k threshold)
  end.

(** [not isinstance(text, str) or not text.strip()]. *)
Definition blank_or_not_str (v : PyVal) : bool :=
  match v with
  | PyStr s => negb (strip_nonempty s)
  | _ => true
  end.

(** The [try:] block of [classify_emotion]. *)
Definition classify_emotion_try (env : Env) (request : Request) : Py Response :=
  data ← py_lift (get_json request);
    missing ← py_lift (missing_field env data "text");
    if (missing : bool) then
      mret (bad_request "Missing required field: text")
    else
      text ← py_lift (py_getitem env data "text");
      let top_k := py_get data "top_k" (PyInt 3) in
      let threshold := py_get data "threshold" (PyFloat 0.1) in
      if blank_or_not_str text then
        mret (bad_request "text must be a non-empty string")
      else
        classifier ← py_lift (get_classifier env);
        result ← call_classify env classifier text top_k threshold;
        mret (mkResponse (ClassifyBody result) 200).

Definition classify_emotion (env : Env) (request : Request) : Py Response :=
  match method request with
  | OPTIONS => mret (mkResponse EmptyBody 204)
  | POST => py_try (classify_emotion_try env request) (internal_error "classify")
  end.

(** [if not emotions: emotions = ['neutral']]. *)
Definition or_neutral (emotions : list string) : list string :=
  match emotions with
  | [] => ["neutral"]
  | _ => emotions
  end.

(** The [try:] block of [analyze_emotion]. *)
Definition analyze_emotion_try (env : Env) (request : Request) : Py Response :=
  data ← py_lift (get_json request);
    missing ← py_lift (missing_field env data "text");
    if (missing : bool) then
      mret (bad_request "Missing required field: text")
    else
      text ← py_lift (py_getitem env data "text");
      if blank_or_not_str text then
        mret (bad_request "text must be a non-empty string")
      else
        classifier ← py_lift (get_classifier env);
        result ← call_classify env classifier text (PyInt 3) (PyFloat 0.1);
        let emotions :=
          or_neutral (EmotionClassifier.simplified_emotions result) in
        playlist_data ← call_cpp_engine env emotions;
        songs ← py_lift (py_getitem env playlist_data "songs");
        mret (mkResponse
                (AnalyzeBody (EmotionClassifier.dominant_emotion result)
                             (EmotionClassifier.confidence result) songs)
                200).

Definition analyze_emotion (env : Env) (request : Request) : Py Response :=
  match method request with
  | OPTIONS => mret (mkResponse EmptyBody 204)
  | POST => py_try (analyze_emotion_try env request) (internal_error "analyze")
  end.

(** ** playlist_route.py: the two routes *)

(** The loop [for emotion in emotions:] of [generate_playlist]: the strings
    of the list when each item is a [str] with a non-blank character. *)
Fixpoint validate_emotions (emotions : list PyVal) : option (list string) :=
  match emotions with
  | [] => Some []
  | emotion :: rest =>
      if blank_or_not_str emotion then None
      else match emotion, validate_emotions rest with
           | PyStr s, Some l => Some (s :: l)
           | _, _ => None
           end
  end.

(** The [try:] block of [generate_playlist]. *)
Definition generate_playlist_try (env : Env) (request : Request) : Py Response :=
  data ← py_lift (get_json request);
    missing ← py_lift (missing_field env data "emotions");
    if (missing : bool) then
      mret (bad_request "Missing required field: emotions")
    else
      emotions ← py_lift (py_getitem env data "emotions");
      match emotions with
      | PyList (e :: es) =>
          match validate_emotions (e :: es) with
          | None =>
              mret (bad_request "All emotions must be non-empty strings")
          | Some emotions =>
              playlist_data ← call_cpp_engine env emotions;
              songs ← py_lift (py_getitem env playlist_data "songs");
              count ← py_lift (py_getitem env playlist_data "count");
              mret (mkResponse (PlaylistBody emotions songs count) 200)
          end
      | _ => mret (bad_request "emotions must be a non-empty list")
      end.

Definition generate_playlist (env : Env) (request : Request) : Py Response :=
  match method request with
  | OPTIONS => mret (mkResponse EmptyBody 204)
  | POST => py_try (generate_playlist_try env request) (internal_error "playlist")
  end.

(** The [try:] block of [generate_full_playlist]. *)
Definition generate_full_playlist_try (env : Env) (request : Request) : Py Response :=
  data ← py_lift (get_json request);
    missing ← py_lift (missing_field env data "text");
    if (missing : bool) then
      mret (bad_request "Missing required field: text")
    else
      text ← py_lift (py_getitem env data "text");
      let top_k := py_get data "top_k" (PyInt 3) in
      let threshold := py_get data "threshold" (PyFloat 0.1) in
      _ ← py_lift (import_classify env);
      classifier ← py_lift (get_classifier env);
      classification ← call_classify env classifier text top_k threshold;
      let emotions :=
        or_neutral (EmotionClassifier.simplified_emotions classification) in
      playlist_data ← call_cpp_engine env emotions;
      songs ← py_lift (py_getitem env playlist_data "songs");
      count ← py_lift (py_getitem env playlist_data "count");
      mret (mkResponse
              (FullBody text classification emotions songs count) 200).

Definition generate_full_playlist (env : Env) (request : Request) : Py Response :=
  match method request with
  | OPTIONS => mret (mkResponse EmptyBody 204)
  | POST => py_try (generate_full_playlist_try env request) (internal_error "playlist/full")
  end.

(** ** The engine's second argument, as the interface describes it *)

(** The moods joined by a comma: the first mood, then each further mood
    preceded by one comma; nothing before the first and nothing after the
    last. *)
Definition comma_joined (moods : list string) : string :=
  match moods with
  | [] => ""
  | m :: rest => m ++ foldr (fun x acc => "," ++ x ++ acc) "" rest
  end.

(** ** Vocabulary of the statements *)

(** The test [score >= threshold] on a pair returned by [topk]. *)
Definition passes (threshold : float) (p : float * nat) : bool :=
  PrimFloat.leb threshold (fst p).

(** [e] is the item the loop appends for the pair [p]: [p] passed the
    test on its own score, [e] carries the label at [p]'s position and
    [p]'s score rounded to four decimals. *)
Definition retained_as (threshold : float) (p : float * nat)
    (e : EmotionClassifier.RawEmotion) : Prop :=
  PrimFloat.leb threshold (fst p) = true /\
  nth_error EmotionClassifier.EMOTION_LABELS (snd p)
    = Some (EmotionClassifier.emotion e) /\
  EmotionClassifier.score e = py_round4 (fst p).

(** The moods of the labels of a list of items. *)
Definition moods_of (raw : list EmotionClassifier.RawEmotion) : gset string :=
  list_to_set
    (map (fun e => EmotionClassifier.mapToMood (EmotionClassifier.emotion e)) raw).

(** The coarse moods. *)
Definition MOODS : list string := ["happy"; "sad"; "excited"; "neutral"].

(** The four messages are told apart by their first words, whatever the
    path, the stderr text or the decoder's text. *)
Definition engine_messages_distinct : Prop :=
  forall path stderr_text decoder_text : string,
    let timed_out := "C++ engine timeout" in
    let not_found := "C++ executable not found at " ++ path in
    let non_zero := "C++ engine error: C++ engine error: " ++ stderr_text in
    let malformed := "Failed to parse C++ output: " ++ decoder_text in
    timed_out <> not_found /\ timed_out <> non_zero /\ timed_out <> malformed /\
    not_found <> non_zero /\ not_found <> malformed /\ non_zero <> malformed.

(** Bodies of a successful answer. *)
Definition is_success (b : Body) : Prop :=
  match b with
  | ClassifyBody _ | PlaylistBody _ _ _ | FullBody _ _ _ _ _ | AnalyzeBody _ _ _ =>
      True
  | EmptyBody | ErrorBody _ _ => False
  end.

(** The answers of a route: the CORS preflight, a success payload, or one
    error envelope marked as bad input (400) or as internal (500). *)
Inductive Envelope : Response -> Prop :=
| env_preflight : Envelope (mkResponse EmptyBody 204)
| env_success b : is_success b -> Envelope (mkResponse b 200)
| env_bad_input message :
    Envelope (mkResponse (ErrorBody "Bad Request" message) 400)
| env_internal message :
    Envelope (mkResponse (ErrorBody "Internal Server Error" message) 500).

(** What a route with the [try:] block [route_try] answers: always one
    response, of one of the four shapes; it is the internal-error envelope
    exactly when the block raised, and then the message is [str(e)] as it
    is, the text that is also printed to the log. *)
Definition answers (route route_try : Env -> Request -> Py Response)
    (endpoint : string) : Prop :=
  forall env request,
  exists resp,
    outcome (route env request) = Ok resp /\
    Envelope resp /\
    (forall e,
        method request = POST ->
        outcome (route_try env request) = Raise e ->
        resp = mkResponse (ErrorBody "Internal Server Error" (exc_str e)) 500 /\
        In (EvPrint ("Error in " ++ endpoint ++ " endpoint: " ++ exc_str e))
           (events (route env request))) /\
    (status resp = 500 ->
     method request = POST /\
     exists e, outcome (route_try env request) = Raise e).

(** ** Sample inputs *)

Definition type_name (v : PyVal) : string :=
  match v with
  | PyNone => "NoneType"
  | PyBool _ => "bool"
  | PyInt _ => "int"
  | PyFloat _ => "float"
  | PyStr _ => "str"
  | PyList _ => "list"
  | PyDict _ => "dict"
  end.

Definition sample_message (f : LibFailure) : string :=
  match f with
  | TopkOutOfRange k =>
      if (k <? - 2 ^ 63) || (2 ^ 63 <=? k)
      then "Overflow when unpacking long long"
      else "selected index k out of range"
  | TopkNotInt k => "topk(): argument 'k' must be int, not " ++ type_name k
  | Unordered op lhs rhs =>
      "'" ++ op ++ "' not supported between instances of '" ++ lhs
      ++ "' and '" ++ type_name rhs ++ "'"
  | NotAContainer v => "argument of type '" ++ type_name v ++ "' is not iterable"
  | NotSubscriptable v => "'" ++ type_name v ++ "' object is not subscriptable"
  end.

(** The distribution over the 28 labels that gives the listed labels
    their scores and every other label the score 0. *)
Definition probs_with (scores : list (string * float)) : list float :=
  map (fun l =>
         match List.find (fun p => String.eqb (fst p) l) scores with
         | Some p => snd p
         | None => 0%float
         end)
      EmotionClassifier.EMOTION_LABELS.

(** A classifier whose softmax output is [probs] on every text. *)
Definition constant_model (probs : list float) : EmotionClassifier.Model :=
  EmotionClassifier.mkModel (fun _ => Ok probs).

Definition scenario_probs : list float :=
  probs_with [("joy", 0.82%float); ("excitement", 0.15%float);
              ("neutral", 0.03%float)].

Definition scenario_result : EmotionClassifier.Classification :=
  {| EmotionClassifier.text := "I feel so happy today!";
     EmotionClassifier.raw_emotions :=
       [EmotionClassifier.mkRaw "joy" 0.82%float;
        EmotionClassifier.mkRaw "excitement" 0.15%float];
     EmotionClassifier.simplified_emotions := ["excited"; "happy"];
     EmotionClassifier.dominant_emotion := "joy";
     EmotionClassifier.confidence := 0.82%float |}.

(** A distribution without equal scores: joy 0.5, excitement 0.126, and
    the other labels one to twenty-eight thousandths by position. *)
Definition graded_probs : list float :=
  [ 0.001; 0.002; 0.003; 0.004; 0.005; 0.006; 0.007; 0.008; 0.009; 0.010;
    0.011; 0.012; 0.013; 0.126; 0.015; 0.016; 0.017; 0.5;   0.019; 0.020;
    0.021; 0.022; 0.023; 0.024; 0.025; 0.026; 0.027; 0.028 ]%float.

(** Two scores that are exact in binary: [1/8 + 2^-15] for joy and the
    rest of the mass for neutral. *)
Definition rounding_probs : list float :=
  probs_with [("joy", 0.125030517578125%float);
              ("neutral", 0.874969482421875%float)].

(** One double quote. *)
Definition dq : string := String (ascii_of_nat 34) EmptyString.

(** An environment in which the classifier is loaded on demand and has
    the softmax output [probs], the engine run ends as [run], and
    [json.loads] ends as [loads]. *)
Definition sample_env (probs : list float)
    (run : result subprocess.CompletedProcess) (loads : result PyVal) : Env :=
  {| CPP_EXECUTABLE :=
       "/srv/web/backend/routes/../../../cpp/build/emotion_playlist.exe";
     SONGS_CSV := "/srv/web/backend/routes/../../../data/songs.csv";
     subprocess_run := fun _ => run;
     json_loads := fun _ => loads;
     _classifier := None;
     import_classify := Ok tt;
     new_classifier := Ok (constant_model probs);
     lib_message := sample_message;
     dyn_classify := fun _ _ _ _ => Raise (mkExc TypeError "bad argument") |}.

(** The engine output [{"songs":[{"id":1}],"count":1}] and its parse. *)
Definition scenario_stdout : string :=
  "{" ++ dq ++ "songs" ++ dq ++ ":[{" ++ dq ++ "id" ++ dq ++ ":1}],"
  ++ dq ++ "count" ++ dq ++ ":1}".

Definition scenario_playlist : PyVal :=
  PyDict [("songs", PyList [PyDict [("id", PyInt 1)]]); ("count", PyInt 1)].

(** The engine output [{"songs":[],"count":5}] and its parse. *)
Definition miscount_stdout : string :=
  "{" ++ dq ++ "songs" ++ dq ++ ":[]," ++ dq ++ "count" ++ dq ++ ":5}".

Definition miscount_playlist : PyVal :=
  PyDict [("songs", PyList []); ("count", PyInt 5)].

(** What [json.loads("oops")] raises. *)
Definition oops_error : PyExc :=
  mkExc JSONDecodeError "Expecting value: line 1 column 1 (char 0)".

Definition playlist_request (emotions : list string) : Request :=
  mkRequest POST (Ok (PyDict [("emotions", PyList (map PyStr emotions))])).

Definition classify_request (text : string) (top_k : Z) (threshold : float)
  : Request :=
  mkRequest POST
    (Ok (PyDict [("text", PyStr text); ("top_k", PyInt top_k);
                 ("threshold", PyFloat threshold)])).

(** ** classify.py: [batch_classify] and the command line *)

(** The comprehension [[f(x) for x in l]] and the loop
    [for x in l: results.append(f(x))]: the calls are made in order and the
    first exception ends the run. *)
Fixpoint py_for_each {A B : Type} (f : A -> Py B) (l : list A) : Py (list B) :=
  match l with
  | [] => mret []
  | x :: rest =>
      y ← f x;
      ys ← py_for_each f rest;
      mret (y :: ys)
  end.

(** [EmotionClassifier.batch_classify(texts, top_k=..., threshold=...)]. *)
Definition batch_classify (msg : LibFailure -> string)
    (self : EmotionClassifier.Model) (texts : list string)
    (top_k : Z) (threshold : float)
  : Py (list EmotionClassifier.Classification) :=
  py_for_each
    (fun text => EmotionClassifier.classify msg self text top_k threshold)
    texts.

(** [s.lstrip()]. *)
Fixpoint lstrip (s : string) : string :=
  match s with
  | EmptyString => EmptyString
  | String c s' => if is_space c then lstrip s' else s
  end.

(** [s.rstrip()]. *)
Fixpoint rstrip (s : string) : string :=
  match s with
  | EmptyString => EmptyString
  | String c s' =>
      match rstrip s' with
      | EmptyString => if is_space c then EmptyString else String c EmptyString
      | r => String c r
      end
  end.

(** [s.strip()]. *)
Definition py_strip (s : string) : string := rstrip (lstrip s).

Module cli.

(** The namespace [parser.parse_args()] returns in [classify.py]. *)
Record Args : Type := mkArgs {
  text : option string;
  file : option string;
  top_k : Z;
  threshold : float;
  json : bool;
  device : option string
}.

(** What the command line needs from outside: [EmotionClassifier(device)]
    and the lines of a file opened for reading. *)
Record World : Type := mkWorld {
  load : option string -> result EmotionClassifier.Model;
  read_lines : string -> result (list string);
  message : LibFailure -> string
}.

(** What is printed at the end: one JSON object, a JSON array, or the
    report with one block per result. *)
Inductive Output : Type :=
| JsonObject (r : EmotionClassifier.Classification)
| JsonArray (rs : list EmotionClassifier.Classification)
| Report (rs : list EmotionClassifier.Classification).

(** How the program ends: [parser.error], an uncaught exception, or the
    normal end. *)
Inductive Exit : Type :=
| UsageError (message : string)
| Traceback (e : PyExc)
| Done (out : Output).

(** Truth value of an optional string argument. *)
Definition given (o : option string) : bool :=
  match o with
  | Some s => negb (String.eqb s EmptyString)
  | None => false
  end.

(** The list [texts] that [main] builds. *)
Definition texts_of (w : World) (a : Args) : result (list string) :=
  let texts := match text a with
               | Some t => if given (text a) then [t] else []
               | None => []
               end in
  match file a with
  | Some path =>
      if given (file a) then
        match read_lines w path with
        | Ok lines =>
            Ok (texts ++
                map py_strip
                    (List.filter
                       (fun line => negb (String.eqb (py_strip line) EmptyString))
                       lines))%list
        | Raise e => Raise e
        end
      else Ok texts
  | None => Ok texts
  end.

(** The branch [if args.json: ... else: ...]. *)
Definition output_of (a : Args) (results : list EmotionClassifier.Classification)
  : Output :=
  if json a then
    match results with
    | [r] => JsonObject r
    | _ => JsonArray results
    end
  else Report results.

Definition main (w : World) (a : Args) : list Event * Exit :=
  if negb (given (text a)) && negb (given (file a)) then
    ([], UsageError "Either --text or --file must be provided")
  else
    let run :=
      classifier ← py_lift (load w (device a));
      texts ← py_lift (texts_of w a);
      results ← py_for_each
                  (fun t => EmotionClassifier.classify (message w) classifier t
                              (top_k a) (threshold a))
                  texts;
      mret (output_of a results) in
    (events run,
     match outcome run with
     | Ok out => Done out
     | Raise e => Traceback e
     end).

End cli.

(** ** classify_route.py: the global [_classifier] after a call *)

(** The value of [_classifier] when [get_classifier] has returned or
    raised: it is assigned only after [EmotionClassifier()] succeeded. *)
Definition classifier_after (env : Env) : option EmotionClassifier.Model :=
  match _classifier env with
  | Some c => Some c
  | None =>
      match get_classifier env with
      | Ok c => Some c
      | Raise _ => None
      end
  end.

(** ** More vocabulary *)

(** Number of engine runs among the events. *)
Fixpoint run_count (evs : list Event) : nat :=
  match evs with
  | [] => 0
  | EvRun _ :: rest => S (run_count rest)
  | _ :: rest => run_count rest
  end.

(** No comma among the characters of [s]. *)
Fixpoint comma_free (s : string) : bool :=
  match s with
  | EmptyString => true
  | String c s' => negb (Ascii.eqb c ",") && comma_free s'
  end.

(** The four routes with their [try:] blocks and names. *)
Definition ROUTES
  : list ((Env -> Request -> Py Response) * (Env -> Request -> Py Response)
          * string) :=
  [ (classify_emotion, classify_emotion_try, "classify");
    (analyze_emotion, analyze_emotion_try, "analyze");
    (generate_playlist, generate_playlist_try, "playlist");
    (generate_full_playlist, generate_full_playlist_try, "playlist/full") ].

(** [s.split(',')], the reading of the engine's second argument that
    undoes [','.join]. *)
Fixpoint split_commas (s : string) : list string :=
  match s with
  | EmptyString => [EmptyString]
  | String c s' =>
      if Ascii.eqb c "," then EmptyString :: split_commas s'
      else match split_commas s' with
           | x :: xs => String c x :: xs
           | [] => [String c EmptyString]
           end
  end.

(** ** Sample inputs of the command line *)

(** One line feed. *)
Definition nl : string := String (ascii_of_nat 10) EmptyString.

(** A world in which the model loads and has the softmax output
    [scenario_probs], and every file has the given lines. *)
Definition sample_world (lines : list string) : cli.World :=
  cli.mkWorld (fun _ => Ok (constant_model scenario_probs))
              (fun _ => Ok lines) sample_message.

Definition sample_args (text file : option string) (json : bool) : cli.Args :=
  cli.mkArgs text file 1 0.1%float json None.

Definition sample_lines : list string :=
  ["I am happy" ++ nl; "   " ++ nl; "  so sad  " ++ nl].

(** * Properties *)

(** ** Runs on concrete inputs *)

Example round4_up : py_round4 0.8234567%float = 0.8235%float.
Proof. vm_compute. reflexivity. Qed.

(** [1/32] lies halfway between 0.0312 and 0.0313; the even one is taken. *)
Example round4_tie : py_round4 0.03125%float = 0.0312%float.
Proof. vm_compute. reflexivity. Qed.

Example round4_zero : py_round4 0%float = 0%float.
Proof. vm_compute. reflexivity. Qed.

Example join_two : str_join "," ["happy"; "excited"] = "happy,excited".
Proof. reflexivity. Qed.

Example sorted_moods : py_sorted ["neutral"; "happy"; "excited"]
                       = ["excited"; "happy"; "neutral"].
Proof. reflexivity. Qed.

(** Neutral 0.95 and confusion 0.03 under the default threshold. *)
Example scenario_neutral :
  outcome (EmotionClassifier.classify sample_message
             (constant_model (probs_with [("neutral", 0.95%float);
                                          ("confusion", 0.03%float)]))
             "ok" 3 0.1%float)
  = Ok {| EmotionClassifier.text := "ok";
          EmotionClassifier.raw_emotions :=
            [EmotionClassifier.mkRaw "neutral" 0.95%float];
          EmotionClassifier.simplified_emotions := ["neutral"];
          EmotionClassifier.dominant_emotion := "neutral";
          EmotionClassifier.confidence := 0.95%float |}.
Proof. vm_compute. reflexivity. Qed.

(** A negative [top_k] reaches [torch.topk] and makes it raise. *)
Example negative_top_k_raises :
  outcome (EmotionClassifier.classify sample_message
             (constant_model scenario_probs) "ok" (-2) 0.1%float)
  = Raise (mkExc RuntimeError "selected index k out of range").
Proof. vm_compute. reflexivity. Qed.

(** A [top_k] below [-2^63] does not fit the 64-bit argument of
    [torch.topk]. *)
Example top_k_below_int64_raises :
  outcome (EmotionClassifier.classify sample_message
             (constant_model scenario_probs) "ok" (- 2 ^ 63 - 1) 0.1%float)
  = Raise (mkExc ValueError "Overflow when unpacking long long").
Proof. vm_compute. reflexivity. Qed.

(** A NaN ranks above every number. *)
Example nan_ranks_first :
  map snd (sort_desc [0.1%float; PrimFloat.nan; 0.5%float]) = [1%nat; 2%nat; 0%nat].
Proof. vm_compute. reflexivity. Qed.

(** A JSON integer as [threshold] is compared by value: with [0] both of
    the two highest scores are kept, with [1] none; either way the text
    goes through the model once. *)
Example integer_threshold :
  let call := call_classify
                (sample_env scenario_probs
                   (Raise (mkExc FileNotFoundError "not used"))
                   (Raise oops_error))
                (constant_model scenario_probs) (PyStr "ok") (PyInt 2) in
  call (PyInt 0)
  = mkPy [EvInfer "ok"]
         (Ok {| EmotionClassifier.text := "ok";
                EmotionClassifier.raw_emotions :=
                  [EmotionClassifier.mkRaw "joy" 0.82%float;
                   EmotionClassifier.mkRaw "excitement" 0.15%float];
                EmotionClassifier.simplified_emotions := ["excited"; "happy"];
                EmotionClassifier.dominant_emotion := "joy";
                EmotionClassifier.confidence := 0.82%float |}) /\
  call (PyInt 1)
  = mkPy [EvInfer "ok"]
         (Ok {| EmotionClassifier.text := "ok";
                EmotionClassifier.raw_emotions := [];
                EmotionClassifier.simplified_emotions := [];
                EmotionClassifier.dominant_emotion := "neutral";
                EmotionClassifier.confidence := 0%float |}).
Proof. split; vm_compute; reflexivity. Qed.

(** A [threshold] that is no number fails at the first comparison, after
    the inference; a [top_k] that is no [int] is refused by [torch.topk]. *)
Example untyped_arguments :
  let call := call_classify
                (sample_env scenario_probs
                   (Raise (mkExc FileNotFoundError "not used"))
                   (Raise oops_error))
                (constant_model scenario_probs) (PyStr "ok") in
  call (PyInt 2) (PyStr "high")
  = mkPy [EvInfer "ok"]
         (Raise (mkExc TypeError
                   "'>=' not supported between instances of 'float' and 'str'")) /\
  call (PyFloat 2.5) (PyFloat 0.1)
  = mkPy [EvInfer "ok"]
         (Raise (mkExc TypeError "topk(): argument 'k' must be int, not float")).
Proof. split; vm_compute; reflexivity. Qed.

(** The engine executable is missing: the full pipeline answers with the
    internal-error envelope and no song. *)
Example scenario_engine_missing :
  outcome (generate_full_playlist
             (sample_env scenario_probs
                (Raise (mkExc FileNotFoundError "[Errno 2] No such file"))
                (Raise oops_error))
             (classify_request "I feel so happy today!" 3 0.1%float))
  = Ok (mkResponse
          (ErrorBody "Internal Server Error"
             ("C++ executable not found at "
              ++ "/srv/web/backend/routes/../../../cpp/build/emotion_playlist.exe"))
          500).
Proof. vm_compute. reflexivity. Qed.

(** A blank mood is rejected before the engine is started. *)
Example scenario_blank_mood :
  generate_playlist
    (sample_env scenario_probs
       (Ok (subprocess.mkCompleted 0 scenario_stdout EmptyString))
       (Ok scenario_playlist))
    (playlist_request ["happy"; "  "])
  = mkPy [] (Ok (bad_request "All emotions must be non-empty strings")).
Proof. vm_compute. reflexivity. Qed.

(** ** The effect monad *)

Lemma outcome_bind {A B} (m : Py A) (k : A -> Py B) :
  outcome (m ≫= k) =
  match outcome m with
  | Ok a => outcome (k a)
  | Raise e => Raise e
  end.
Proof.
  unfold mbind, py_mbind, py_bind. destruct (outcome m); reflexivity.
Qed.

Lemma events_bind {A B} (m : Py A) (k : A -> Py B) :
  events (m ≫= k) =
  (events m ++ match outcome m with
               | Ok a => events (k a)
               | Raise _ => []
               end)%list.
Proof.
  unfold mbind, py_mbind, py_bind.
  destruct (outcome m); simpl; [reflexivity | now rewrite app_nil_r].
Qed.

Lemma outcome_try {A} (m : Py A) (h : PyExc -> Py A) :
  outcome (py_try m h) =
  match outcome m with
  | Ok a => Ok a
  | Raise e => outcome (h e)
  end.
Proof.
  unfold py_try. destruct (outcome m) eqn:E; simpl; auto.
Qed.

Lemma events_try {A} (m : Py A) (h : PyExc -> Py A) :
  events (py_try m h) =
  (events m ++ match outcome m with
               | Ok _ => []
               | Raise e => events (h e)
               end)%list.
Proof.
  unfold py_try. destruct (outcome m); simpl; [now rewrite app_nil_r | reflexivity].
Qed.

(** ** torch.topk *)

Lemma insert_desc_length x l : length (insert_desc x l) = S (length l).
Proof.
  induction l as [|y l IH]; simpl; [reflexivity|].
  destruct (ranks_below (fst x) (fst y)); simpl; [now rewrite IH | reflexivity].
Qed.

Lemma insert_desc_In p x l : In p (insert_desc x l) <-> p = x \/ In p l.
Proof.
  induction l as [|y l IH]; simpl.
  - intuition congruence.
  - destruct (ranks_below (fst x) (fst y)); simpl; rewrite ?IH; intuition congruence.
Qed.

Lemma foldr_insert_desc_length l : length (foldr insert_desc [] l) = length l.
Proof.
  induction l as [|x l IH]; simpl; [reflexivity|].
  now rewrite insert_desc_length, IH.
Qed.

Lemma foldr_insert_desc_In p l : In p (foldr insert_desc [] l) <-> In p l.
Proof.
  induction l as [|x l IH]; simpl; [tauto|].
  rewrite insert_desc_In, IH. intuition congruence.
Qed.

Lemma sort_desc_length probs : length (sort_desc probs) = length probs.
Proof.
  unfold sort_desc. rewrite foldr_insert_desc_length.
  rewrite length_combine, length_seq. lia.
Qed.

Lemma combine_seq_In (probs : list float) s i start :
  In (s, i) (combine probs (seq start (length probs))) ->
  exists j, i = (start + j)%nat /\ nth_error probs j = Some s.
Proof.
  revert start. induction probs as [|x probs IH]; simpl; intros start H; [tauto|].
  destruct H as [H|H].
  - inversion H; subst. exists 0%nat. split; [lia | reflexivity].
  - destruct (IH _ H) as (j & -> & Hj). exists (S j). split; [lia | exact Hj].
Qed.

(** Each pair of the sorted list is a score of [probs] with its position. *)
Lemma sort_desc_In probs s i :
  In (s, i) (sort_desc probs) -> nth_error probs i = Some s.
Proof.
  unfold sort_desc. rewrite foldr_insert_desc_In. intros H.
  destruct (combine_seq_In _ _ _ _ H) as (j & -> & Hj). exact Hj.
Qed.

Lemma In_firstn_inv {A} (x : A) n l : In x (firstn n l) -> In x l.
Proof.
  revert l. induction n as [|n IH]; intros [|y l]; simpl; try tauto.
  intros [H|H]; [now left | right; now apply IH].
Qed.

Lemma torch_topk_Ok msg probs k pairs :
  torch_topk msg probs k = Ok pairs ->
  0 <= k <= Z.of_nat (length probs) /\
  pairs = firstn (Z.to_nat k) (sort_desc probs) /\
  length pairs = Z.to_nat k.
Proof.
  unfold torch_topk.
  destruct ((k <? - 2 ^ 63) || (2 ^ 63 <=? k)); [discriminate|].
  destruct (k <? 0) eqn:E1; simpl; [discriminate|].
  destruct (Z.of_nat (length probs) <? k) eqn:E2; [discriminate|].
  intros [= <-]. apply Z.ltb_ge in E1, E2.
  split; [lia|]. split; [reflexivity|].
  rewrite length_firstn, sort_desc_length. lia.
Qed.

Lemma torch_topk_total msg probs k :
  0 <= k <= Z.of_nat (length probs) -> k < 2 ^ 63 ->
  torch_topk msg probs k = Ok (firstn (Z.to_nat k) (sort_desc probs)).
Proof.
  intros [H1 H2] H3. unfold torch_topk.
  assert (E0 : (k <? - 2 ^ 63) = false) by (apply Z.ltb_ge; lia).
  assert (E3 : (2 ^ 63 <=? k) = false) by (apply Z.leb_gt; exact H3).
  apply Z.ltb_ge in H1, H2. now rewrite E0, E3, H1, H2.
Qed.

Lemma torch_topk_In msg probs k pairs s i :
  torch_topk msg probs k = Ok pairs -> In (s, i) pairs ->
  nth_error probs i = Some s.
Proof.
  intros H Hin. apply torch_topk_Ok in H as (_ & -> & _).
  apply sort_desc_In. eapply In_firstn_inv, Hin.
Qed.

(** ** The loop of [classify] *)

Import EmotionClassifier.

Lemma label_at_Ok idx l : label_at idx = Ok l <-> nth_error EMOTION_LABELS idx = Some l.
Proof.
  unfold label_at. destruct (nth_error EMOTION_LABELS idx); split; congruence.
Qed.

Lemma classify_loop_Ok pairs th raw simp raw' simp' :
  classify_loop pairs th raw simp = Ok (raw', simp') ->
  exists entries,
    raw' = (raw ++ entries)%list /\
    Forall2 (retained_as th) (List.filter (passes th) pairs) entries /\
    simp' = simp ∪ moods_of entries.
Proof.
  revert raw simp.
  induction pairs as [|[s i] rest IH]; simpl; intros raw simp H.
  - inversion H; subst. exists []. rewrite app_nil_r.
    split; [reflexivity|]. split; [constructor|].
    unfold moods_of; simpl. now rewrite (right_id_L ∅ (∪)).
  - unfold passes at 1; simpl.
    destruct (PrimFloat.leb th s) eqn:Hle.
    + destruct (label_at i) as [l|e] eqn:Hl; [|discriminate].
      apply IH in H as (entries & -> & HF & ->).
      exists (mkRaw l (py_round4 s) :: entries).
      rewrite <- app_assoc. split; [reflexivity|]. split.
      * constructor; [|exact HF].
        repeat split; simpl; [exact Hle | now apply label_at_Ok].
      * unfold moods_of; simpl. now rewrite (assoc_L (∪)).
    + apply IH in H as (entries & -> & HF & ->). now exists entries.
Qed.

Lemma classify_loop_total pairs th raw simp :
  (forall p, In p pairs -> (snd p < length EMOTION_LABELS)%nat) ->
  exists r, classify_loop pairs th raw simp = Ok r.
Proof.
  revert raw simp.
  induction pairs as [|[s i] rest IH]; simpl; intros raw simp H; [eauto|].
  destruct (PrimFloat.leb th s).
  - unfold label_at.
    destruct (nth_error EMOTION_LABELS i) as [l|] eqn:Hl.
    + apply IH. intros p Hp. apply H. now right.
    + apply nth_error_None in Hl. specialize (H (s, i) (or_introl eq_refl)).
      simpl in H, Hl. lia.
  - apply IH. intros p Hp. apply H. now right.
Qed.

(** What a successful [aggregate] returned, field by field. *)
Lemma aggregate_Ok msg txt probs top_k th r :
  aggregate msg txt probs top_k th = Ok r ->
  exists pairs,
    torch_topk msg probs (Z.min top_k (Z.of_nat (length probs))) = Ok pairs /\
    Forall2 (retained_as th) (List.filter (passes th) pairs) (raw_emotions r) /\
    text r = txt /\
    simplified_emotions r = py_sorted (elements (moods_of (raw_emotions r))) /\
    dominant_emotion r = match raw_emotions r with
                         | e :: _ => emotion e
                         | [] => "neutral"
                         end /\
    confidence r = match raw_emotions r with
                   | e :: _ => score e
                   | [] => 0%float
                   end.
Proof.
  unfold aggregate.
  destruct (torch_topk _ _ _) as [pairs|e] eqn:Ht; [|discriminate].
  destruct (classify_loop pairs th [] ∅) as [[raw simp]|e] eqn:Hl; [|discriminate].
  intros [= <-]. simpl.
  apply classify_loop_Ok in Hl as (entries & -> & HF & ->). simpl.
  exists pairs. rewrite (left_id_L ∅ (∪)). auto 10.
Qed.

Lemma aggregate_total msg txt probs top_k th :
  0 <= top_k -> (length probs <= length EMOTION_LABELS)%nat ->
  exists r, aggregate msg txt probs top_k th = Ok r.
Proof.
  intros Hk Hlen. unfold aggregate.
  assert (Hsmall : Z.of_nat (length probs) < 2 ^ 63).
  { change (length EMOTION_LABELS) with 28%nat in Hlen.
    change (2 ^ 63) with 9223372036854775808. lia. }
  rewrite torch_topk_total by lia.
  destruct (classify_loop_total
              (firstn (Z.to_nat (Z.min top_k (Z.of_nat (length probs))))
                      (sort_desc probs)) th [] ∅) as [[raw simp] Hr].
  - intros [s i] Hp. apply In_firstn_inv, sort_desc_In in Hp. simpl.
    assert (i < length probs)%nat by (apply nth_error_Some; congruence).
    simpl in Hlen |- *. lia.
  - rewrite Hr. eauto.
Qed.

Lemma outcome_classify msg self txt top_k th :
  outcome (classify msg self txt top_k th) =
  match softmax_probs self txt with
  | Ok probs => aggregate msg txt probs top_k th
  | Raise e => Raise e
  end.
Proof.
  unfold classify. rewrite outcome_bind. reflexivity.
Qed.

Lemma events_classify msg self txt top_k th :
  events (classify msg self txt top_k th) = [EvInfer txt].
Proof.
  unfold classify. rewrite events_bind. simpl.
  destruct (softmax_probs self txt); reflexivity.
Qed.

(** At the annotated types the method on request values is [classify]. *)
Lemma classify_loop_dyn_annotated msg pairs th raw simp :
  classify_loop_dyn msg pairs (PyFloat th) raw simp
  = classify_loop pairs th raw simp.
Proof.
  revert raw simp. induction pairs as [|[s i] rest IH]; intros raw simp;
    [reflexivity|].
  cbn [classify_loop_dyn classify_loop score_passes].
  destruct (PrimFloat.leb th s); [|apply IH].
  destruct (label_at i); [apply IH | reflexivity].
Qed.

Lemma aggregate_dyn_annotated msg txt probs k th :
  aggregate_dyn msg txt probs (PyInt k) (PyFloat th)
  = aggregate msg txt probs k th.
Proof.
  unfold aggregate_dyn, aggregate. cbn [min_with_len torch_topk_dyn].
  destruct (torch_topk msg probs _); [|reflexivity].
  now rewrite classify_loop_dyn_annotated.
Qed.

Lemma classify_dyn_annotated msg self txt k th :
  classify_dyn msg self txt (PyInt k) (PyFloat th)
  = classify msg self txt k th.
Proof.
  unfold classify_dyn, classify, mbind, py_mbind, py_bind.
  destruct (softmax_probs self txt); cbn [outcome events py_emit py_lift];
    [|reflexivity].
  now rewrite aggregate_dyn_annotated.
Qed.

Lemma outcome_classify_dyn msg self txt top_k th :
  outcome (classify_dyn msg self txt top_k th) =
  match softmax_probs self txt with
  | Ok probs => aggregate_dyn msg txt probs top_k th
  | Raise e => Raise e
  end.
Proof.
  unfold classify_dyn. rewrite outcome_bind. reflexivity.
Qed.

Lemma events_classify_dyn msg self txt top_k th :
  events (classify_dyn msg self txt top_k th) = [EvInfer txt].
Proof.
  unfold classify_dyn. rewrite events_bind.
  cbn [events outcome py_emit py_lift].
  destruct (softmax_probs self txt); reflexivity.
Qed.

Lemma call_classify_annotated env classifier t k th :
  call_classify env classifier (PyStr t) (PyInt k) (PyFloat th)
  = classify (lib_message env) classifier t k th.
Proof. apply classify_dyn_annotated. Qed.

Lemma filter_length_le {A} (f : A -> bool) l :
  (length (List.filter f l) <= length l)%nat.
Proof.
  induction l as [|x l IH]; simpl; [lia|]. destruct (f x); simpl; lia.
Qed.

Lemma filter_none {A} (f : A -> bool) l :
  (forall x, In x l -> f x = false) -> List.filter f l = [].
Proof.
  induction l as [|x l IH]; simpl; intros H; [reflexivity|].
  rewrite (H x) by now left. apply IH. intros y Hy. apply H. now right.
Qed.

Lemma Forall2_In_r {A B} (R : A -> B -> Prop) l k y :
  Forall2 R l k -> In y k -> exists x, In x l /\ R x y.
Proof.
  induction 1 as [|x y' l k HR HF IH]; simpl; [tauto|].
  intros [->|Hy]; [exists x; auto|].
  destruct (IH Hy) as (x' & Hx' & HR'). exists x'. auto.
Qed.

Lemma filter_In_inv {A} (f : A -> bool) l x :
  In x (List.filter f l) -> In x l /\ f x = true.
Proof. apply filter_In. Qed.

(** ** Ordering of floats *)

Lemma SFcompare_Lt_Gt x y : SFcompare x y = Some Lt -> SFcompare y x = Some Gt.
Proof.
  destruct x as [sx|sx| |sx mx ex], y as [sy|sy| |sy my ey]; simpl;
    try discriminate; try (destruct sx; discriminate || reflexivity);
    try (destruct sy; discriminate || reflexivity);
    try (destruct sx, sy; discriminate || reflexivity).
  assert (Hm : Pos.compare_cont Eq my mx = CompOpp (Pos.compare_cont Eq mx my))
    by (symmetry; apply (Pos.compare_cont_antisym mx my Eq)).
  destruct sx, sy; try discriminate; try reflexivity;
    rewrite (Z.compare_antisym ex ey), Hm;
    destruct (ex ?= ey)%Z; simpl; try discriminate; try reflexivity;
    destruct (Pos.compare_cont Eq mx my); simpl; try discriminate; reflexivity.
Qed.

(** [s < t] excludes [s >= t]. *)
Lemma float_lt_not_ge s t : PrimFloat.ltb s t = true -> PrimFloat.leb t s = false.
Proof.
  rewrite ltb_spec, leb_spec. unfold SFltb, SFleb.
  destruct (SFcompare (Prim2SF s) (Prim2SF t)) as [[]|] eqn:E; try discriminate.
  intros _. now rewrite (SFcompare_Lt_Gt _ _ E).
Qed.

(** ** The aggregation step *)

(** C1 (amended).  For every distribution over the vocabulary, positive
    [top_k] and threshold, [classify] returns; [raw_emotions] has at most
    [min(top_k, len(probs))] items; every item stands for a score of the
    distribution that itself satisfies [score >= threshold] and carries the
    label at that score's position (the item stores the score rounded to
    four decimals); and a threshold greater than every score leaves
    [raw_emotions] empty. *)
Theorem classify_top_labels msg self txt probs top_k threshold :
  softmax_probs self txt = Ok probs ->
  (length probs <= length EMOTION_LABELS)%nat ->
  0 < top_k ->
  exists r,
    outcome (classify msg self txt top_k threshold) = Ok r /\
    Z.of_nat (length (raw_emotions r)) <= Z.min top_k (Z.of_nat (length probs)) /\
    (forall e, In e (raw_emotions r) ->
       exists s i,
         nth_error probs i = Some s /\
         PrimFloat.leb threshold s = true /\
         nth_error EMOTION_LABELS i = Some (emotion e) /\
         score e = py_round4 s) /\
    ((forall s, In s probs -> PrimFloat.ltb s threshold = true) ->
     raw_emotions r = []).
Proof.
  intros Hp Hlen Hk.
  destruct (aggregate_total msg txt probs top_k threshold) as [r Hr]; [lia|exact Hlen|].
  exists r. rewrite outcome_classify, Hp. split; [exact Hr|].
  destruct (aggregate_Ok _ _ _ _ _ _ Hr) as (pairs & Ht & HF & _).
  pose proof (torch_topk_Ok _ _ _ _ Ht) as (Hrange & _ & Hlenp).
  split; [|split].
  - apply Forall2_length in HF.
    pose proof (filter_length_le (passes threshold) pairs). lia.
  - intros e He.
    destruct (Forall2_In_r _ _ _ _ HF He) as ([s i] & Hin & Hle & Hlab & Hsc).
    apply filter_In_inv in Hin as [Hin _].
    exists s, i. simpl in *. eauto using torch_topk_In.
  - intros Hall.
    rewrite filter_none in HF; [now inversion HF|].
    intros [s i] Hin. unfold passes; simpl.
    apply float_lt_not_ge, Hall.
    eapply nth_error_In, torch_topk_In; eauto.
Qed.

Lemma classify_top_labels_witness :
  softmax_probs (constant_model scenario_probs) "I feel so happy today!"
    = Ok scenario_probs /\
  (length scenario_probs <= length EMOTION_LABELS)%nat /\
  0 < 3 /\
  exists r,
    outcome (classify sample_message (constant_model scenario_probs)
               "I feel so happy today!" 3 0.1%float) = Ok r /\
    Z.of_nat (length (raw_emotions r))
      <= Z.min 3 (Z.of_nat (length scenario_probs)) /\
    (forall e, In e (raw_emotions r) ->
       exists s i,
         nth_error scenario_probs i = Some s /\
         PrimFloat.leb 0.1%float s = true /\
         nth_error EMOTION_LABELS i = Some (emotion e) /\
         score e = py_round4 s) /\
    ((forall s, In s scenario_probs -> PrimFloat.ltb s 0.1%float = true) ->
     raw_emotions r = []).
Proof.
  assert (H1 : softmax_probs (constant_model scenario_probs)
                 "I feel so happy today!" = Ok scenario_probs) by reflexivity.
  assert (H2 : (length scenario_probs <= length EMOTION_LABELS)%nat)
    by (vm_compute; lia).
  assert (H3 : 0 < 3) by lia.
  split; [exact H1|]. split; [exact H2|]. split; [exact H3|].
  exact (classify_top_labels sample_message _ _ _ 3 0.1%float H1 H2 H3).
Defined.

(** The claim as first stated fails on the stored score: with joy at
    [1/8 + 2^-15] and the threshold [0.12503], joy is retained, and the
    item stores [0.125], which is below the threshold. *)
Lemma stored_score_below_threshold :
  exists r,
    outcome (classify sample_message (constant_model rounding_probs)
               "so so" 2 0.12503%float) = Ok r /\
    Exists (fun e => PrimFloat.leb 0.12503%float (score e) = false)
           (raw_emotions r).
Proof.
  eexists. split; [vm_compute; reflexivity|].
  apply Exists_cons_tl, Exists_cons_hd. vm_compute. reflexivity.
Qed.

(** C2.  Whenever [classify] returns, [dominant_emotion] and [confidence]
    are the label and the score of the first item of [raw_emotions]; with
    no item they are ["neutral"] and [0.0]. *)
Theorem classify_dominant msg self txt top_k threshold r :
  outcome (classify msg self txt top_k threshold) = Ok r ->
  match raw_emotions r with
  | e :: _ => dominant_emotion r = emotion e /\ confidence r = score e
  | [] => dominant_emotion r = "neutral" /\ confidence r = 0%float
  end.
Proof.
  rewrite outcome_classify.
  destruct (softmax_probs self txt) as [probs|e]; [|discriminate].
  intros H. apply aggregate_Ok in H as (_ & _ & _ & _ & _ & Hd & Hc).
  rewrite Hd, Hc. destruct (raw_emotions r); split; reflexivity.
Qed.

Lemma classify_dominant_witness :
  outcome (classify sample_message (constant_model scenario_probs)
             "I feel so happy today!" 3 0.1%float) = Ok scenario_result /\
  dominant_emotion scenario_result = "joy" /\
  confidence scenario_result = 0.82%float.
Proof.
  assert (H : outcome (classify sample_message (constant_model scenario_probs)
                         "I feel so happy today!" 3 0.1%float)
              = Ok scenario_result) by (vm_compute; reflexivity).
  split; [exact H|].
  exact (classify_dominant sample_message _ _ 3 0.1%float _ H).
Defined.

(** C10.  The test [score >= threshold] is made on the score that [topk]
    returned; the item stores that score rounded to four decimals, and
    [confidence] is the rounded score of the first pair that passed.  For
    the distribution [rounding_probs] the stored score of joy differs from
    the score that passed the test. *)
Theorem classify_threshold_before_rounding :
  (forall msg self txt probs top_k threshold r,
      softmax_probs self txt = Ok probs ->
      outcome (classify msg self txt top_k threshold) = Ok r ->
      exists pairs,
        torch_topk msg probs (Z.min top_k (Z.of_nat (length probs))) = Ok pairs /\
        Forall2 (fun p e => PrimFloat.leb threshold (fst p) = true /\
                            score e = py_round4 (fst p))
                (List.filter (passes threshold) pairs) (raw_emotions r) /\
        confidence r = match List.filter (passes threshold) pairs with
                       | p :: _ => py_round4 (fst p)
                       | [] => 0%float
                       end) /\
  (exists r e s,
      outcome (classify sample_message (constant_model rounding_probs)
                 "so so" 2 0.12503%float) = Ok r /\
      In e (raw_emotions r) /\
      nth_error rounding_probs 17 = Some s /\
      nth_error EMOTION_LABELS 17 = Some (emotion e) /\
      PrimFloat.leb 0.12503%float s = true /\
      score e = py_round4 s /\
      PrimFloat.eqb (score e) s = false).
Proof.
  split.
  - intros msg self txt probs top_k threshold r Hp.
    rewrite outcome_classify, Hp. intros H.
    apply aggregate_Ok in H as (pairs & Ht & HF & _ & _ & _ & Hc).
    exists pairs. split; [exact Ht|]. split.
    + eapply Forall2_impl; [exact HF|].
      intros p e (H1 & _ & H3). auto.
    + rewrite Hc. inversion HF as [|p e ps es (_ & _ & Hs) _]; [reflexivity|].
      exact Hs.
  - eexists. exists (mkRaw "joy" 0.125%float). eexists.
    split; [vm_compute; reflexivity|].
    split; [right; left; reflexivity|].
    split; [vm_compute; reflexivity|].
    repeat split; vm_compute; reflexivity.
Qed.

Lemma classify_threshold_before_rounding_witness :
  softmax_probs (constant_model scenario_probs) "I feel so happy today!"
    = Ok scenario_probs /\
  outcome (classify sample_message (constant_model scenario_probs)
             "I feel so happy today!" 3 0.1%float) = Ok scenario_result /\
  exists pairs,
    torch_topk sample_message scenario_probs
      (Z.min 3 (Z.of_nat (length scenario_probs))) = Ok pairs /\
    Forall2 (fun p e => PrimFloat.leb 0.1%float (fst p) = true /\
                        score e = py_round4 (fst p))
            (List.filter (passes 0.1%float) pairs)
            (raw_emotions scenario_result) /\
    confidence scenario_result = match List.filter (passes 0.1%float) pairs with
                                 | p :: _ => py_round4 (fst p)
                                 | [] => 0%float
                                 end.
Proof.
  assert (H1 : softmax_probs (constant_model scenario_probs)
                 "I feel so happy today!" = Ok scenario_probs) by reflexivity.
  assert (H2 : outcome (classify sample_message (constant_model scenario_probs)
                          "I feel so happy today!" 3 0.1%float)
               = Ok scenario_result) by (vm_compute; reflexivity).
  split; [exact H1|]. split; [exact H2|].
  exact (proj1 classify_threshold_before_rounding sample_message _ _ _ 3
               0.1%float _ H1 H2).
Defined.

(** ** The mood table *)

(** C9.  [mapToMood] is a function read off the one table
    [EMOTION_MAPPING]: every label has exactly one mood, one of the four
    coarse moods; equal labels have equal moods; a label outside the table
    has the mood neutral; and each of the 28 labels is in the table. *)
Theorem mapToMood_total :
  (forall label, mapToMood label = default "neutral" (EMOTION_MAPPING !! label)) /\
  (forall label, exists! mood, mapToMood label = mood /\ In mood MOODS) /\
  (forall l1 l2, l1 = l2 -> mapToMood l1 = mapToMood l2) /\
  (forall label, EMOTION_MAPPING !! label = None -> mapToMood label = "neutral") /\
  (forall label, In label EMOTION_LABELS -> is_Some (EMOTION_MAPPING !! label)).
Proof.
  assert (Hcod : forall label, In (mapToMood label) MOODS).
  { intros label. unfold mapToMood.
    destruct (EMOTION_MAPPING !! label) as [m|] eqn:E; simpl; [|tauto].
    unfold EMOTION_MAPPING in E. apply elem_of_list_to_map_2 in E.
    repeat (apply elem_of_cons in E as [E|E];
            [inversion E; subst; simpl; tauto|]).
    now apply elem_of_nil in E. }
  split; [reflexivity|]. split; [|split; [|split]].
  - intros label. exists (mapToMood label). split; [auto|].
    intros m [<- _]. reflexivity.
  - intros l1 l2 ->. reflexivity.
  - intros label H. unfold mapToMood. now rewrite H.
  - intros label H. simpl in H.
    repeat (destruct H as [<-|H]; [vm_compute; eauto|]). contradiction.
Qed.

Lemma mapToMood_total_witness :
  EMOTION_MAPPING !! "boredom" = None /\ mapToMood "boredom" = "neutral".
Proof.
  assert (H : EMOTION_MAPPING !! "boredom" = None) by (vm_compute; reflexivity).
  split; [exact H|].
  exact (proj1 (proj2 (proj2 (proj2 mapToMood_total))) "boredom" H).
Defined.

(** ** The engine client *)

Lemma outcome_call_cpp_engine env emotions :
  outcome (call_cpp_engine env emotions) =
  match subprocess_run env (engine_args env (str_join "," emotions)) with
  | Ok p =>
      if subprocess.returncode p =? 0 then
        match json_loads env (subprocess.stdout p) with
        | Ok v => Ok v
        | Raise e => Raise (call_cpp_engine_except env e)
        end
      else
        Raise (call_cpp_engine_except env
                 (mkExc Exception ("C++ engine error: " ++ subprocess.stderr p)))
  | Raise e => Raise (call_cpp_engine_except env e)
  end.
Proof.
  unfold call_cpp_engine. rewrite outcome_try, outcome_bind. simpl.
  destruct (subprocess_run env _) as [p|e]; [|reflexivity].
  destruct (subprocess.returncode p =? 0); simpl; [|reflexivity].
  rewrite outcome_bind. simpl.
  destruct (json_loads env _); reflexivity.
Qed.

Lemma events_call_cpp_engine env emotions :
  events (call_cpp_engine env emotions) =
  EvRun (engine_args env (str_join "," emotions)) ::
  match subprocess_run env (engine_args env (str_join "," emotions)) with
  | Ok p => if subprocess.returncode p =? 0
            then [EvLoads (subprocess.stdout p)] else []
  | Raise _ => []
  end.
Proof.
  unfold call_cpp_engine. rewrite events_try, outcome_bind, events_bind. simpl.
  destruct (subprocess_run env _) as [p|e]; [|reflexivity].
  destruct (subprocess.returncode p =? 0); simpl; [|reflexivity].
  rewrite outcome_bind, events_bind. simpl.
  destruct (json_loads env _); reflexivity.
Qed.

Lemma call_cpp_engine_except_class env e :
  exc_class (call_cpp_engine_except env e) = Exception.
Proof.
  unfold call_cpp_engine_except. destruct (exc_class e); reflexivity.
Qed.

Lemma append_nil_r (s : string) : s ++ EmptyString = s.
Proof. induction s as [|c s IH]; simpl; [reflexivity | now rewrite IH]. Qed.

Lemma length_append (s1 s2 : string) :
  String.length (s1 ++ s2) = (String.length s1 + String.length s2)%nat.
Proof. induction s1 as [|c s1 IH]; simpl; [reflexivity | now rewrite IH]. Qed.

(** [','.join] is the joining the interface describes. *)
Lemma str_join_comma_joined moods : str_join "," moods = comma_joined moods.
Proof.
  unfold str_join. destruct moods as [|m rest]; [reflexivity|].
  revert m. induction rest as [|m' rest IH]; intros m.
  - simpl. now rewrite append_nil_r.
  - change (String.concat "," (m :: m' :: rest))
      with (m ++ "," ++ String.concat "," (m' :: rest)).
    rewrite IH. reflexivity.
Qed.

Lemma comma_joined_length moods :
  String.length (comma_joined moods) =
  (list_sum (map String.length moods) + (length moods - 1))%nat.
Proof.
  destruct moods as [|m rest]; [reflexivity|].
  assert (H : String.length (foldr (fun x acc => "," ++ x ++ acc) EmptyString rest)
              = (list_sum (map String.length rest) + length rest)%nat).
  { induction rest as [|x rest IH]; [reflexivity|].
    cbn [foldr fold_right].
    rewrite !length_append, IH.
    change (list_sum (map String.length (x :: rest)))
      with (String.length x + list_sum (map String.length rest))%nat.
    change (String.length ",") with 1%nat.
    change (length (x :: rest)) with (S (length rest)). lia. }
  unfold comma_joined. rewrite length_append, H.
  change (list_sum (map String.length (m :: rest)))
    with (String.length m + list_sum (map String.length rest))%nat.
  change (length (m :: rest)) with (S (length rest)). lia.
Qed.

(** C4 (amended).  A call of [call_cpp_engine] returns the parsed output
    or raises an [Exception] whose message tells the failure.  The engine
    is started with the configured timeout of 10 seconds, so
    [subprocess.run] does not wait longer than that for it; when the
    timeout is exceeded, [subprocess.run] raises [TimeoutExpired] and the
    client raises the fixed text "C++ engine timeout" after that one run,
    with nothing parsed, whatever the process would have printed had it
    been left to finish.  The other failures: "C++ executable not found at
    <path>" when [subprocess.run] raises [FileNotFoundError];
    "C++ engine error: C++ engine error: <stderr>" when the process exits
    non-zero, in which case stdout is not parsed; and
    "Failed to parse C++ output: <decoder message>" when stdout of a zero
    exit does not parse.  These four messages are pairwise different.  Any
    other exception of [subprocess.run] is raised again as
    "C++ engine error: <its text>". *)
Theorem call_cpp_engine_failures env emotions :
  let a := engine_args env (str_join "," emotions) in
  let res := outcome (call_cpp_engine env emotions) in
  subprocess.timeout a = 10 /\
  (forall e, subprocess_run env a = Raise e -> exc_class e = TimeoutExpired ->
     res = Raise (mkExc Exception "C++ engine timeout") /\
     events (call_cpp_engine env emotions) = [EvRun a]) /\
  (forall e, subprocess_run env a = Raise e -> exc_class e = FileNotFoundError ->
     res = Raise (mkExc Exception
                    ("C++ executable not found at " ++ CPP_EXECUTABLE env))) /\
  (forall p, subprocess_run env a = Ok p -> subprocess.returncode p <> 0 ->
     res = Raise (mkExc Exception
                    ("C++ engine error: C++ engine error: "
                     ++ subprocess.stderr p)) /\
     events (call_cpp_engine env emotions) = [EvRun a]) /\
  (forall p e, subprocess_run env a = Ok p -> subprocess.returncode p = 0 ->
     json_loads env (subprocess.stdout p) = Raise e ->
     exc_class e = JSONDecodeError ->
     res = Raise (mkExc Exception
                    ("Failed to parse C++ output: " ++ exc_str e))) /\
  (forall p v, subprocess_run env a = Ok p -> subprocess.returncode p = 0 ->
     json_loads env (subprocess.stdout p) = Ok v -> res = Ok v) /\
  (forall e, subprocess_run env a = Raise e ->
     exc_class e <> TimeoutExpired -> exc_class e <> JSONDecodeError ->
     exc_class e <> FileNotFoundError ->
     res = Raise (mkExc Exception ("C++ engine error: " ++ exc_str e))) /\
  (forall e, res = Raise e -> exc_class e = Exception) /\
  engine_messages_distinct.
Proof.
  intros a res. subst res.
  rewrite outcome_call_cpp_engine, events_call_cpp_engine. fold a.
  split; [reflexivity|].
  split; [|split; [|split; [|split; [|split; [|split; [|split]]]]]].
  - intros e -> Hc. unfold call_cpp_engine_except. rewrite Hc.
    split; reflexivity.
  - intros e -> Hc. unfold call_cpp_engine_except. now rewrite Hc.
  - intros p -> Hrc. apply Z.eqb_neq in Hrc. rewrite Hrc. split; reflexivity.
  - intros p e -> -> -> Hc. simpl. unfold call_cpp_engine_except. now rewrite Hc.
  - intros p v -> -> ->. reflexivity.
  - intros e -> H1 H2 H3. unfold call_cpp_engine_except.
    destruct (exc_class e); congruence.
  - intros e.
    destruct (subprocess_run env a) as [p|e0].
    + destruct (subprocess.returncode p =? 0).
      * destruct (json_loads env (subprocess.stdout p)); [discriminate|].
        intros [= <-]. apply call_cpp_engine_except_class.
      * intros [= <-]. reflexivity.
    + intros [= <-]. apply call_cpp_engine_except_class.
  - intros path stderr_text decoder_text. simpl.
    repeat split; discriminate.
Qed.

Lemma call_cpp_engine_failures_witness :
  let env := sample_env scenario_probs
               (Ok (subprocess.mkCompleted 0 "oops" EmptyString))
               (Raise oops_error) in
  let p := subprocess.mkCompleted 0 "oops" EmptyString in
  subprocess_run env (engine_args env (str_join "," ["happy"])) = Ok p /\
  subprocess.returncode p = 0 /\
  json_loads env (subprocess.stdout p) = Raise oops_error /\
  exc_class oops_error = JSONDecodeError /\
  outcome (call_cpp_engine env ["happy"]) =
    Raise (mkExc Exception
             ("Failed to parse C++ output: " ++ exc_str oops_error)).
Proof.
  intros env p.
  repeat (split; [reflexivity|]).
  exact (proj1 (proj2 (proj2 (proj2 (proj2
                  (call_cpp_engine_failures env ["happy"])))))
           p oops_error eq_refl eq_refl eq_refl eq_refl).
Defined.

(** The claim as first stated fails where it lets the parse failure carry
    the raw output: for the stdout [oops] the message raised holds the
    decoder's text and not the stdout. *)
Lemma malformed_output_not_carried :
  exists e,
    outcome (call_cpp_engine
               (sample_env scenario_probs
                  (Ok (subprocess.mkCompleted 0 "oops" EmptyString))
                  (Raise oops_error))
               ["happy"]) = Raise e /\
    exc_str e =
      "Failed to parse C++ output: Expecting value: line 1 column 1 (char 0)" /\
    is_substring "oops" (exc_str e) = false.
Proof.
  eexists. split; [vm_compute; reflexivity|]. split; vm_compute; reflexivity.
Qed.

(** C5.  For every mood list, [call_cpp_engine] starts the engine once,
    with the executable followed by exactly two arguments: the catalog
    path and the moods joined by single commas (as many characters as the
    moods have, plus one comma between neighbours, so nothing around them
    and no comma after the last); stdout and stderr are captured, each in
    its own field of the completed process. *)
Theorem call_cpp_engine_invocation env emotions :
  exists a rest,
    events (call_cpp_engine env emotions) = EvRun a :: rest /\
    (forall a', ~ In (EvRun a') rest) /\
    subprocess.args a
      = [CPP_EXECUTABLE env; SONGS_CSV env; comma_joined emotions] /\
    subprocess.capture_output a = true /\
    subprocess.text a = true /\
    String.length (comma_joined emotions)
      = (list_sum (map String.length emotions) + (length emotions - 1))%nat.
Proof.
  eexists _, _. split; [apply events_call_cpp_engine|].
  split.
  - intros a' H.
    destruct (subprocess_run env _) as [p|e]; [|exact H].
    destruct (subprocess.returncode p =? 0); [|exact H].
    destruct H as [H|[]]. discriminate.
  - simpl. rewrite str_join_comma_joined.
    repeat split. apply comma_joined_length.
Qed.

(** ** The routes *)

Lemma route_outcome (m : Py Response) endpoint :
  outcome (py_try m (internal_error endpoint)) =
  Ok match outcome m with
     | Ok r => r
     | Raise e => mkResponse (ErrorBody "Internal Server Error" (exc_str e)) 500
     end.
Proof.
  rewrite outcome_try. destruct (outcome m); reflexivity.
Qed.

Lemma route_events (m : Py Response) endpoint :
  events (py_try m (internal_error endpoint)) =
  (events m ++
   match outcome m with
   | Ok _ => []
   | Raise e => [EvPrint ("Error in " ++ endpoint ++ " endpoint: " ++ exc_str e)]
   end)%list.
Proof.
  rewrite events_try. destruct (outcome m); reflexivity.
Qed.

Lemma missing_field_present env items key v :
  dict_lookup items key = Some v ->
  missing_field env (PyDict items) key = Ok false.
Proof.
  intros H. unfold missing_field, py_truthy, py_contains.
  rewrite bool_decide_eq_true_2 by (rewrite H; eauto).
  destruct items; [discriminate | reflexivity].
Qed.

Lemma py_getitem_present env items key v :
  dict_lookup items key = Some v -> py_getitem env (PyDict items) key = Ok v.
Proof. intros H. simpl. now rewrite H. Qed.

Lemma Py_eq {A} (a b : Py A) :
  events a = events b -> outcome a = outcome b -> a = b.
Proof. destruct a, b; simpl; congruence. Qed.

Lemma missing_field_dict env items key :
  missing_field env (PyDict items) key
  = Ok (match dict_lookup items key with Some _ => false | None => true end).
Proof.
  unfold missing_field, py_truthy, py_contains.
  destruct items as [|i items]; [reflexivity|]. cbn [negb].
  destruct (dict_lookup (i :: items) key) eqn:E.
  - rewrite bool_decide_eq_true_2 by eauto. reflexivity.
  - rewrite bool_decide_eq_false_2; [reflexivity|]. intros [x Hx]. discriminate.
Qed.

Lemma bind_lift_Ok {A B} (a : A) (k : A -> Py B) : py_lift (Ok a) ≫= k = k a.
Proof.
  unfold mbind, py_mbind, py_bind. cbn [outcome events py_lift app].
  now destruct (k a).
Qed.

Lemma py_getitem_Ok_inv env data key v :
  py_getitem env data key = Ok v ->
  exists items, data = PyDict items /\ dict_lookup items key = Some v.
Proof.
  destruct data; try discriminate. simpl.
  destruct (dict_lookup d key) eqn:E; [|discriminate].
  intros [= <-]. eauto.
Qed.

Lemma blank_or_not_str_false v :
  blank_or_not_str v = false -> exists t, v = PyStr t /\ strip_nonempty t = true.
Proof.
  destruct v; try discriminate. simpl. intros H.
  apply negb_false_iff in H. eauto.
Qed.

Lemma validate_emotions_Some es emotions :
  validate_emotions es = Some emotions ->
  es = map PyStr emotions /\
  Forall (fun m => strip_nonempty m = true) emotions.
Proof.
  revert emotions. induction es as [|e es IH]; simpl; intros emotions.
  - intros [= <-]. split; [reflexivity | constructor].
  - destruct (blank_or_not_str e) eqn:Hb; [discriminate|].
    apply blank_or_not_str_false in Hb as (t & -> & Ht).
    destruct (validate_emotions es) as [l|]; [|discriminate].
    intros [= <-]. destruct (IH l eq_refl) as [-> HF].
    split; [reflexivity | now constructor].
Qed.

(** C8 (amended).  When the engine exits with status 0 and its stdout
    parses to an object with the fields [songs] and [count], the playlist
    operation answers 200 with the request's moods and with exactly these
    two values; so the answer has [count == len(songs)] whenever the
    engine's output has. *)
Theorem generate_playlist_passes_through env items es emotions p d songs count :
  dict_lookup items "emotions" = Some (PyList es) ->
  es <> [] ->
  validate_emotions es = Some emotions ->
  subprocess_run env (engine_args env (str_join "," emotions)) = Ok p ->
  subprocess.returncode p = 0 ->
  json_loads env (subprocess.stdout p) = Ok (PyDict d) ->
  dict_lookup d "songs" = Some songs ->
  dict_lookup d "count" = Some count ->
  outcome (generate_playlist env (mkRequest POST (Ok (PyDict items))))
  = Ok (mkResponse (PlaylistBody emotions songs count) 200).
Proof.
  intros Hem Hne Hval Hrun Hrc Hloads Hsongs Hcount.
  unfold generate_playlist. cbn [method].
  rewrite route_outcome. f_equal.
  unfold generate_playlist_try. cbn [get_json].
  rewrite outcome_bind. cbn [outcome py_lift].
  rewrite outcome_bind. cbn [outcome py_lift].
  rewrite (missing_field_present _ _ _ _ Hem).
  rewrite outcome_bind. cbn [outcome py_lift].
  rewrite (py_getitem_present _ _ _ _ Hem).
  destruct es as [|e es']; [congruence|].
  rewrite Hval.
  rewrite outcome_bind, outcome_call_cpp_engine, Hrun, Hrc. cbn [Z.eqb].
  rewrite Hloads.
  rewrite outcome_bind. cbn [outcome py_lift].
  rewrite (py_getitem_present _ _ _ _ Hsongs).
  rewrite outcome_bind. cbn [outcome py_lift].
  rewrite (py_getitem_present _ _ _ _ Hcount).
  reflexivity.
Qed.

Lemma generate_playlist_passes_through_witness :
  let env := sample_env scenario_probs
               (Ok (subprocess.mkCompleted 0 scenario_stdout EmptyString))
               (Ok scenario_playlist) in
  outcome (generate_playlist env (playlist_request ["happy"; "excited"]))
  = Ok (mkResponse
          (PlaylistBody ["happy"; "excited"]
             (PyList [PyDict [("id", PyInt 1)]]) (PyInt 1))
          200).
Proof.
  intros env.
  refine (generate_playlist_passes_through env
            [("emotions", PyList [PyStr "happy"; PyStr "excited"])]
            [PyStr "happy"; PyStr "excited"] ["happy"; "excited"]
            (subprocess.mkCompleted 0 scenario_stdout EmptyString)
            [("songs", PyList [PyDict [("id", PyInt 1)]]); ("count", PyInt 1)]
            (PyList [PyDict [("id", PyInt 1)]]) (PyInt 1)
            eq_refl _ eq_refl eq_refl eq_refl eq_refl eq_refl eq_refl).
  discriminate.
Defined.

(** The claim as first stated fails on an engine output whose [count] is
    not the number of its songs: the answer repeats both as they came. *)
Lemma playlist_count_not_checked :
  outcome (generate_playlist
             (sample_env scenario_probs
                (Ok (subprocess.mkCompleted 0 miscount_stdout EmptyString))
                (Ok miscount_playlist))
             (playlist_request ["happy"]))
  = Ok (mkResponse (PlaylistBody ["happy"] (PyList []) (PyInt 5)) 200)
  /\ 5 <> Z.of_nat (length (@nil PyVal)).
Proof.
  split; [vm_compute; reflexivity | discriminate].
Qed.

Lemma get_classifier_sample probs run loads :
  get_classifier (sample_env probs run loads) = Ok (constant_model probs).
Proof. reflexivity. Qed.

(** C6 (amended).  A classify request with a non-blank text and an integer
    [top_k <= 0] is never answered as bad input: with [top_k = 0] it is
    answered 200 with no retained emotion, dominant emotion neutral and
    confidence 0.0; with [top_k < 0] the error that [torch.topk] raises is
    answered as an internal error (500). *)
Theorem classify_emotion_non_positive_top_k env items t k th model probs :
  dict_lookup items "text" = Some (PyStr t) ->
  strip_nonempty t = true ->
  dict_lookup items "top_k" = Some (PyInt k) ->
  py_get (PyDict items) "threshold" (PyFloat 0.1) = PyFloat th ->
  get_classifier env = Ok model ->
  softmax_probs model t = Ok probs ->
  k <= 0 ->
  exists resp,
    outcome (classify_emotion env (mkRequest POST (Ok (PyDict items)))) = Ok resp /\
    status resp <> 400 /\
    (k = 0 ->
     resp = mkResponse
              (ClassifyBody
                 {| text := t; raw_emotions := []; simplified_emotions := [];
                    dominant_emotion := "neutral"; confidence := 0%float |})
              200) /\
    (k < 0 ->
     resp = mkResponse
              (ErrorBody "Internal Server Error"
                 (lib_message env (TopkOutOfRange k)))
              500).
Proof.
  intros Htext Hblank Hk Hth Hcl Hprobs Hle.
  unfold classify_emotion. cbn [method].
  rewrite route_outcome. eexists. split; [reflexivity|].
  unfold classify_emotion_try. cbn [get_json].
  rewrite outcome_bind. cbn [outcome py_lift].
  rewrite outcome_bind. cbn [outcome py_lift].
  rewrite (missing_field_present _ _ _ _ Htext).
  rewrite outcome_bind. cbn [outcome py_lift].
  rewrite (py_getitem_present _ _ _ _ Htext).
  unfold blank_or_not_str. rewrite Hblank. cbn [negb].
  rewrite outcome_bind. cbn [outcome py_lift]. rewrite Hcl.
  rewrite outcome_bind. rewrite Hth.
  unfold py_get. rewrite Hk. cbn [default from_option id].
  rewrite call_classify_annotated, outcome_classify, Hprobs.
  unfold aggregate.
  destruct (Z.eq_dec k 0) as [->|Hneq].
  - rewrite torch_topk_total by lia.
    rewrite Z.min_l by lia.
    change (firstn (Z.to_nat 0) (sort_desc probs)) with (@nil (float * nat)).
    cbn [classify_loop]. rewrite elements_empty. cbn.
    split; [discriminate|]. split; [reflexivity | lia].
  - unfold torch_topk. rewrite Z.min_l by lia.
    assert (Hneg : (k <? 0) = true) by (apply Z.ltb_lt; lia).
    rewrite Hneg.
    destruct ((k <? - 2 ^ 63) || (2 ^ 63 <=? k)); cbn;
      (split; [discriminate|]; split; [lia | reflexivity]).
Qed.

Lemma classify_emotion_non_positive_top_k_witness :
  exists resp,
    outcome (classify_emotion
               (sample_env scenario_probs
                  (Raise (mkExc FileNotFoundError "not used")) (Raise oops_error))
               (classify_request "I feel so happy today!" (-1) 0.1%float))
    = Ok resp /\
    status resp <> 400 /\
    (-1 = 0 ->
     resp = mkResponse
              (ClassifyBody
                 {| text := "I feel so happy today!"; raw_emotions := [];
                    simplified_emotions := [];
                    dominant_emotion := "neutral"; confidence := 0%float |})
              200) /\
    (-1 < 0 ->
     resp = mkResponse
              (ErrorBody "Internal Server Error" "selected index k out of range")
              500).
Proof.
  refine (classify_emotion_non_positive_top_k
            (sample_env scenario_probs
               (Raise (mkExc FileNotFoundError "not used")) (Raise oops_error))
            [("text", PyStr "I feel so happy today!"); ("top_k", PyInt (-1));
             ("threshold", PyFloat 0.1%float)]
            "I feel so happy today!" (-1) 0.1%float
            (constant_model scenario_probs) scenario_probs
            eq_refl eq_refl eq_refl eq_refl eq_refl eq_refl _).
  lia.
Defined.

(** The claim as first stated fails for [top_k = 0]: the request is
    answered 200 with an empty result. *)
Lemma classify_top_k_zero_succeeds :
  outcome (classify_emotion
             (sample_env scenario_probs
                (Raise (mkExc FileNotFoundError "not used")) (Raise oops_error))
             (classify_request "I feel so happy today!" 0 0.1%float))
  = Ok (mkResponse
          (ClassifyBody
             {| text := "I feel so happy today!"; raw_emotions := [];
                simplified_emotions := [];
                dominant_emotion := "neutral"; confidence := 0%float |})
          200).
Proof. vm_compute. reflexivity. Qed.

(** One step through a [try:] block: expose the next call and split on how
    it ended. *)
Ltac bind_step :=
  rewrite ?outcome_bind;
  cbn [outcome py_lift py_ret mret py_mret];
  match goal with
  | |- context [match ?x with Ok _ => _ | Raise _ => _ end] => destruct x eqn:?
  | |- context [if ?b then _ else _] => destruct b eqn:?
  | |- context [match ?x with Some _ => _ | None => _ end] => destruct x eqn:?
  end.

Ltac envelope_done :=
  cbn [outcome py_lift py_ret mret py_mret];
  first
    [ discriminate
    | intros [= <-]; split;
      [ first [ apply env_bad_input | apply env_success; exact I ]
      | discriminate ] ].

Lemma classify_emotion_try_envelope env request resp :
  outcome (classify_emotion_try env request) = Ok resp ->
  Envelope resp /\ status resp <> 500.
Proof.
  unfold classify_emotion_try.
  repeat (try envelope_done; bind_step); envelope_done.
Qed.

Lemma generate_playlist_try_envelope env request resp :
  outcome (generate_playlist_try env request) = Ok resp ->
  Envelope resp /\ status resp <> 500.
Proof.
  unfold generate_playlist_try.
  rewrite outcome_bind; cbn [outcome py_lift].
  destruct (get_json request) as [data|]; [|discriminate].
  rewrite outcome_bind; cbn [outcome py_lift].
  destruct (missing_field env data "emotions") as [[]|]; try envelope_done.
  rewrite outcome_bind; cbn [outcome py_lift].
  destruct (py_getitem env data "emotions") as [emotions|]; [|discriminate].
  destruct emotions as [| | | | |[|e es]|]; try envelope_done.
  repeat (try envelope_done; bind_step); envelope_done.
Qed.

Lemma generate_full_playlist_try_envelope env request resp :
  outcome (generate_full_playlist_try env request) = Ok resp ->
  Envelope resp /\ status resp <> 500.
Proof.
  unfold generate_full_playlist_try.
  repeat (try envelope_done; bind_step); envelope_done.
Qed.

Lemma wrapped_route_answers route_try endpoint :
  (forall env request resp,
      outcome (route_try env request) = Ok resp ->
      Envelope resp /\ status resp <> 500) ->
  answers
    (fun env request =>
       match method request with
       | OPTIONS => mret (mkResponse EmptyBody 204)
       | POST => py_try (route_try env request) (internal_error endpoint)
       end)
    route_try endpoint.
Proof.
  intros Htry env request. cbv beta.
  destruct (method request) eqn:Hm.
  - exists (mkResponse EmptyBody 204).
    split; [reflexivity|]. split; [constructor|].
    split; [discriminate|]. cbn. discriminate.
  - rewrite route_outcome, route_events.
    destruct (outcome (route_try env request)) as [resp|e] eqn:Ho.
    + exists resp. destruct (Htry _ _ _ Ho) as [He Hs].
      split; [reflexivity|]. split; [exact He|].
      split; [discriminate|]. intros H. contradiction.
    + eexists. split; [reflexivity|]. split; [constructor|]. split.
      * intros e' _ [= <-]. split; [reflexivity|].
        apply in_or_app. right. now left.
      * intros _. split; [reflexivity|]. eauto.
Qed.

(** C7 (amended).  Each of the three operations answers every request
    with one response: the preflight, a success payload, or one envelope
    with the error kind "Bad Request" under status 400 or "Internal Server
    Error" under status 500, never a payload mixed with an error.  The
    internal envelope is given exactly when the [try:] block raised, and
    its message is the exception's own text [str(e)], unchanged, which is
    also what is printed to the log. *)
Theorem routes_answer_one_envelope :
  answers classify_emotion classify_emotion_try "classify" /\
  answers generate_playlist generate_playlist_try "playlist" /\
  answers generate_full_playlist generate_full_playlist_try "playlist/full".
Proof.
  split; [|split].
  - exact (wrapped_route_answers _ _ classify_emotion_try_envelope).
  - exact (wrapped_route_answers _ _ generate_playlist_try_envelope).
  - exact (wrapped_route_answers _ _ generate_full_playlist_try_envelope).
Qed.

Lemma routes_answer_one_envelope_witness :
  let env := sample_env scenario_probs
               (Raise (mkExc TimeoutExpired "timed out after 10 seconds"))
               (Raise oops_error) in
  let request := playlist_request ["happy"] in
  let e := mkExc Exception "C++ engine timeout" in
  method request = POST /\
  outcome (generate_playlist_try env request) = Raise e /\
  exists resp,
    outcome (generate_playlist env request) = Ok resp /\
    Envelope resp /\
    (forall e,
        method request = POST ->
        outcome (generate_playlist_try env request) = Raise e ->
        resp = mkResponse (ErrorBody "Internal Server Error" (exc_str e)) 500 /\
        In (EvPrint ("Error in " ++ "playlist" ++ " endpoint: " ++ exc_str e))
           (events (generate_playlist env request))) /\
    (status resp = 500 ->
     method request = POST /\
     exists e, outcome (generate_playlist_try env request) = Raise e).
Proof.
  intros env request e.
  split; [reflexivity|]. split; [vm_compute; reflexivity|].
  exact (proj1 (proj2 routes_answer_one_envelope) env request).
Defined.

(** The claim as first stated fails where it keeps the detail of an
    unanticipated failure from the caller.  A body that is the JSON number
    [5] passes [not data] and makes ['text' not in data] raise a
    [TypeError] inside the interpreter, which no line of the route
    anticipates; the handler answers 500 with the interpreter's text as
    the message, the same text it prints to the log.  The playlist route
    does the same with ['emotions' not in data]. *)
Lemma interpreter_error_echoed :
  let env := sample_env scenario_probs
               (Raise (mkExc FileNotFoundError "not used")) (Raise oops_error) in
  let request := mkRequest POST (Ok (PyInt 5)) in
  let detail := "argument of type 'int' is not iterable" in
  outcome (classify_emotion_try env request) = Raise (mkExc TypeError detail) /\
  classify_emotion env request
  = mkPy [EvPrint ("Error in classify endpoint: " ++ detail)]
         (Ok (mkResponse (ErrorBody "Internal Server Error" detail) 500)) /\
  generate_playlist env request
  = mkPy [EvPrint ("Error in playlist endpoint: " ++ detail)]
         (Ok (mkResponse (ErrorBody "Internal Server Error" detail) 500)).
Proof.
  repeat split; vm_compute; reflexivity.
Qed.

(** ** Moods handed to the engine *)

Lemma insert_sorted_In x y l : In y (insert_sorted x l) <-> y = x \/ In y l.
Proof.
  induction l as [|z l IH]; simpl; [intuition congruence|].
  destruct (String.ltb x z); simpl; rewrite ?IH; intuition congruence.
Qed.

Lemma py_sorted_In x l : In x (py_sorted l) <-> In x l.
Proof.
  unfold py_sorted. induction l as [|y l IH]; simpl; [tauto|].
  rewrite insert_sorted_In, IH. intuition congruence.
Qed.

Lemma ltb_leb x y : String.ltb x y = true -> String.leb x y = true.
Proof.
  unfold String.ltb, String.leb. now destruct (String.compare x y).
Qed.

Lemma not_ltb_leb x y : String.ltb x y = false -> String.leb y x = true.
Proof.
  unfold String.ltb, String.leb. rewrite (String.compare_antisym y x).
  now destruct (String.compare x y).
Qed.

Lemma insert_sorted_Sorted x l :
  Sorted (fun a b => String.leb a b = true) l ->
  Sorted (fun a b => String.leb a b = true) (insert_sorted x l).
Proof.
  induction 1 as [|y l Hs IH Hhd]; simpl; [repeat constructor|].
  destruct (String.ltb x y) eqn:E.
  - constructor; [now constructor|]. constructor. now apply ltb_leb.
  - constructor; [exact IH|].
    destruct l as [|z l]; simpl.
    + constructor. now apply not_ltb_leb.
    + destruct (String.ltb x z); constructor;
        [now apply not_ltb_leb | now inversion Hhd].
Qed.

Lemma py_sorted_Sorted l : Sorted (fun a b => String.leb a b = true) (py_sorted l).
Proof.
  unfold py_sorted. induction l as [|x l IH]; simpl; [constructor|].
  now apply insert_sorted_Sorted.
Qed.

Lemma moods_of_In m raw :
  m ∈ moods_of raw <-> exists e, In e raw /\ mapToMood (emotion e) = m.
Proof.
  unfold moods_of. rewrite elem_of_list_to_set, list_elem_of_In, in_map_iff.
  split; intros (e & H1 & H2); exists e; auto.
Qed.

Lemma events_call_classify env classifier text top_k threshold a :
  ~ In (EvRun a) (events (call_classify env classifier text top_k threshold)).
Proof.
  unfold call_classify.
  destruct text; cbn [events py_lift]; try tauto.
  rewrite events_classify_dyn. intros [H|[]]. discriminate.
Qed.

Lemma call_cpp_engine_runs env emotions a :
  In (EvRun a) (events (call_cpp_engine env emotions)) ->
  a = engine_args env (str_join "," emotions).
Proof.
  rewrite events_call_cpp_engine. intros [[= <-]|H]; [reflexivity|].
  destruct (subprocess_run env _) as [p|]; [|destruct H].
  destruct (subprocess.returncode p =? 0); [|destruct H].
  destruct H as [H|[]]. discriminate.
Qed.

Lemma or_neutral_nonempty emotions : or_neutral emotions <> [].
Proof. destruct emotions; discriminate. Qed.

Lemma validate_emotions_nonempty e es emotions :
  validate_emotions (e :: es) = Some emotions -> emotions <> [].
Proof.
  simpl. destruct (blank_or_not_str e); [discriminate|].
  destruct e; try discriminate.
  destruct (validate_emotions es); [|discriminate].
  intros [= <-]. discriminate.
Qed.

(** One step through a [try:] block when following its events. *)
Ltac events_step :=
  rewrite ?events_bind;
  cbn [events outcome py_lift py_ret mret py_mret app];
  match goal with
  | |- context [match ?x with Ok _ => _ | Raise _ => _ end] => destruct x eqn:?
  | |- context [if ?b then _ else _] => destruct b eqn:?
  | |- context [match ?x with Some _ => _ | None => _ end] => destruct x eqn:?
  end.

(** [if not emotions: emotions = ['neutral']], case by case. *)
Lemma or_neutral_cases l :
  (l = [] -> or_neutral l = ["neutral"]) /\ (l <> [] -> or_neutral l = l).
Proof. destruct l; split; intros H; try reflexivity; congruence. Qed.

Lemma generate_full_playlist_try_runs env request a :
  In (EvRun a) (events (generate_full_playlist_try env request)) ->
  exists items v model c,
    get_json request = Ok (PyDict items) /\
    dict_lookup items "text" = Some v /\
    get_classifier env = Ok model /\
    outcome (call_classify env model v
               (py_get (PyDict items) "top_k" (PyInt 3))
               (py_get (PyDict items) "threshold" (PyFloat 0.1))) = Ok c /\
    a = engine_args env (str_join "," (or_neutral (simplified_emotions c))).
Proof.
  unfold generate_full_playlist_try.
  destruct (get_json request) as [data|] eqn:Hj; [|cbn; tauto].
  rewrite bind_lift_Ok.
  destruct (missing_field env data "text") as [[|]|]; try (cbn; tauto).
  rewrite bind_lift_Ok.
  destruct (py_getitem env data "text") as [v|] eqn:Hg; [|cbn; tauto].
  apply py_getitem_Ok_inv in Hg as (items & -> & Hv).
  rewrite bind_lift_Ok.
  destruct (import_classify env) as [[]|]; [|cbn; tauto].
  rewrite bind_lift_Ok.
  destruct (get_classifier env) as [model|] eqn:Hcl; [|cbn; tauto].
  rewrite bind_lift_Ok, events_bind.
  destruct (outcome (call_classify env model v _ _)) as [c|] eqn:Hc;
    intros H; apply in_app_or in H as [H|H];
    try (now apply events_call_classify in H); [|destruct H].
  rewrite events_bind in H. apply in_app_or in H as [H|H].
  - apply call_cpp_engine_runs in H. exists items, v, model, c. auto.
  - exfalso. revert H.
    repeat (events_step; try (cbn; tauto)).
Qed.

Lemma generate_playlist_try_runs env request a :
  In (EvRun a) (events (generate_playlist_try env request)) ->
  exists items emotions,
    get_json request = Ok (PyDict items) /\
    dict_lookup items "emotions" = Some (PyList (map PyStr emotions)) /\
    emotions <> [] /\
    a = engine_args env (str_join "," emotions).
Proof.
  unfold generate_playlist_try.
  destruct (get_json request) as [data|] eqn:Hj; [|cbn; tauto].
  rewrite bind_lift_Ok.
  destruct (missing_field env data "emotions") as [[|]|]; try (cbn; tauto).
  rewrite bind_lift_Ok.
  destruct (py_getitem env data "emotions") as [v|] eqn:Hg; [|cbn; tauto].
  apply py_getitem_Ok_inv in Hg as (items & -> & Hv).
  rewrite bind_lift_Ok.
  destruct v as [| | | | |[|e es]|]; try (cbn; tauto).
  destruct (validate_emotions (e :: es)) as [emotions|] eqn:Hval; [|cbn; tauto].
  rewrite events_bind. intros H. apply in_app_or in H as [H|H].
  - apply call_cpp_engine_runs in H.
    pose proof (validate_emotions_nonempty _ _ _ Hval) as Hne.
    apply validate_emotions_Some in Hval as [Hes _].
    exists items, emotions. rewrite <- Hes. auto.
  - exfalso. revert H.
    repeat (events_step; try (cbn; tauto)).
Qed.

Lemma analyze_emotion_try_runs env request a :
  In (EvRun a) (events (analyze_emotion_try env request)) ->
  exists items t model c,
    get_json request = Ok (PyDict items) /\
    dict_lookup items "text" = Some (PyStr t) /\
    get_classifier env = Ok model /\
    outcome (classify (lib_message env) model t 3 0.1) = Ok c /\
    a = engine_args env (str_join "," (or_neutral (simplified_emotions c))).
Proof.
  unfold analyze_emotion_try.
  destruct (get_json request) as [data|] eqn:Hj; [|cbn; tauto].
  rewrite bind_lift_Ok.
  destruct (missing_field env data "text") as [[|]|]; try (cbn; tauto).
  rewrite bind_lift_Ok.
  destruct (py_getitem env data "text") as [v|] eqn:Hg; [|cbn; tauto].
  apply py_getitem_Ok_inv in Hg as (items & -> & Hv).
  rewrite bind_lift_Ok.
  destruct (blank_or_not_str v) eqn:Hb; [cbn; tauto|].
  apply blank_or_not_str_false in Hb as (t & -> & _).
  destruct (get_classifier env) as [model|] eqn:Hcl; [|cbn; tauto].
  rewrite bind_lift_Ok, events_bind, call_classify_annotated.
  destruct (outcome (classify _ model t 3 _)) as [c|] eqn:Hc;
    intros H; apply in_app_or in H as [H|H];
    try (rewrite events_classify in H; destruct H as [H|[]]; discriminate);
    [|destruct H].
  rewrite events_bind in H. apply in_app_or in H as [H|H].
  - apply call_cpp_engine_runs in H. exists items, t, model, c. auto.
  - exfalso. revert H.
    repeat (events_step; try (cbn; tauto)).
Qed.

Lemma wrapped_route_runs (m : Py Response) endpoint request a :
  In (EvRun a)
     (events (match method request with
              | OPTIONS => mret (mkResponse EmptyBody 204)
              | POST => py_try m (internal_error endpoint)
              end)) ->
  In (EvRun a) (events m).
Proof.
  destruct (method request); [intros []|].
  rewrite route_events. intros H. apply in_app_or in H as [H|H]; [exact H|].
  destruct (outcome m); [destruct H|]. destruct H as [H|[]]. discriminate.
Qed.

(** C3.  [classify] returns the moods as accumulated, sorted: a mood is
    listed exactly when it is the mood of a retained label, and with no
    retained label the list is empty, not [["neutral"]].

    The full pipeline puts [["neutral"]] in place of an empty list before
    it calls the engine.  Whenever it starts the engine, the body of the
    request is an object with a [text], the classifier was obtained, the
    classification [c] of that text with the request's [top_k] and
    [threshold] (3 and 0.1 when absent) succeeded, and the engine is given
    the list [emotions] that is [["neutral"]] when the moods of [c] are
    empty and the moods of [c] otherwise; so [emotions] is never empty.
    Conversely, for every such request whose classification succeeds the
    engine is started with exactly that list.

    The other two routes that start the engine do so with a non-empty list
    as well: the playlist route with the non-empty list of strings of the
    request, the analyze route with the moods of the classification made
    with [top_k = 3] and [threshold = 0.1], or [["neutral"]] when there is
    none. *)
Theorem moods_normalised_by_the_routes :
  (forall msg self txt top_k threshold r,
      outcome (classify msg self txt top_k threshold) = Ok r ->
      Sorted (fun a b => String.leb a b = true) (simplified_emotions r) /\
      (forall m, In m (simplified_emotions r) <->
                 exists e, In e (raw_emotions r) /\ mapToMood (emotion e) = m) /\
      (raw_emotions r = [] -> simplified_emotions r = [])) /\
  (forall env request a,
      In (EvRun a) (events (generate_full_playlist env request)) ->
      exists items v model c emotions,
        get_json request = Ok (PyDict items) /\
        dict_lookup items "text" = Some v /\
        get_classifier env = Ok model /\
        outcome (call_classify env model v
                   (py_get (PyDict items) "top_k" (PyInt 3))
                   (py_get (PyDict items) "threshold" (PyFloat 0.1))) = Ok c /\
        (simplified_emotions c = [] -> emotions = ["neutral"]) /\
        (simplified_emotions c <> [] -> emotions = simplified_emotions c) /\
        emotions <> [] /\
        a = engine_args env (str_join "," emotions)) /\
  (forall env items v model c,
      dict_lookup items "text" = Some v ->
      import_classify env = Ok tt ->
      get_classifier env = Ok model ->
      outcome (call_classify env model v
                 (py_get (PyDict items) "top_k" (PyInt 3))
                 (py_get (PyDict items) "threshold" (PyFloat 0.1))) = Ok c ->
      let evs :=
        events (generate_full_playlist env (mkRequest POST (Ok (PyDict items)))) in
      (simplified_emotions c = [] ->
       In (EvRun (engine_args env "neutral")) evs) /\
      (simplified_emotions c <> [] ->
       In (EvRun (engine_args env (str_join "," (simplified_emotions c)))) evs)) /\
  (forall env request a,
      In (EvRun a) (events (generate_playlist env request)) ->
      exists items emotions,
        get_json request = Ok (PyDict items) /\
        dict_lookup items "emotions" = Some (PyList (map PyStr emotions)) /\
        emotions <> [] /\
        a = engine_args env (str_join "," emotions)) /\
  (forall env request a,
      In (EvRun a) (events (analyze_emotion env request)) ->
      exists items t model c emotions,
        get_json request = Ok (PyDict items) /\
        dict_lookup items "text" = Some (PyStr t) /\
        get_classifier env = Ok model /\
        outcome (classify (lib_message env) model t 3 0.1) = Ok c /\
        (simplified_emotions c = [] -> emotions = ["neutral"]) /\
        (simplified_emotions c <> [] -> emotions = simplified_emotions c) /\
        emotions <> [] /\
        a = engine_args env (str_join "," emotions)).
Proof.
  split; [|split; [|split; [|split]]].
  - intros msg self txt top_k threshold r. rewrite outcome_classify.
    destruct (softmax_probs self txt) as [probs|]; [|discriminate].
    intros H. apply aggregate_Ok in H as (_ & _ & _ & _ & Hs & _).
    rewrite Hs. split; [apply py_sorted_Sorted|]. split.
    + intros m.
      rewrite py_sorted_In, <- list_elem_of_In, elem_of_elements.
      apply moods_of_In.
    + intros ->. unfold moods_of. simpl. now rewrite elements_empty.
  - intros env request a H.
    apply wrapped_route_runs, generate_full_playlist_try_runs in H
      as (items & v & model & c & Hj & Hv & Hcl & Hc & ->).
    exists items, v, model, c, (or_neutral (simplified_emotions c)).
    destruct (or_neutral_cases (simplified_emotions c)) as [H1 H2].
    repeat (split; [assumption|]).
    split; [apply or_neutral_nonempty | reflexivity].
  - intros env items v model c Hv Himp Hcl Hc evs. subst evs.
    assert (Hin : In (EvRun (engine_args env
                               (str_join "," (or_neutral (simplified_emotions c)))))
                     (events (generate_full_playlist env
                                (mkRequest POST (Ok (PyDict items)))))).
    { unfold generate_full_playlist. cbn [method].
      rewrite route_events. apply in_or_app. left.
      unfold generate_full_playlist_try. cbn [get_json].
      rewrite !bind_lift_Ok, missing_field_dict, Hv, !bind_lift_Ok.
      rewrite (py_getitem_present _ _ _ _ Hv), bind_lift_Ok.
      rewrite Himp, bind_lift_Ok, Hcl, bind_lift_Ok.
      rewrite events_bind, Hc. apply in_or_app. right.
      rewrite events_bind. apply in_or_app. left.
      rewrite events_call_cpp_engine. now left. }
    destruct (or_neutral_cases (simplified_emotions c)) as [H1 H2].
    split; intros H; [rewrite (H1 H) in Hin | rewrite (H2 H) in Hin]; exact Hin.
  - intros env request a H.
    now apply wrapped_route_runs, generate_playlist_try_runs in H.
  - intros env request a H.
    apply wrapped_route_runs, analyze_emotion_try_runs in H
      as (items & t & model & c & Hj & Hv & Hcl & Hc & ->).
    exists items, t, model, c, (or_neutral (simplified_emotions c)).
    destruct (or_neutral_cases (simplified_emotions c)) as [H1 H2].
    repeat (split; [assumption|]).
    split; [apply or_neutral_nonempty | reflexivity].
Qed.

Lemma moods_normalised_by_the_routes_witness :
  let env := sample_env scenario_probs
               (Ok (subprocess.mkCompleted 0 scenario_stdout EmptyString))
               (Ok scenario_playlist) in
  let items := [("text", PyStr "meh"); ("top_k", PyInt 3);
                ("threshold", PyFloat 0.9)] in
  let request := mkRequest POST (Ok (PyDict items)) in
  let c := {| text := "meh"; raw_emotions := []; simplified_emotions := [];
              dominant_emotion := "neutral"; confidence := 0%float |} in
  outcome (call_classify env (constant_model scenario_probs) (PyStr "meh")
             (py_get (PyDict items) "top_k" (PyInt 3))
             (py_get (PyDict items) "threshold" (PyFloat 0.1))) = Ok c /\
  In (EvRun (engine_args env "neutral")) (events (generate_full_playlist env request)) /\
  exists items' v model c' emotions,
    get_json request = Ok (PyDict items') /\
    dict_lookup items' "text" = Some v /\
    get_classifier env = Ok model /\
    outcome (call_classify env model v
               (py_get (PyDict items') "top_k" (PyInt 3))
               (py_get (PyDict items') "threshold" (PyFloat 0.1))) = Ok c' /\
    (simplified_emotions c' = [] -> emotions = ["neutral"]) /\
    (simplified_emotions c' <> [] -> emotions = simplified_emotions c') /\
    emotions <> [] /\
    engine_args env "neutral" = engine_args env (str_join "," emotions).
Proof.
  intros env items request c.
  assert (Hc : outcome (call_classify env (constant_model scenario_probs)
                          (PyStr "meh")
                          (py_get (PyDict items) "top_k" (PyInt 3))
                          (py_get (PyDict items) "threshold" (PyFloat 0.1)))
               = Ok c) by (vm_compute; reflexivity).
  pose proof (proj1 (proj1 (proj2 (proj2 moods_normalised_by_the_routes))
                       env items (PyStr "meh") (constant_model scenario_probs) c
                       eq_refl eq_refl eq_refl Hc) eq_refl) as Hrun.
  split; [exact Hc|]. split; [exact Hrun|].
  exact (proj1 (proj2 moods_normalised_by_the_routes) env request _ Hrun).
Defined.

(** * Further properties of the code *)

(** ** More on the aggregation step *)

Lemma mapToMood_In_MOODS label : In (mapToMood label) MOODS.
Proof.
  unfold mapToMood.
  destruct (EMOTION_MAPPING !! label) as [m|] eqn:E; simpl; [|tauto].
  unfold EMOTION_MAPPING in E. apply elem_of_list_to_map_2 in E.
  repeat (apply elem_of_cons in E as [E|E];
          [inversion E; subst; simpl; tauto|]).
  now apply elem_of_nil in E.
Qed.

Lemma insert_sorted_Permutation x l : Permutation (insert_sorted x l) (x :: l).
Proof.
  induction l as [|y l IH]; simpl; [reflexivity|].
  destruct (String.ltb x y); [reflexivity|].
  rewrite IH. apply perm_swap.
Qed.

Lemma py_sorted_Permutation l : Permutation (py_sorted l) l.
Proof.
  unfold py_sorted. induction l as [|x l IH]; simpl; [reflexivity|].
  rewrite insert_sorted_Permutation. now constructor.
Qed.

(** X1.  The moods [classify] returns are pairwise different, each is one
    of the four coarse moods, and there are at most as many as retained
    emotions and at most four. *)
Theorem simplified_emotions_distinct msg self txt top_k threshold r :
  outcome (classify msg self txt top_k threshold) = Ok r ->
  List.NoDup (simplified_emotions r) /\
  (forall m, In m (simplified_emotions r) -> In m MOODS) /\
  (length (simplified_emotions r) <= length (raw_emotions r))%nat /\
  (length (simplified_emotions r) <= 4)%nat.
Proof.
  rewrite outcome_classify.
  destruct (softmax_probs self txt) as [probs|]; [|discriminate].
  intros H. apply aggregate_Ok in H as (_ & _ & _ & _ & Hs & _).
  assert (Hnd : List.NoDup (simplified_emotions r)).
  { rewrite Hs. eapply Permutation_NoDup.
    - symmetry. apply py_sorted_Permutation.
    - apply NoDup_ListNoDup, NoDup_elements. }
  assert (Hin : forall m, In m (simplified_emotions r) ->
                  exists e, In e (raw_emotions r) /\ mapToMood (emotion e) = m).
  { intros m. rewrite Hs, py_sorted_In, <- list_elem_of_In, elem_of_elements.
    apply moods_of_In. }
  split; [exact Hnd|]. split; [|split].
  - intros m Hm. destruct (Hin m Hm) as (e & _ & <-). apply mapToMood_In_MOODS.
  - rewrite <- (length_map (fun e => mapToMood (emotion e)) (raw_emotions r)).
    apply NoDup_incl_length; [exact Hnd|].
    intros m Hm. destruct (Hin m Hm) as (e & He & <-).
    apply in_map_iff. eauto.
  - change 4%nat with (length MOODS).
    apply NoDup_incl_length; [exact Hnd|].
    intros m Hm. destruct (Hin m Hm) as (e & _ & <-). apply mapToMood_In_MOODS.
Qed.

Lemma simplified_emotions_distinct_witness :
  outcome (classify sample_message (constant_model scenario_probs)
             "I feel so happy today!" 3 0.1%float) = Ok scenario_result /\
  List.NoDup (simplified_emotions scenario_result) /\
  (forall m, In m (simplified_emotions scenario_result) -> In m MOODS) /\
  (length (simplified_emotions scenario_result)
   <= length (raw_emotions scenario_result))%nat /\
  (length (simplified_emotions scenario_result) <= 4)%nat.
Proof.
  assert (H : outcome (classify sample_message (constant_model scenario_probs)
                         "I feel so happy today!" 3 0.1%float)
              = Ok scenario_result) by (vm_compute; reflexivity).
  split; [exact H|].
  exact (simplified_emotions_distinct sample_message _ _ 3 0.1%float _ H).
Defined.

Lemma insert_desc_Permutation x l : Permutation (insert_desc x l) (x :: l).
Proof.
  induction l as [|y l IH]; simpl; [reflexivity|].
  destruct (ranks_below (fst x) (fst y)); [|reflexivity].
  rewrite IH. apply perm_swap.
Qed.

Lemma sort_desc_Permutation probs :
  Permutation (sort_desc probs) (combine probs (seq 0 (length probs))).
Proof.
  unfold sort_desc. induction (combine probs (seq 0 (length probs))) as [|x l IH];
    simpl; [reflexivity|].
  rewrite insert_desc_Permutation. now constructor.
Qed.

Lemma map_snd_combine_seq (probs : list float) start :
  map snd (combine probs (seq start (length probs))) = seq start (length probs).
Proof.
  revert start. induction probs as [|x probs IH]; intros start; simpl;
    [reflexivity | now rewrite IH].
Qed.

Lemma sort_desc_positions probs : List.NoDup (map snd (sort_desc probs)).
Proof.
  eapply Permutation_NoDup.
  - symmetry. apply Permutation_map, sort_desc_Permutation.
  - rewrite map_snd_combine_seq. apply seq_NoDup.
Qed.

Lemma NoDup_map_firstn {A B} (f : A -> B) n l :
  List.NoDup (map f l) -> List.NoDup (map f (firstn n l)).
Proof.
  revert l. induction n as [|n IH]; intros [|x l]; simpl; try constructor.
  - inversion H; subst. intros Hin. apply H2.
    apply in_map_iff in Hin as (y & Hy & Hin).
    apply in_map_iff. exists y. split; [exact Hy|]. eapply In_firstn_inv, Hin.
  - inversion H; subst. now apply IH.
Qed.

Lemma NoDup_map_filter {A B} (f : A -> B) (g : A -> bool) l :
  List.NoDup (map f l) -> List.NoDup (map f (List.filter g l)).
Proof.
  induction l as [|x l IH]; simpl; [constructor|].
  intros H. inversion H as [|? ? Hx Hl]; subst.
  destruct (g x); simpl; [|now apply IH].
  constructor; [|now apply IH].
  intros Hin. apply Hx.
  apply in_map_iff in Hin as (y & Hy & Hin).
  apply in_map_iff. exists y. split; [exact Hy|]. now apply filter_In in Hin.
Qed.

Lemma labels_NoDup : List.NoDup EMOTION_LABELS.
Proof.
  apply NoDup_ListNoDup. apply (bool_decide_unpack _). vm_compute. exact I.
Qed.

Lemma retained_labels_NoDup th pairs raw :
  Forall2 (retained_as th) pairs raw ->
  List.NoDup (map snd pairs) -> List.NoDup (map emotion raw).
Proof.
  induction 1 as [|p e pairs raw (_ & Hl & _) HF IH]; simpl; [constructor|].
  intros Hnd. inversion Hnd as [|? ? Hp Hrest]; subst.
  constructor; [|now apply IH].
  intros Hin. apply Hp.
  apply in_map_iff in Hin as (e' & He' & Hin).
  destruct (Forall2_In_r _ _ _ _ HF Hin) as (p' & Hp' & _ & Hl' & _).
  apply in_map_iff. exists p'. split; [|exact Hp'].
  assert (Hlt : (snd p' < length EMOTION_LABELS)%nat)
    by (apply nth_error_Some; congruence).
  rewrite <- He' in Hl.
  exact (proj1 (NoDup_nth_error EMOTION_LABELS) labels_NoDup _ _ Hlt
               (eq_trans Hl' (eq_sym Hl))).
Qed.

(** X2.  No emotion is reported twice: the labels of [raw_emotions] are
    pairwise different. *)
Theorem raw_emotions_distinct_labels msg self txt top_k threshold r :
  outcome (classify msg self txt top_k threshold) = Ok r ->
  List.NoDup (map emotion (raw_emotions r)).
Proof.
  rewrite outcome_classify.
  destruct (softmax_probs self txt) as [probs|]; [|discriminate].
  intros H. apply aggregate_Ok in H as (pairs & Ht & HF & _).
  apply torch_topk_Ok in Ht as (_ & -> & _).
  eapply retained_labels_NoDup; [exact HF|].
  apply NoDup_map_filter, NoDup_map_firstn, sort_desc_positions.
Qed.

Lemma raw_emotions_distinct_labels_witness :
  outcome (classify sample_message (constant_model scenario_probs)
             "I feel so happy today!" 3 0.1%float) = Ok scenario_result /\
  List.NoDup (map emotion (raw_emotions scenario_result)).
Proof.
  assert (H : outcome (classify sample_message (constant_model scenario_probs)
                         "I feel so happy today!" 3 0.1%float)
              = Ok scenario_result) by (vm_compute; reflexivity).
  split; [exact H|].
  exact (raw_emotions_distinct_labels sample_message _ _ 3 0.1%float _ H).
Defined.

Lemma retained_as_functional th pairs raw1 raw2 :
  Forall2 (retained_as th) pairs raw1 ->
  Forall2 (retained_as th) pairs raw2 -> raw1 = raw2.
Proof.
  intros H. revert raw2.
  induction H as [|p e pairs raw (_ & Hl & Hs) HF IH]; intros raw2 H2;
    inversion H2 as [|? e2 ? raw2' (_ & Hl2 & Hs2) HF2]; subst; [reflexivity|].
  f_equal; [|now apply IH].
  destruct e as [l s], e2 as [l2 s2]; simpl in *. congruence.
Qed.

Lemma firstn_le_app {A} (n m : nat) (l : list A) :
  (n <= m)%nat -> exists rest, firstn m l = (firstn n l ++ rest)%list.
Proof.
  revert m l. induction n as [|n IH]; intros m l Hle; simpl; [eauto|].
  destruct m as [|m]; [lia|]. destruct l as [|x l]; simpl; [now exists []|].
  destruct (IH m l) as [rest Hr]; [lia|]. exists rest. now rewrite Hr.
Qed.

(** X3.  When no two scores of the model's output are equal (and none is
    a NaN among several), asking for more emotions only appends: for
    [top_k <= top_k'] the list returned for [top_k] is a prefix of the one
    returned for [top_k'], so the dominant emotion and the confidence do
    not change once an emotion is retained.  (With equal scores
    [torch.topk] may order them differently from one [k] to the next, and
    nothing is claimed.) *)
Theorem raising_top_k_extends msg self txt probs top_k top_k' threshold r r' :
  softmax_probs self txt = Ok probs ->
  distinct_scores probs = true ->
  top_k <= top_k' ->
  outcome (classify msg self txt top_k threshold) = Ok r ->
  outcome (classify msg self txt top_k' threshold) = Ok r' ->
  (exists more, raw_emotions r' = (raw_emotions r ++ more)%list) /\
  (raw_emotions r <> [] ->
   dominant_emotion r' = dominant_emotion r /\ confidence r' = confidence r).
Proof.
  intros Hprobs _ Hle. rewrite !outcome_classify, Hprobs.
  intros H H'.
  apply aggregate_Ok in H as (pairs & Ht & HF & _ & _ & Hd & Hc).
  apply aggregate_Ok in H' as (pairs' & Ht' & HF' & _ & _ & Hd' & Hc').
  apply torch_topk_Ok in Ht as (Hr & -> & _).
  apply torch_topk_Ok in Ht' as (Hr' & -> & _).
  destruct (firstn_le_app
              (Z.to_nat (Z.min top_k (Z.of_nat (length probs))))
              (Z.to_nat (Z.min top_k' (Z.of_nat (length probs))))
              (sort_desc probs)) as [rest Hrest]; [lia|].
  rewrite Hrest, List.filter_app in HF'.
  apply Forall2_app_inv_l in HF' as (raw1 & more & HF1 & _ & Hraw).
  rewrite (retained_as_functional _ _ _ _ HF HF1) in *.
  split; [eauto|].
  intros Hne. rewrite Hd, Hc, Hd', Hc', Hraw.
  destruct raw1; [congruence | split; reflexivity].
Qed.

Lemma raising_top_k_extends_witness :
  let c := classify sample_message (constant_model graded_probs) "hi" in
  let r1 := {| text := "hi"; raw_emotions := [mkRaw "joy" 0.5%float];
               simplified_emotions := ["happy"];
               dominant_emotion := "joy"; confidence := 0.5%float |} in
  let r3 := {| text := "hi";
               raw_emotions := [mkRaw "joy" 0.5%float;
                                mkRaw "excitement" 0.126%float];
               simplified_emotions := ["excited"; "happy"];
               dominant_emotion := "joy"; confidence := 0.5%float |} in
  distinct_scores graded_probs = true /\
  outcome (c 1 0.1%float) = Ok r1 /\
  outcome (c 3 0.1%float) = Ok r3 /\
  (exists more, raw_emotions r3 = (raw_emotions r1 ++ more)%list) /\
  (raw_emotions r1 <> [] ->
   dominant_emotion r3 = dominant_emotion r1 /\ confidence r3 = confidence r1).
Proof.
  intros c r1 r3.
  assert (Hd : distinct_scores graded_probs = true) by (vm_compute; reflexivity).
  assert (H0 : 1 <= 3) by lia.
  assert (H1 : outcome (c 1 0.1%float) = Ok r1) by (vm_compute; reflexivity).
  assert (H3 : outcome (c 3 0.1%float) = Ok r3) by (vm_compute; reflexivity).
  split; [exact Hd|]. split; [exact H1|]. split; [exact H3|].
  exact (raising_top_k_extends sample_message (constant_model graded_probs) "hi"
           graded_probs 1 3 0.1%float r1 r3 eq_refl Hd H0 H1 H3).
Defined.

Lemma filter_all {A} (f : A -> bool) l :
  (forall x, In x l -> f x = true) -> List.filter f l = l.
Proof.
  induction l as [|x l IH]; simpl; intros H; [reflexivity|].
  rewrite (H x) by now left. f_equal. apply IH. intros y Hy. apply H. now right.
Qed.

(** X4.  When every score of the distribution satisfies
    [score >= threshold] (as with a threshold of 0 on probabilities),
    nothing is filtered: [raw_emotions] has exactly
    [min(top_k, len(probs))] items. *)
Theorem low_threshold_keeps_top_k msg self txt probs top_k threshold r :
  softmax_probs self txt = Ok probs ->
  (forall s, In s probs -> PrimFloat.leb threshold s = true) ->
  outcome (classify msg self txt top_k threshold) = Ok r ->
  Z.of_nat (length (raw_emotions r)) = Z.min top_k (Z.of_nat (length probs)).
Proof.
  intros Hp Hall. rewrite outcome_classify, Hp. intros H.
  apply aggregate_Ok in H as (pairs & Ht & HF & _).
  pose proof (torch_topk_Ok _ _ _ _ Ht) as (Hr & _ & Hlen).
  rewrite filter_all in HF.
  - apply Forall2_length in HF. lia.
  - intros [s i] Hin. unfold passes. simpl.
    apply Hall. eapply nth_error_In, torch_topk_In; eauto.
Qed.

Lemma low_threshold_keeps_top_k_witness :
  exists r,
    outcome (classify sample_message (constant_model scenario_probs)
               "hi" 5 0%float) = Ok r /\
    Z.of_nat (length (raw_emotions r))
    = Z.min 5 (Z.of_nat (length scenario_probs)).
Proof.
  assert (Hp : softmax_probs (constant_model scenario_probs) "hi"
               = Ok scenario_probs) by reflexivity.
  assert (Hall : forall s, In s scenario_probs -> PrimFloat.leb 0%float s = true).
  { intros s Hs. vm_compute in Hs.
    repeat (destruct Hs as [<-|Hs]; [vm_compute; reflexivity|]). destruct Hs. }
  destruct (aggregate_total sample_message "hi" scenario_probs 5 0%float)
    as [r Hr]; [lia | vm_compute; lia |].
  assert (Ho : outcome (classify sample_message (constant_model scenario_probs)
                          "hi" 5 0%float) = Ok r)
    by (rewrite outcome_classify; exact Hr).
  exists r. split; [exact Ho|].
  exact (low_threshold_keeps_top_k sample_message _ _ _ 5 0%float r Hp Hall Ho).
Defined.

Lemma classify_loop_Raise pairs th raw simp e :
  classify_loop pairs th raw simp = Raise e ->
  e = mkExc IndexError "list index out of range" /\
  exists p, In p pairs /\ passes th p = true /\
            (length EMOTION_LABELS <= snd p)%nat.
Proof.
  revert raw simp.
  induction pairs as [|[s i] rest IH]; simpl; intros raw simp H; [discriminate|].
  destruct (PrimFloat.leb th s) eqn:Hle.
  - unfold label_at in H.
    destruct (nth_error EMOTION_LABELS i) as [l|] eqn:Hl.
    + destruct (IH _ _ H) as (He & p & Hp & Hpass & Hbig).
      split; [exact He|]. exists p. auto.
    + inversion H; subst. split; [reflexivity|].
      exists (s, i). split; [now left|]. split; [exact Hle|].
      now apply nth_error_None in Hl.
  - destruct (IH _ _ H) as (He & p & Hp & Hpass & Hbig).
    split; [exact He|]. exists p. auto.
Qed.

(** X5.  [classify] fails in these ways only: the inference itself raised
    (the exception is passed on); [top_k] is below [-2^63], which
    [torch.topk] cannot unpack into a 64-bit integer and refuses with
    [ValueError]; [top_k] is negative but fits in 64 bits, and [torch.topk]
    raises [RuntimeError]; or the model has more outputs than the 28 labels
    and a retained position has no label, which raises [IndexError].  (The
    last case of the statement, a [top_k] and a number of outputs both of
    [2^63] or more, is there for the unbounded lists of the model; no tensor
    is that long.)  With at most 28 outputs and [top_k >= 0] nothing after
    the inference can fail. *)
Theorem classify_failures msg self txt top_k threshold e :
  outcome (classify msg self txt top_k threshold) = Raise e ->
  softmax_probs self txt = Raise e \/
  exists probs,
    softmax_probs self txt = Ok probs /\
    ((top_k < - 2 ^ 63 /\
      e = mkExc ValueError (msg (TopkOutOfRange top_k))) \/
     (- 2 ^ 63 <= top_k < 0 /\
      e = mkExc RuntimeError (msg (TopkOutOfRange top_k))) \/
     (0 <= top_k /\ (length EMOTION_LABELS < length probs)%nat /\
      e = mkExc IndexError "list index out of range") \/
     (2 ^ 63 <= top_k /\ 2 ^ 63 <= Z.of_nat (length probs) /\
      e = mkExc ValueError
            (msg (TopkOutOfRange (Z.min top_k (Z.of_nat (length probs))))))).
Proof.
  rewrite outcome_classify.
  destruct (softmax_probs self txt) as [probs|e0]; [|intros [= <-]; now left].
  intros H. right. exists probs. split; [reflexivity|].
  unfold aggregate in H.
  destruct (torch_topk msg probs (Z.min top_k (Z.of_nat (length probs))))
    as [pairs|e1] eqn:Ht.
  - right. right. left. apply torch_topk_Ok in Ht as (Hr & -> & _).
    destruct (classify_loop _ threshold [] ∅) as [[raw simp]|e2] eqn:Hl;
      [discriminate|].
    inversion H; subst.
    apply classify_loop_Raise in Hl as (-> & [s i] & Hin & _ & Hbig).
    apply In_firstn_inv, sort_desc_In in Hin.
    assert (i < length probs)%nat by (apply nth_error_Some; congruence).
    simpl in Hbig. change (length EMOTION_LABELS) with 28%nat in *.
    split; [lia|]. split; [lia | reflexivity].
  - inversion H; subst e1. clear H. unfold torch_topk in Ht.
    set (k := Z.min top_k (Z.of_nat (length probs))) in *.
    destruct (k <? - 2 ^ 63) eqn:E0; simpl in Ht.
    { apply Z.ltb_lt in E0. left. inversion Ht; subst e.
      assert (Hk : k = top_k) by (unfold k in *; lia).
      rewrite Hk in *. split; [exact E0 | reflexivity]. }
    apply Z.ltb_ge in E0.
    destruct (2 ^ 63 <=? k) eqn:E3; simpl in Ht.
    { apply Z.leb_le in E3. right. right. right. inversion Ht; subst e.
      unfold k in E3. split; [lia|]. split; [lia | reflexivity]. }
    apply Z.leb_gt in E3.
    destruct (k <? 0) eqn:E1; simpl in Ht.
    + apply Z.ltb_lt in E1. right. left. inversion Ht; subst e.
      assert (Hk : k = top_k) by (unfold k in *; lia).
      rewrite Hk in *. split; [lia | reflexivity].
    + destruct (Z.of_nat (length probs) <? k) eqn:E2; [|discriminate].
      apply Z.ltb_lt in E2. unfold k in E2. lia.
Qed.

Lemma classify_failures_witness :
  let probs29 := (scenario_probs ++ [0.5%float])%list in
  let e := mkExc IndexError "list index out of range" in
  outcome (classify sample_message (constant_model probs29) "hi" 29 0.1%float)
  = Raise e /\
  (softmax_probs (constant_model probs29) "hi" = Raise e \/
   exists probs,
     softmax_probs (constant_model probs29) "hi" = Ok probs /\
     ((29 < - 2 ^ 63 /\
       e = mkExc ValueError (sample_message (TopkOutOfRange 29))) \/
      (- 2 ^ 63 <= 29 < 0 /\
       e = mkExc RuntimeError (sample_message (TopkOutOfRange 29))) \/
      (0 <= 29 /\ (length EMOTION_LABELS < length probs)%nat /\
       e = mkExc IndexError "list index out of range") \/
      (2 ^ 63 <= 29 /\ 2 ^ 63 <= Z.of_nat (length probs) /\
       e = mkExc ValueError
             (sample_message
                (TopkOutOfRange (Z.min 29 (Z.of_nat (length probs)))))))).
Proof.
  intros probs29 e.
  assert (H : outcome (classify sample_message (constant_model probs29) "hi" 29
                         0.1%float) = Raise e) by (vm_compute; reflexivity).
  split; [exact H|].
  exact (classify_failures sample_message _ _ 29 0.1%float e H).
Defined.

(** ** [batch_classify] and the command line *)

Lemma py_for_each_Ok {A B} (f : A -> Py B) l ys :
  outcome (py_for_each f l) = Ok ys <->
  Forall2 (fun x y => outcome (f x) = Ok y) l ys.
Proof.
  revert ys. induction l as [|x l IH]; intros ys; simpl.
  - split; [intros [= <-]; constructor | intros H; now inversion H].
  - rewrite outcome_bind. destruct (outcome (f x)) as [y|e] eqn:Hx.
    + rewrite outcome_bind.
      destruct (outcome (py_for_each f l)) as [ys'|e] eqn:Hl; simpl.
      * split.
        -- intros [= <-]. constructor; [exact Hx | now apply IH].
        -- intros H. inversion H as [|? y' ? ys'' Hy Hys]; subst.
           apply IH in Hys. congruence.
      * split; [discriminate|].
        intros H. inversion H as [|? y' ? ys'' Hy Hys]; subst.
        apply IH in Hys. discriminate.
    + split; [discriminate|].
      intros H. inversion H; subst. congruence.
Qed.

Lemma py_for_each_events_Ok {A B} (f : A -> Py B) l ys :
  outcome (py_for_each f l) = Ok ys ->
  events (py_for_each f l) = concat (map (fun x => events (f x)) l).
Proof.
  revert ys. induction l as [|x l IH]; intros ys; simpl; [reflexivity|].
  rewrite outcome_bind, events_bind.
  destruct (outcome (f x)) as [y|e]; [|discriminate].
  rewrite outcome_bind, events_bind.
  destruct (outcome (py_for_each f l)) as [ys'|e] eqn:Hl; [|discriminate].
  intros _. simpl. rewrite app_nil_r. f_equal. eapply IH. reflexivity.
Qed.

Lemma py_for_each_Raise {A B} (f : A -> Py B) l e :
  outcome (py_for_each f l) = Raise e ->
  exists before x after,
    l = (before ++ x :: after)%list /\
    Forall (fun x' => exists y, outcome (f x') = Ok y) before /\
    outcome (f x) = Raise e /\
    events (py_for_each f l)
    = concat (map (fun x => events (f x)) (before ++ [x])).
Proof.
  induction l as [|x l IH]; simpl; [discriminate|].
  rewrite outcome_bind, events_bind.
  destruct (outcome (f x)) as [y|e0] eqn:Hx.
  - rewrite outcome_bind, events_bind.
    destruct (outcome (py_for_each f l)) as [ys|e1] eqn:Hl; [discriminate|].
    intros [= <-].
    destruct (IH eq_refl) as (before & x' & after & -> & Hb & Hx' & Hev).
    exists (x :: before), x', after.
    split; [reflexivity|]. split; [constructor; eauto|]. split; [exact Hx'|].
    simpl. now rewrite app_nil_r, Hev.
  - intros [= <-]. exists [], x, l.
    split; [reflexivity|]. split; [constructor|]. split; [exact Hx|].
    simpl. now rewrite !app_nil_r.
Qed.

Lemma classify_text msg self txt top_k threshold r :
  outcome (classify msg self txt top_k threshold) = Ok r -> text r = txt.
Proof.
  rewrite outcome_classify.
  destruct (softmax_probs self txt); [|discriminate].
  intros H. now apply aggregate_Ok in H as (_ & _ & _ & Ht & _).
Qed.

Lemma events_for_each_classify msg self top_k threshold l :
  concat (map (fun t => events (classify msg self t top_k threshold)) l)
  = map EvInfer l.
Proof.
  induction l as [|t l IH]; simpl; [reflexivity|].
  now rewrite events_classify, IH.
Qed.

(** X6.  [batch_classify] classifies the texts one by one in their order.
    When it returns, there is one result per text, the i-th result is the
    one [classify] gives for the i-th text and repeats that text, and each
    text was sent through the model once.  When it raises, the exception
    is the one of the first text whose classification fails, and no later
    text is sent through the model.  An empty list gives an empty list. *)
Theorem batch_classify_results msg self texts top_k threshold :
  (forall rs,
      outcome (batch_classify msg self texts top_k threshold) = Ok rs <->
      Forall2 (fun t r => outcome (classify msg self t top_k threshold) = Ok r)
              texts rs) /\
  (forall rs,
      outcome (batch_classify msg self texts top_k threshold) = Ok rs ->
      length rs = length texts /\
      map text rs = texts /\
      events (batch_classify msg self texts top_k threshold)
      = map EvInfer texts) /\
  (forall e,
      outcome (batch_classify msg self texts top_k threshold) = Raise e ->
      exists before t after,
        texts = (before ++ t :: after)%list /\
        Forall (fun t' => exists r,
                    outcome (classify msg self t' top_k threshold) = Ok r)
               before /\
        outcome (classify msg self t top_k threshold) = Raise e /\
        events (batch_classify msg self texts top_k threshold)
        = map EvInfer (before ++ [t])) /\
  (texts = [] ->
   batch_classify msg self texts top_k threshold = mkPy [] (Ok [])).
Proof.
  unfold batch_classify. split; [|split; [|split]].
  - intros rs. apply py_for_each_Ok.
  - intros rs H.
    rewrite (py_for_each_events_Ok _ _ _ H), events_for_each_classify.
    apply py_for_each_Ok in H.
    split; [symmetry; eapply Forall2_length, H|]. split; [|reflexivity].
    induction H as [|t r ts rs' Hr _ IH]; simpl; [reflexivity|].
    rewrite IH. f_equal. eapply classify_text, Hr.
  - intros e H.
    apply py_for_each_Raise in H as (before & t & after & -> & Hb & Ht & Hev).
    exists before, t, after.
    rewrite Hev, events_for_each_classify. auto.
  - intros ->. reflexivity.
Qed.

Lemma batch_classify_results_witness :
  let batch := batch_classify sample_message (constant_model scenario_probs)
                 ["one"; "two"] 1 0.1%float in
  let r t := {| text := t; raw_emotions := [mkRaw "joy" 0.82%float];
                simplified_emotions := ["happy"];
                dominant_emotion := "joy"; confidence := 0.82%float |} in
  outcome batch = Ok [r "one"; r "two"] /\
  length [r "one"; r "two"] = length ["one"; "two"] /\
  map text [r "one"; r "two"] = ["one"; "two"] /\
  events batch = map EvInfer ["one"; "two"].
Proof.
  intros batch r.
  assert (H : outcome batch = Ok [r "one"; r "two"]) by (vm_compute; reflexivity).
  split; [exact H|].
  exact (proj1 (proj2 (batch_classify_results sample_message
                         (constant_model scenario_probs) ["one"; "two"] 1
                         0.1%float)) _ H).
Defined.

Lemma lstrip_all_space s : all_space s = true -> lstrip s = EmptyString.
Proof.
  induction s as [|c s IH]; simpl; [reflexivity|].
  destruct (is_space c); simpl; [exact IH | discriminate].
Qed.

Lemma lstrip_head s :
  all_space s = false ->
  exists c s', lstrip s = String c s' /\ is_space c = false.
Proof.
  induction s as [|c s IH]; simpl; [discriminate|].
  destruct (is_space c) eqn:E; simpl; [exact IH | eauto].
Qed.

Lemma rstrip_head c s :
  is_space c = false -> exists r, rstrip (String c s) = String c r.
Proof.
  intros E. simpl. destruct (rstrip s); rewrite ?E; eauto.
Qed.

Lemma rstrip_idempotent s : rstrip (rstrip s) = rstrip s.
Proof.
  induction s as [|c s IH]; simpl; [reflexivity|].
  destruct (rstrip s) as [|d r] eqn:E.
  - destruct (is_space c) eqn:Ec; simpl; [reflexivity | now rewrite Ec].
  - change (rstrip (String c (String d r))) with
      (match rstrip (String d r) with
       | EmptyString => if is_space c then EmptyString else String c EmptyString
       | r' => String c r'
       end).
    now rewrite IH.
Qed.

(** [s.strip()] is empty exactly when [s] holds white space only. *)
Lemma py_strip_empty s :
  String.eqb (py_strip s) EmptyString = all_space s.
Proof.
  unfold py_strip. destruct (all_space s) eqn:E.
  - now rewrite lstrip_all_space.
  - destruct (lstrip_head s E) as (c & s' & -> & Hc).
    destruct (rstrip_head c s' Hc) as [r ->]. reflexivity.
Qed.

Lemma py_strip_idempotent s : py_strip (py_strip s) = py_strip s.
Proof.
  unfold py_strip. destruct (all_space s) eqn:E.
  - rewrite (lstrip_all_space s E). reflexivity.
  - destruct (lstrip_head s E) as (c & s' & -> & Hc).
    destruct (rstrip_head c s' Hc) as [r Hr]. rewrite Hr.
    simpl lstrip. rewrite Hc, <- Hr. apply rstrip_idempotent.
Qed.

(** X7.  The texts the command line classifies are the [--text] argument
    (when it is not empty), unchanged and first, followed by what is taken
    from the lines of the [--file] as they are read, in their order: a
    line of white space only is skipped and every other line contributes
    its stripped form.  So every text taken from the file is non-empty and
    has no white space at either end.  Without a file the text stands
    alone, and a failure to read the file is passed on. *)
Theorem cli_texts_from_file w a :
  let first := match cli.text a with
               | Some t => if String.eqb t EmptyString then [] else [t]
               | None => []
               end in
  (cli.given (cli.file a) = false -> cli.texts_of w a = Ok first) /\
  (forall path,
      cli.file a = Some path -> path <> EmptyString ->
      match cli.read_lines w path with
      | Raise e => cli.texts_of w a = Raise e
      | Ok lines =>
          let from_file :=
            map py_strip (List.filter (fun line => negb (all_space line)) lines) in
          cli.texts_of w a = Ok (first ++ from_file)%list /\
          Forall (fun t => t <> EmptyString /\ py_strip t = t /\
                           strip_nonempty t = true)
                 from_file
      end).
Proof.
  intros first.
  assert (Hfirst : match cli.text a with
                   | Some t => if cli.given (cli.text a) then [t] else []
                   | None => []
                   end = first).
  { subst first. destruct (cli.text a) as [t|]; [|reflexivity].
    unfold cli.given. now destruct (String.eqb t EmptyString). }
  unfold cli.texts_of. rewrite Hfirst. split.
  - intros Hg. destruct (cli.file a) as [path|]; [|reflexivity].
    now rewrite Hg.
  - intros path -> Hpath.
    assert (Hg : cli.given (Some path) = true).
    { unfold cli.given. apply negb_true_iff, String.eqb_neq, Hpath. }
    rewrite Hg.
    destruct (cli.read_lines w path) as [lines|]; [|reflexivity].
    assert (Hfilter :
              List.filter
                (fun line => negb (String.eqb (py_strip line) EmptyString)) lines
              = List.filter (fun line => negb (all_space line)) lines).
    { apply filter_ext. intros line. now rewrite py_strip_empty. }
    rewrite Hfilter. split; [reflexivity|].
    apply List.Forall_forall. intros t Ht.
    apply in_map_iff in Ht as (line & <- & Hl).
    apply filter_In in Hl as [_ Hne]. apply negb_true_iff in Hne.
    assert (Hs : String.eqb (py_strip line) EmptyString = false)
      by now rewrite py_strip_empty.
    split; [intros Heq; rewrite Heq in Hs; discriminate|].
    split; [apply py_strip_idempotent|].
    unfold strip_nonempty.
    rewrite <- py_strip_empty, py_strip_idempotent, Hs. reflexivity.
Qed.

Lemma cli_texts_from_file_witness :
  let w := sample_world sample_lines in
  let a := sample_args (Some " hello ") (Some "notes.txt") false in
  cli.read_lines w "notes.txt" = Ok sample_lines /\
  cli.texts_of w a = Ok ([" hello "] ++ ["I am happy"; "so sad"])%list /\
  Forall (fun t => t <> EmptyString /\ py_strip t = t /\ strip_nonempty t = true)
         ["I am happy"; "so sad"].
Proof.
  intros w a.
  assert (Hpath : "notes.txt" <> EmptyString) by discriminate.
  split; [reflexivity|].
  exact (proj2 (cli_texts_from_file w a) "notes.txt" eq_refl Hpath).
Defined.

(** X8.  The command line stops with the usage error, before the model is
    loaded, exactly when neither a text nor a file is given.  When it ends
    normally, the model was loaded, every gathered text was classified in
    order with the given [top_k] and [threshold], each was sent through the
    model once, and with [--json] one result is printed as an object and
    any other number of results as an array.  When it ends with a
    traceback, the exception is that of loading the model, of reading the
    file, or of classifying one of the texts. *)
Theorem cli_main_exits w a :
  (forall evs message,
      cli.main w a = (evs, cli.UsageError message) <->
      (cli.given (cli.text a) = false /\ cli.given (cli.file a) = false /\
       evs = [] /\ message = "Either --text or --file must be provided")) /\
  (forall evs out,
      cli.main w a = (evs, cli.Done out) ->
      exists classifier ts results,
        cli.load w (cli.device a) = Ok classifier /\
        cli.texts_of w a = Ok ts /\
        Forall2 (fun t r =>
                   outcome (classify (cli.message w) classifier t
                              (cli.top_k a) (cli.threshold a)) = Ok r)
                ts results /\
        evs = map EvInfer ts /\
        out = cli.output_of a results /\
        (cli.json a = true ->
         (exists r, results = [r] /\ out = cli.JsonObject r) \/
         (length results <> 1%nat /\ out = cli.JsonArray results))) /\
  (forall evs e,
      cli.main w a = (evs, cli.Traceback e) ->
      cli.load w (cli.device a) = Raise e \/
      exists classifier,
        cli.load w (cli.device a) = Ok classifier /\
        (cli.texts_of w a = Raise e \/
         exists ts t,
           cli.texts_of w a = Ok ts /\ In t ts /\
           outcome (classify (cli.message w) classifier t
                      (cli.top_k a) (cli.threshold a)) = Raise e)).
Proof.
  unfold cli.main.
  destruct (negb (cli.given (cli.text a)) && negb (cli.given (cli.file a)))
    eqn:Hg.
  - apply andb_prop in Hg as [H1 H2].
    apply negb_true_iff in H1, H2.
    split; [|split; intros; discriminate].
    intros evs message. split.
    + intros [= <- <-]. auto.
    + intros (_ & _ & -> & ->). reflexivity.
  - split.
    { intros evs message. split; [|intros (H1 & H2 & _)].
      - destruct (outcome _); discriminate.
      - now rewrite H1, H2 in Hg. }
    rewrite !outcome_bind, !events_bind. cbn [outcome events py_lift app].
    destruct (cli.load w (cli.device a)) as [classifier|e0].
    2:{ split; intros evs x [= <- <-]. now left. }
    rewrite !outcome_bind, !events_bind. cbn [outcome events py_lift app].
    destruct (cli.texts_of w a) as [ts|e0].
    2:{ split; intros evs x [= <- <-]. right. eauto. }
    rewrite !outcome_bind, !events_bind.
    destruct (outcome (py_for_each _ ts)) as [results|e0] eqn:Hr.
    + split; [|intros evs e; discriminate].
      intros evs out [= <- <-].
      rewrite (py_for_each_events_Ok _ _ _ Hr), events_for_each_classify.
      apply py_for_each_Ok in Hr.
      exists classifier, ts, results.
      cbn [events py_ret mret py_mret]. rewrite app_nil_r.
      repeat (split; [reflexivity || exact Hr|]).
      intros Hj. unfold cli.output_of. rewrite Hj.
      destruct results as [|r [|r' rest]]; [right|left|right]; simpl; eauto.
    + split; [intros evs out; discriminate|].
      intros evs e [= <- <-]. right. exists classifier. split; [reflexivity|].
      right.
      apply py_for_each_Raise in Hr as (before & t & after & -> & _ & Ht & _).
      exists (before ++ t :: after)%list, t.
      split; [reflexivity|]. split; [|exact Ht].
      apply in_or_app. right. now left.
Qed.

Lemma cli_main_exits_witness :
  let w := sample_world sample_lines in
  let a := sample_args None (Some "notes.txt") true in
  let r t := {| text := t; raw_emotions := [mkRaw "joy" 0.82%float];
                simplified_emotions := ["happy"];
                dominant_emotion := "joy"; confidence := 0.82%float |} in
  cli.main w a
  = ([EvInfer "I am happy"; EvInfer "so sad"],
     cli.Done (cli.JsonArray [r "I am happy"; r "so sad"])) /\
  exists classifier ts results,
    cli.load w (cli.device a) = Ok classifier /\
    cli.texts_of w a = Ok ts /\
    Forall2 (fun t r =>
               outcome (classify (cli.message w) classifier t
                          (cli.top_k a) (cli.threshold a)) = Ok r)
            ts results /\
    [EvInfer "I am happy"; EvInfer "so sad"] = map EvInfer ts /\
    cli.JsonArray [r "I am happy"; r "so sad"] = cli.output_of a results /\
    (cli.json a = true ->
     (exists r', results = [r'] /\
                 cli.JsonArray [r "I am happy"; r "so sad"] = cli.JsonObject r') \/
     (length results <> 1%nat /\
      cli.JsonArray [r "I am happy"; r "so sad"] = cli.JsonArray results)).
Proof.
  intros w a r.
  assert (H : cli.main w a
              = ([EvInfer "I am happy"; EvInfer "so sad"],
                 cli.Done (cli.JsonArray [r "I am happy"; r "so sad"])))
    by (vm_compute; reflexivity).
  split; [exact H|].
  exact (proj1 (proj2 (cli_main_exits w a)) _ _ H).
Defined.

(** ** The cached classifier *)

(** X9.  [get_classifier] builds the classifier at most once: after a
    call that returned, every later call returns the same classifier
    without importing or loading anything, whatever those would do; after
    a call that raised, the global is still unset, so the next call tries
    to load again. *)
Theorem get_classifier_loads_once env env' :
  _classifier env' = classifier_after env ->
  (forall c, get_classifier env = Ok c -> get_classifier env' = Ok c) /\
  (forall e, get_classifier env = Raise e ->
             _classifier env = None /\
             get_classifier env' = match import_classify env' with
                                   | Ok _ => new_classifier env'
                                   | Raise e' => Raise e'
                                   end).
Proof.
  unfold classifier_after, get_classifier. intros Hc.
  destruct (_classifier env) as [c0|].
  - rewrite Hc. split; [auto | discriminate].
  - destruct (import_classify env) as [[]|e0].
    + destruct (new_classifier env) as [c0|e0]; rewrite Hc.
      * split; [auto | discriminate].
      * split; [discriminate | auto].
    + rewrite Hc. split; [discriminate | auto].
Qed.

Lemma get_classifier_loads_once_witness :
  let env := sample_env scenario_probs (Raise oops_error) (Raise oops_error) in
  let env' :=
    {| CPP_EXECUTABLE := CPP_EXECUTABLE env; SONGS_CSV := SONGS_CSV env;
       subprocess_run := subprocess_run env; json_loads := json_loads env;
       _classifier := Some (constant_model scenario_probs);
       import_classify := Raise (mkExc (OtherError "ImportError") "No module");
       new_classifier := Raise (mkExc (OtherError "OSError") "no network");
       lib_message := lib_message env; dyn_classify := dyn_classify env |} in
  get_classifier env = Ok (constant_model scenario_probs) /\
  get_classifier env' = Ok (constant_model scenario_probs).
Proof.
  intros env env'.
  assert (H : get_classifier env = Ok (constant_model scenario_probs))
    by reflexivity.
  split; [exact H|].
  exact (proj1 (get_classifier_loads_once env env' eq_refl) _ H).
Defined.

(** ** More on the routes *)

(** One step through a [try:] block, following outcome and events at
    once. *)
Ltac both_step :=
  rewrite ?outcome_bind, ?events_bind;
  cbn [events outcome py_lift py_ret mret py_mret app];
  match goal with
  | |- context [match ?x with Ok _ => _ | Raise _ => _ end] => destruct x eqn:?
  | |- context [if ?b then _ else _] => destruct b eqn:?
  | |- context [match ?x with Some _ => _ | None => _ end] => destruct x eqn:?
  end.

Ltac bad_input_done :=
  cbn [events outcome py_lift py_ret mret py_mret app];
  first
    [ discriminate
    | intros [= <-] ?; first [ reflexivity | discriminate ] ].

Lemma classify_emotion_try_bad_input env request resp :
  outcome (classify_emotion_try env request) = Ok resp ->
  status resp = 400 -> events (classify_emotion_try env request) = [].
Proof.
  unfold classify_emotion_try.
  repeat (try bad_input_done; both_step); bad_input_done.
Qed.

Lemma analyze_emotion_try_bad_input env request resp :
  outcome (analyze_emotion_try env request) = Ok resp ->
  status resp = 400 -> events (analyze_emotion_try env request) = [].
Proof.
  unfold analyze_emotion_try.
  repeat (try bad_input_done; both_step); bad_input_done.
Qed.

Lemma generate_full_playlist_try_bad_input env request resp :
  outcome (generate_full_playlist_try env request) = Ok resp ->
  status resp = 400 -> events (generate_full_playlist_try env request) = [].
Proof.
  unfold generate_full_playlist_try.
  repeat (try bad_input_done; both_step); bad_input_done.
Qed.

Lemma generate_playlist_try_bad_input env request resp :
  outcome (generate_playlist_try env request) = Ok resp ->
  status resp = 400 -> events (generate_playlist_try env request) = [].
Proof.
  unfold generate_playlist_try.
  do 4 (try bad_input_done; both_step); try bad_input_done.
  match goal with
  | H : py_getitem _ _ _ = Ok ?x |- _ =>
      destruct x as [| | | | |[|e es]|]; try bad_input_done
  end.
  repeat (try bad_input_done; both_step); bad_input_done.
Qed.

Lemma wrapped_route_bad_input (m : Py Response) endpoint request resp :
  (forall r, outcome m = Ok r -> status r = 400 -> events m = []) ->
  outcome (match method request with
           | OPTIONS => mret (mkResponse EmptyBody 204)
           | POST => py_try m (internal_error endpoint)
           end) = Ok resp ->
  status resp = 400 ->
  events (match method request with
          | OPTIONS => mret (mkResponse EmptyBody 204)
          | POST => py_try m (internal_error endpoint)
          end) = [].
Proof.
  intros Hm. destruct (method request); [reflexivity|].
  rewrite route_outcome, route_events.
  destruct (outcome m) as [r|e] eqn:Ho; intros [= <-] Hs; [|discriminate].
  now rewrite (Hm r eq_refl Hs).
Qed.

(** X10.  A request answered as bad input (400) had no effect: none of the
    four routes ran the model, started the engine, parsed anything or
    printed before answering it. *)
Theorem bad_input_has_no_effect :
  Forall (fun '(route, _, _) =>
            forall env request resp,
              outcome (route env request) = Ok resp ->
              status resp = 400 ->
              events (route env request) = [])
         ROUTES.
Proof.
  repeat constructor; intros env request resp.
  - apply wrapped_route_bad_input, classify_emotion_try_bad_input.
  - apply wrapped_route_bad_input, analyze_emotion_try_bad_input.
  - apply wrapped_route_bad_input, generate_playlist_try_bad_input.
  - apply wrapped_route_bad_input, generate_full_playlist_try_bad_input.
Qed.

Lemma bad_input_has_no_effect_witness :
  let env := sample_env scenario_probs
               (Ok (subprocess.mkCompleted 0 scenario_stdout EmptyString))
               (Ok scenario_playlist) in
  let request := classify_request "   " 3 0.1%float in
  outcome (classify_emotion env request)
  = Ok (bad_request "text must be a non-empty string") /\
  events (classify_emotion env request) = [].
Proof.
  intros env request.
  assert (H : outcome (classify_emotion env request)
              = Ok (bad_request "text must be a non-empty string"))
    by (vm_compute; reflexivity).
  split; [exact H|].
  exact (Forall_inv bad_input_has_no_effect env request _ H eq_refl).
Defined.

Lemma run_count_app evs1 evs2 :
  run_count (evs1 ++ evs2) = (run_count evs1 + run_count evs2)%nat.
Proof.
  induction evs1 as [|[] evs1 IH]; simpl; rewrite ?IH; reflexivity.
Qed.

Lemma run_count_call_cpp_engine env emotions :
  run_count (events (call_cpp_engine env emotions)) = 1%nat.
Proof.
  rewrite events_call_cpp_engine. simpl.
  destruct (subprocess_run env _) as [p|]; [|reflexivity].
  destruct (subprocess.returncode p =? 0); reflexivity.
Qed.

Lemma run_count_call_classify env classifier text top_k threshold :
  run_count (events (call_classify env classifier text top_k threshold)) = 0%nat.
Proof.
  unfold call_classify.
  destruct text; cbn [events py_lift]; try reflexivity.
  now rewrite events_classify_dyn.
Qed.

(** One step when counting the engine runs of a [try:] block. *)
Ltac count_step :=
  rewrite ?events_bind, ?run_count_app, ?run_count_call_cpp_engine,
    ?run_count_call_classify;
  cbn [events outcome py_lift py_ret mret py_mret app run_count Nat.add];
  match goal with
  | |- context [match ?x with Ok _ => _ | Raise _ => _ end] => destruct x eqn:?
  | |- context [if ?b then _ else _] => destruct b eqn:?
  | |- context [match ?x with Some _ => _ | None => _ end] => destruct x eqn:?
  end.

Ltac count_done :=
  cbn [events outcome py_lift py_ret mret py_mret app run_count Nat.add]; lia.

Lemma classify_emotion_try_run_count env request :
  run_count (events (classify_emotion_try env request)) = 0%nat.
Proof.
  unfold classify_emotion_try.
  repeat (try count_done; count_step); count_done.
Qed.

Lemma analyze_emotion_try_run_count env request :
  (run_count (events (analyze_emotion_try env request)) <= 1)%nat.
Proof.
  unfold analyze_emotion_try.
  repeat (try count_done; count_step); count_done.
Qed.

Lemma generate_full_playlist_try_run_count env request :
  (run_count (events (generate_full_playlist_try env request)) <= 1)%nat.
Proof.
  unfold generate_full_playlist_try.
  repeat (try count_done; count_step); count_done.
Qed.

Lemma generate_playlist_try_run_count env request :
  (run_count (events (generate_playlist_try env request)) <= 1)%nat.
Proof.
  unfold generate_playlist_try.
  do 4 (try count_done; count_step); try count_done.
  match goal with
  | H : py_getitem _ _ _ = Ok ?x |- _ =>
      destruct x as [| | | | |[|e es]|]; try count_done
  end.
  repeat (try count_done; count_step); count_done.
Qed.

Lemma wrapped_route_run_count (m : Py Response) endpoint request :
  run_count (events (match method request with
                     | OPTIONS => mret (mkResponse EmptyBody 204)
                     | POST => py_try m (internal_error endpoint)
                     end))
  = match method request with
    | OPTIONS => 0%nat
    | POST => run_count (events m)
    end.
Proof.
  destruct (method request); [reflexivity|].
  rewrite route_events, run_count_app.
  destruct (outcome m); simpl; lia.
Qed.

(** X11.  No route starts the engine more than once for a request, and
    the classify route never starts it. *)
Theorem engine_runs_at_most_once env request :
  run_count (events (classify_emotion env request)) = 0%nat /\
  (run_count (events (analyze_emotion env request)) <= 1)%nat /\
  (run_count (events (generate_playlist env request)) <= 1)%nat /\
  (run_count (events (generate_full_playlist env request)) <= 1)%nat.
Proof.
  unfold classify_emotion, analyze_emotion, generate_playlist,
    generate_full_playlist.
  rewrite !wrapped_route_run_count.
  pose proof (classify_emotion_try_run_count env request).
  pose proof (analyze_emotion_try_run_count env request).
  pose proof (generate_playlist_try_run_count env request).
  pose proof (generate_full_playlist_try_run_count env request).
  destruct (method request); repeat split; lia.
Qed.

Lemma analyze_emotion_try_envelope env request resp :
  outcome (analyze_emotion_try env request) = Ok resp ->
  Envelope resp /\ status resp <> 500.
Proof.
  unfold analyze_emotion_try.
  repeat (try envelope_done; bind_step); envelope_done.
Qed.

(** X12.  The analyze route answers every request with one response: the
    preflight, the success payload, a bad-input envelope (400) or an
    internal-error envelope (500); the last one exactly when its [try:]
    block raised, with the exception's own text as message, which is also
    printed. *)
Theorem analyze_emotion_answers :
  answers analyze_emotion analyze_emotion_try "analyze".
Proof.
  exact (wrapped_route_answers _ _ analyze_emotion_try_envelope).
Qed.

(** X13.  The full pipeline is the aggregation followed by the engine:
    for a request whose body has a text (blank or not), when the
    classification returns [c] and the engine exits with status 0 and an
    output with [songs] and [count], the route sends the text through the
    model once, then starts the engine once with the moods of [c] (or
    [neutral] when there is none), parses its stdout, and answers 200 with
    the text, [c], those moods and the engine's two values. *)
Theorem full_pipeline_composes env items t k th model c p d songs count :
  dict_lookup items "text" = Some (PyStr t) ->
  py_get (PyDict items) "top_k" (PyInt 3) = PyInt k ->
  py_get (PyDict items) "threshold" (PyFloat 0.1) = PyFloat th ->
  import_classify env = Ok tt ->
  get_classifier env = Ok model ->
  outcome (classify (lib_message env) model t k th) = Ok c ->
  subprocess_run env
    (engine_args env (str_join "," (or_neutral (simplified_emotions c)))) = Ok p ->
  subprocess.returncode p = 0 ->
  json_loads env (subprocess.stdout p) = Ok (PyDict d) ->
  dict_lookup d "songs" = Some songs ->
  dict_lookup d "count" = Some count ->
  generate_full_playlist env (mkRequest POST (Ok (PyDict items)))
  = mkPy [EvInfer t;
          EvRun (engine_args env
                   (str_join "," (or_neutral (simplified_emotions c))));
          EvLoads (subprocess.stdout p)]
         (Ok (mkResponse
                (FullBody (PyStr t) c (or_neutral (simplified_emotions c))
                          songs count)
                200)).
Proof.
  intros Htext Hk Hth Himp Hcl Hc Hrun Hrc Hloads Hsongs Hcount.
  assert (Hengine : outcome (call_cpp_engine env
                               (or_neutral (simplified_emotions c)))
                    = Ok (PyDict d)).
  { rewrite outcome_call_cpp_engine, Hrun, Hrc. cbn [Z.eqb]. now rewrite Hloads. }
  assert (Hevents : events (call_cpp_engine env
                              (or_neutral (simplified_emotions c)))
                    = [EvRun (engine_args env
                                (str_join "," (or_neutral (simplified_emotions c))));
                       EvLoads (subprocess.stdout p)]).
  { rewrite events_call_cpp_engine, Hrun, Hrc. reflexivity. }
  unfold generate_full_playlist. cbn [method].
  apply Py_eq; cbn [events outcome];
    rewrite ?route_outcome, ?route_events;
    unfold generate_full_playlist_try; cbn [get_json];
    rewrite ?outcome_bind, ?events_bind; cbn [events outcome py_lift app];
    rewrite missing_field_dict, Htext;
    rewrite ?outcome_bind, ?events_bind; cbn [events outcome py_lift app];
    rewrite (py_getitem_present _ _ _ _ Htext);
    rewrite ?outcome_bind, ?events_bind; cbn [events outcome py_lift app];
    rewrite Himp;
    rewrite ?outcome_bind, ?events_bind; cbn [events outcome py_lift app];
    rewrite Hcl;
    rewrite ?outcome_bind, ?events_bind; rewrite Hk, Hth;
    rewrite call_classify_annotated, Hc, ?events_classify;
    rewrite ?outcome_bind, ?events_bind; rewrite Hengine, ?Hevents;
    rewrite ?outcome_bind, ?events_bind; cbn [events outcome py_lift app];
    rewrite (py_getitem_present _ _ _ _ Hsongs);
    rewrite ?outcome_bind, ?events_bind; cbn [events outcome py_lift app];
    rewrite (py_getitem_present _ _ _ _ Hcount);
    reflexivity.
Qed.

Lemma full_pipeline_composes_witness :
  let env := sample_env scenario_probs
               (Ok (subprocess.mkCompleted 0 scenario_stdout EmptyString))
               (Ok scenario_playlist) in
  let c := {| text := "   ";
              raw_emotions := [mkRaw "joy" 0.82%float;
                               mkRaw "excitement" 0.15%float];
              simplified_emotions := ["excited"; "happy"];
              dominant_emotion := "joy"; confidence := 0.82%float |} in
  generate_full_playlist env (mkRequest POST (Ok (PyDict [("text", PyStr "   ")])))
  = mkPy [EvInfer "   ";
          EvRun (engine_args env "excited,happy");
          EvLoads scenario_stdout]
         (Ok (mkResponse
                (FullBody (PyStr "   ") c ["excited"; "happy"]
                          (PyList [PyDict [("id", PyInt 1)]]) (PyInt 1))
                200)).
Proof.
  intros env c.
  assert (Hc : outcome (classify (lib_message env) (constant_model scenario_probs)
                          "   " 3 0.1%float) = Ok c) by (vm_compute; reflexivity).
  exact (full_pipeline_composes env [("text", PyStr "   ")] "   " 3 0.1%float
           (constant_model scenario_probs) c
           (subprocess.mkCompleted 0 scenario_stdout EmptyString)
           [("songs", PyList [PyDict [("id", PyInt 1)]]); ("count", PyInt 1)]
           (PyList [PyDict [("id", PyInt 1)]]) (PyInt 1)
           eq_refl eq_refl eq_refl eq_refl eq_refl Hc
           eq_refl eq_refl eq_refl eq_refl eq_refl).
Defined.

(** X14.  The analyze route reads nothing but the [text] field of the
    body: two bodies with the same [text] get the same answer and cause
    the same calls, whatever [top_k], [threshold] or other fields they
    carry; the classification is always made with [top_k = 3] and
    [threshold = 0.1]. *)
Theorem analyze_reads_only_text env items items' :
  dict_lookup items "text" = dict_lookup items' "text" ->
  analyze_emotion env (mkRequest POST (Ok (PyDict items)))
  = analyze_emotion env (mkRequest POST (Ok (PyDict items'))).
Proof.
  intros H. unfold analyze_emotion. cbn [method]. f_equal.
  unfold analyze_emotion_try. cbn [get_json].
  rewrite !bind_lift_Ok, !missing_field_dict, !bind_lift_Ok, H.
  destruct (dict_lookup items' "text") as [v|] eqn:E; [|reflexivity].
  rewrite (py_getitem_present env items' "text" v E).
  rewrite (py_getitem_present env items "text" v) by congruence.
  rewrite !bind_lift_Ok. reflexivity.
Qed.

Lemma analyze_reads_only_text_witness :
  let env := sample_env scenario_probs
               (Ok (subprocess.mkCompleted 0 scenario_stdout EmptyString))
               (Ok scenario_playlist) in
  analyze_emotion env
    (mkRequest POST (Ok (PyDict [("text", PyStr "hi"); ("top_k", PyInt 0)])))
  = analyze_emotion env
      (mkRequest POST (Ok (PyDict [("threshold", PyFloat 1%float);
                                   ("text", PyStr "hi")]))).
Proof.
  intros env.
  exact (analyze_reads_only_text env
           [("text", PyStr "hi"); ("top_k", PyInt 0)]
           [("threshold", PyFloat 1%float); ("text", PyStr "hi")] eq_refl).
Defined.

(** X15.  The playlist route trusts the shape of the engine's output
    only as far as the two keys: when the parsed output is an object
    without [songs], or with [songs] but without [count], the request is
    answered as an internal error whose message is the quoted missing key. *)
Theorem playlist_engine_output_without_key env items es emotions p d :
  dict_lookup items "emotions" = Some (PyList es) ->
  es <> [] ->
  validate_emotions es = Some emotions ->
  subprocess_run env (engine_args env (str_join "," emotions)) = Ok p ->
  subprocess.returncode p = 0 ->
  json_loads env (subprocess.stdout p) = Ok (PyDict d) ->
  let answer := outcome (generate_playlist env (mkRequest POST (Ok (PyDict items)))) in
  (dict_lookup d "songs" = None ->
   answer = Ok (mkResponse (ErrorBody "Internal Server Error" "'songs'") 500)) /\
  (forall songs,
      dict_lookup d "songs" = Some songs -> dict_lookup d "count" = None ->
      answer = Ok (mkResponse (ErrorBody "Internal Server Error" "'count'") 500)).
Proof.
  intros Hem Hne Hval Hrun Hrc Hloads answer. subst answer.
  unfold generate_playlist. cbn [method].
  rewrite route_outcome.
  unfold generate_playlist_try. cbn [get_json].
  rewrite !bind_lift_Ok, missing_field_dict, Hem, !bind_lift_Ok.
  rewrite (py_getitem_present _ _ _ _ Hem), bind_lift_Ok.
  destruct es as [|e es']; [congruence|].
  rewrite Hval.
  rewrite outcome_bind, outcome_call_cpp_engine, Hrun, Hrc. cbn [Z.eqb].
  rewrite Hloads.
  rewrite outcome_bind. cbn [outcome py_lift py_getitem].
  split.
  - intros ->. reflexivity.
  - intros songs -> Hc. rewrite outcome_bind. cbn [outcome py_lift py_getitem].
    rewrite Hc. reflexivity.
Qed.

Lemma playlist_engine_output_without_key_witness :
  let env := sample_env scenario_probs
               (Ok (subprocess.mkCompleted 0 "{}" EmptyString))
               (Ok (PyDict [])) in
  outcome (generate_playlist env (playlist_request ["happy"]))
  = Ok (mkResponse (ErrorBody "Internal Server Error" "'songs'") 500).
Proof.
  intros env.
  refine (proj1 (playlist_engine_output_without_key env
                   [("emotions", PyList [PyStr "happy"])] [PyStr "happy"]
                   ["happy"] (subprocess.mkCompleted 0 "{}" EmptyString) []
                   eq_refl _ eq_refl eq_refl eq_refl eq_refl) eq_refl).
  discriminate.
Defined.

(** X16.  The classify route answers 200 only for a body that is an
    object whose [text] is a string with a character that is not white
    space, and then the payload is what [classify] returned for that text
    with the request's [top_k] and [threshold] (3 and 0.1 when absent). *)
Theorem classify_emotion_success env request resp :
  outcome (classify_emotion env request) = Ok resp ->
  status resp = 200 ->
  exists items t model c,
    method request = POST /\
    get_json request = Ok (PyDict items) /\
    dict_lookup items "text" = Some (PyStr t) /\
    strip_nonempty t = true /\
    get_classifier env = Ok model /\
    outcome (call_classify env model (PyStr t)
               (py_get (PyDict items) "top_k" (PyInt 3))
               (py_get (PyDict items) "threshold" (PyFloat 0.1))) = Ok c /\
    body resp = ClassifyBody c.
Proof.
  unfold classify_emotion.
  destruct (method request) eqn:Hmeth; [intros [= <-] Hs; discriminate Hs|].
  rewrite route_outcome.
  destruct (outcome (classify_emotion_try env request)) as [r|e] eqn:Ho;
    intros [= <-] Hs; [|discriminate Hs].
  revert Ho Hs. unfold classify_emotion_try.
  rewrite outcome_bind. cbn [outcome py_lift].
  destruct (get_json request) as [data|] eqn:Hj; [|discriminate].
  rewrite outcome_bind. cbn [outcome py_lift].
  destruct (missing_field env data "text") as [[]|] eqn:Hm;
    [intros [= <-] Hs; discriminate Hs | | discriminate].
  rewrite outcome_bind. cbn [outcome py_lift].
  destruct (py_getitem env data "text") as [v|] eqn:Hg; [|discriminate].
  destruct (blank_or_not_str v) eqn:Hb; [intros [= <-] Hs; discriminate Hs|].
  rewrite outcome_bind. cbn [outcome py_lift].
  destruct (get_classifier env) as [model|] eqn:Hc; [|discriminate].
  rewrite outcome_bind.
  destruct (outcome (call_classify env model v _ _)) as [c|] eqn:Hcl;
    [|discriminate].
  intros [= <-] _.
  apply py_getitem_Ok_inv in Hg as (items & -> & Hl).
  apply blank_or_not_str_false in Hb as (t & -> & Ht).
  exists items, t, model, c. auto 10.
Qed.

Lemma classify_emotion_success_witness :
  let env := sample_env scenario_probs (Raise oops_error) (Raise oops_error) in
  let request := classify_request "I feel so happy today!" 3 0.1%float in
  outcome (classify_emotion env request)
  = Ok (mkResponse (ClassifyBody scenario_result) 200) /\
  exists items t model c,
    method request = POST /\
    get_json request = Ok (PyDict items) /\
    dict_lookup items "text" = Some (PyStr t) /\
    strip_nonempty t = true /\
    get_classifier env = Ok model /\
    outcome (call_classify env model (PyStr t)
               (py_get (PyDict items) "top_k" (PyInt 3))
               (py_get (PyDict items) "threshold" (PyFloat 0.1))) = Ok c /\
    ClassifyBody scenario_result = ClassifyBody c.
Proof.
  intros env request.
  assert (H : outcome (classify_emotion env request)
              = Ok (mkResponse (ClassifyBody scenario_result) 200))
    by (vm_compute; reflexivity).
  split; [exact H|].
  exact (classify_emotion_success env request _ H eq_refl).
Defined.

(** X17.  The playlist route answers 200 only for a body that is an
    object whose [emotions] is a non-empty list of strings, none of them
    blank; the engine was then called with exactly these moods and
    returned, and the answer repeats the moods and carries the [songs] and
    [count] entries of what the engine returned. *)
Theorem generate_playlist_success env request resp :
  outcome (generate_playlist env request) = Ok resp ->
  status resp = 200 ->
  exists items emotions v songs count,
    method request = POST /\
    get_json request = Ok (PyDict items) /\
    dict_lookup items "emotions" = Some (PyList (map PyStr emotions)) /\
    emotions <> [] /\
    Forall (fun m => strip_nonempty m = true) emotions /\
    outcome (call_cpp_engine env emotions) = Ok v /\
    py_getitem env v "songs" = Ok songs /\
    py_getitem env v "count" = Ok count /\
    body resp = PlaylistBody emotions songs count.
Proof.
  unfold generate_playlist.
  destruct (method request) eqn:Hmeth; [intros [= <-] Hs; discriminate Hs|].
  rewrite route_outcome.
  destruct (outcome (generate_playlist_try env request)) as [r|e] eqn:Ho;
    intros [= <-] Hs; [|discriminate Hs].
  revert Ho Hs. unfold generate_playlist_try.
  rewrite outcome_bind. cbn [outcome py_lift].
  destruct (get_json request) as [data|] eqn:Hj; [|discriminate].
  rewrite outcome_bind. cbn [outcome py_lift].
  destruct (missing_field env data "emotions") as [[]|] eqn:Hm;
    [intros [= <-] Hs; discriminate Hs | | discriminate].
  rewrite outcome_bind. cbn [outcome py_lift].
  destruct (py_getitem env data "emotions") as [ems|] eqn:Hg; [|discriminate].
  destruct ems as [| | | | |[|e es]|];
    try (intros [= <-] Hs; discriminate Hs).
  destruct (validate_emotions (e :: es)) as [emotions|] eqn:Hv;
    [|intros [= <-] Hs; discriminate Hs].
  rewrite outcome_bind.
  destruct (outcome (call_cpp_engine env emotions)) as [v|] eqn:Hrun;
    [|discriminate].
  rewrite outcome_bind. cbn [outcome py_lift].
  destruct (py_getitem env v "songs") as [songs|] eqn:Hsongs; [|discriminate].
  rewrite outcome_bind. cbn [outcome py_lift].
  destruct (py_getitem env v "count") as [count|] eqn:Hcount; [|discriminate].
  intros [= <-] _.
  apply py_getitem_Ok_inv in Hg as (items & -> & Hl).
  pose proof (validate_emotions_nonempty _ _ _ Hv) as Hne.
  apply validate_emotions_Some in Hv as [Hes HF]. rewrite Hes in Hl.
  exists items, emotions, v, songs, count. auto 12.
Qed.

Lemma generate_playlist_success_witness :
  let env := sample_env scenario_probs
               (Ok (subprocess.mkCompleted 0 scenario_stdout EmptyString))
               (Ok scenario_playlist) in
  let request := playlist_request ["happy"] in
  let songs := PyList [PyDict [("id", PyInt 1)]] in
  outcome (generate_playlist env request)
  = Ok (mkResponse (PlaylistBody ["happy"] songs (PyInt 1)) 200) /\
  exists items emotions v songs' count,
    method request = POST /\
    get_json request = Ok (PyDict items) /\
    dict_lookup items "emotions" = Some (PyList (map PyStr emotions)) /\
    emotions <> [] /\
    Forall (fun m => strip_nonempty m = true) emotions /\
    outcome (call_cpp_engine env emotions) = Ok v /\
    py_getitem env v "songs" = Ok songs' /\
    py_getitem env v "count" = Ok count /\
    PlaylistBody ["happy"] songs (PyInt 1) = PlaylistBody emotions songs' count.
Proof.
  intros env request songs.
  assert (H : outcome (generate_playlist env request)
              = Ok (mkResponse (PlaylistBody ["happy"] songs (PyInt 1)) 200))
    by (vm_compute; reflexivity).
  split; [exact H|].
  exact (generate_playlist_success env request _ H eq_refl).
Defined.

(** ** The comma-joined argument *)

Lemma split_commas_nonempty s : split_commas s <> [].
Proof.
  destruct s as [|c s]; simpl; [discriminate|].
  destruct (Ascii.eqb c ","); [discriminate|].
  destruct (split_commas s); discriminate.
Qed.

Lemma split_commas_single s : comma_free s = true -> split_commas s = [s].
Proof.
  induction s as [|c s IH]; simpl; [reflexivity|].
  intros H. apply andb_prop in H as [Hc Hs].
  apply negb_true_iff in Hc. rewrite Hc, (IH Hs). reflexivity.
Qed.

Lemma split_commas_append s rest :
  comma_free s = true ->
  split_commas (s ++ "," ++ rest) = s :: split_commas rest.
Proof.
  induction s as [|c s IH]; simpl; [reflexivity|].
  intros H. apply andb_prop in H as [Hc Hs].
  apply negb_true_iff in Hc. rewrite Hc.
  change (split_commas (s ++ String "," rest))
    with (split_commas (s ++ "," ++ rest)).
  rewrite (IH Hs). reflexivity.
Qed.

Lemma split_commas_join moods :
  moods <> [] ->
  Forall (fun m => comma_free m = true) moods ->
  split_commas (str_join "," moods) = moods.
Proof.
  unfold str_join. intros Hne HF. induction HF as [|m rest Hm HF IH]; [congruence|].
  destruct rest as [|m' rest'].
  - simpl. now apply split_commas_single.
  - change (String.concat "," (m :: m' :: rest'))
      with (m ++ "," ++ String.concat "," (m' :: rest')).
    rewrite split_commas_append by exact Hm.
    f_equal. apply IH. discriminate.
Qed.

(** X18.  The engine's second argument determines the mood list when no
    mood contains a comma: two non-empty lists of comma-free moods with
    the same joined string are equal, and splitting the string at its
    commas gives the list back.  The route does not reject a comma inside
    a mood, and then two different lists can reach the engine as the same
    argument. *)
Theorem comma_join_determines_moods :
  (forall l l',
      l <> [] -> l' <> [] ->
      Forall (fun m => comma_free m = true) l ->
      Forall (fun m => comma_free m = true) l' ->
      str_join "," l = str_join "," l' -> l = l') /\
  (forall l,
      l <> [] -> Forall (fun m => comma_free m = true) l ->
      split_commas (str_join "," l) = l) /\
  (validate_emotions [PyStr "calm,sad"] = Some ["calm,sad"] /\
   str_join "," ["calm,sad"] = str_join "," ["calm"; "sad"]).
Proof.
  split; [|split].
  - intros l l' Hl Hl' HF HF' Heq.
    rewrite <- (split_commas_join l Hl HF), <- (split_commas_join l' Hl' HF').
    now rewrite Heq.
  - apply split_commas_join.
  - split; reflexivity.
Qed.

Lemma comma_join_determines_moods_witness :
  split_commas (str_join "," ["happy"; "excited"]) = ["happy"; "excited"].
Proof.
  refine (proj1 (proj2 comma_join_determines_moods) ["happy"; "excited"] _ _).
  - discriminate.
  - repeat constructor.
Defined.

(** X19.  In the full pipeline a failed classification ends the request:
    the engine is not started, the answer is the internal-error envelope
    with the exception's text, and that text is the last thing printed. *)
Theorem full_pipeline_stops_at_classification env items v model e :
  dict_lookup items "text" = Some v ->
  import_classify env = Ok tt ->
  get_classifier env = Ok model ->
  outcome (call_classify env model v
             (py_get (PyDict items) "top_k" (PyInt 3))
             (py_get (PyDict items) "threshold" (PyFloat 0.1))) = Raise e ->
  let answer := generate_full_playlist env (mkRequest POST (Ok (PyDict items))) in
  outcome answer
  = Ok (mkResponse (ErrorBody "Internal Server Error" (exc_str e)) 500) /\
  run_count (events answer) = 0%nat /\
  exists before,
    events answer
    = (before ++ [EvPrint ("Error in playlist/full endpoint: " ++ exc_str e)])%list.
Proof.
  intros Htext Himp Hcl Hc answer. subst answer.
  unfold generate_full_playlist. cbn [method].
  rewrite route_outcome, route_events.
  unfold generate_full_playlist_try. cbn [get_json].
  rewrite !bind_lift_Ok, missing_field_dict, Htext, !bind_lift_Ok.
  rewrite (py_getitem_present _ _ _ _ Htext), bind_lift_Ok.
  rewrite Himp, bind_lift_Ok, Hcl, bind_lift_Ok.
  rewrite outcome_bind, events_bind, Hc.
  split; [reflexivity|]. split.
  - rewrite !run_count_app, run_count_call_classify. reflexivity.
  - eexists. reflexivity.
Qed.

Lemma full_pipeline_stops_at_classification_witness :
  let env := sample_env scenario_probs
               (Ok (subprocess.mkCompleted 0 scenario_stdout EmptyString))
               (Ok scenario_playlist) in
  let answer := generate_full_playlist env (classify_request "hi" (-1) 0.1%float) in
  outcome answer
  = Ok (mkResponse
          (ErrorBody "Internal Server Error" "selected index k out of range")
          500) /\
  run_count (events answer) = 0%nat /\
  exists before,
    events answer
    = (before ++ [EvPrint ("Error in playlist/full endpoint: "
                           ++ "selected index k out of range")])%list.
Proof.
  intros env answer.
  assert (Hc : outcome (call_classify env (constant_model scenario_probs)
                          (PyStr "hi") (PyInt (-1)) (PyFloat 0.1%float))
               = Raise (mkExc RuntimeError "selected index k out of range"))
    by (vm_compute; reflexivity).
  exact (full_pipeline_stops_at_classification env
           [("text", PyStr "hi"); ("top_k", PyInt (-1));
            ("threshold", PyFloat 0.1%float)]
           (PyStr "hi") (constant_model scenario_probs) _
           eq_refl eq_refl eq_refl Hc).
Defined.

Ltac object_done :=
  cbn [outcome py_lift py_ret mret py_mret];
  first
    [ discriminate
    | let Hs := fresh "Hs" in
      intros [= <-] Hs;
      first
        [ discriminate Hs
        | match goal with
          | Hg : py_getitem _ ?d _ = Ok _, Hj : get_json _ = Ok ?d |- _ =>
              let items := fresh "items" in
              apply py_getitem_Ok_inv in Hg as (items & -> & _); eauto
          end ] ].

Lemma classify_emotion_try_object env request resp :
  outcome (classify_emotion_try env request) = Ok resp -> status resp = 200 ->
  exists items, get_json request = Ok (PyDict items).
Proof.
  unfold classify_emotion_try.
  repeat (try object_done; bind_step); object_done.
Qed.

Lemma analyze_emotion_try_object env request resp :
  outcome (analyze_emotion_try env request) = Ok resp -> status resp = 200 ->
  exists items, get_json request = Ok (PyDict items).
Proof.
  unfold analyze_emotion_try.
  repeat (try object_done; bind_step); object_done.
Qed.

Lemma generate_full_playlist_try_object env request resp :
  outcome (generate_full_playlist_try env request) = Ok resp ->
  status resp = 200 ->
  exists items, get_json request = Ok (PyDict items).
Proof.
  unfold generate_full_playlist_try.
  repeat (try object_done; bind_step); object_done.
Qed.

Lemma generate_playlist_try_object env request resp :
  outcome (generate_playlist_try env request) = Ok resp -> status resp = 200 ->
  exists items, get_json request = Ok (PyDict items).
Proof.
  unfold generate_playlist_try.
  rewrite outcome_bind; cbn [outcome py_lift].
  destruct (get_json request) as [data|] eqn:Hj; [|discriminate].
  rewrite outcome_bind; cbn [outcome py_lift].
  destruct (missing_field env data "emotions") as [[]|]; try object_done.
  rewrite outcome_bind; cbn [outcome py_lift].
  destruct (py_getitem env data "emotions") as [emotions|] eqn:Hg; [|discriminate].
  intros _ _. apply py_getitem_Ok_inv in Hg as (items & -> & _). eauto.
Qed.

Lemma wrapped_route_object (m : Py Response) endpoint request resp :
  (forall r, outcome m = Ok r -> status r = 200 ->
             exists items, get_json request = Ok (PyDict items)) ->
  outcome (match method request with
           | OPTIONS => mret (mkResponse EmptyBody 204)
           | POST => py_try m (internal_error endpoint)
           end) = Ok resp ->
  status resp = 200 ->
  method request = POST /\ exists items, get_json request = Ok (PyDict items).
Proof.
  intros Hm. destruct (method request); [intros [= <-] Hs; discriminate Hs|].
  rewrite route_outcome.
  destruct (outcome m) as [r|e] eqn:Ho; intros [= <-] Hs; [|discriminate Hs].
  split; [reflexivity | eauto].
Qed.

(** X20.  None of the four routes answers 200 to a body that is not a
    JSON object: a list, a string, a number, [true] or [null] as body is
    answered 400 or 500. *)
Theorem success_needs_object_body :
  Forall (fun '(route, _, _) =>
            forall env request resp,
              outcome (route env request) = Ok resp ->
              status resp = 200 ->
              method request = POST /\
              exists items, get_json request = Ok (PyDict items))
         ROUTES.
Proof.
  unfold ROUTES.
  apply List.Forall_cons;
    [|apply List.Forall_cons;
      [|apply List.Forall_cons;
        [|apply List.Forall_cons; [|apply List.Forall_nil]]]];
    intros env request resp.
  - apply wrapped_route_object, classify_emotion_try_object.
  - apply wrapped_route_object, analyze_emotion_try_object.
  - apply wrapped_route_object, generate_playlist_try_object.
  - apply wrapped_route_object, generate_full_playlist_try_object.
Qed.

Lemma success_needs_object_body_witness :
  let env := sample_env scenario_probs
               (Ok (subprocess.mkCompleted 0 scenario_stdout EmptyString))
               (Ok scenario_playlist) in
  let request := mkRequest POST (Ok (PyDict [("text", PyStr "hi")])) in
  exists resp,
    outcome (analyze_emotion env request) = Ok resp /\
    status resp = 200 /\
    method request = POST /\
    exists items, get_json request = Ok (PyDict items).
Proof.
  intros env request.
  eexists. 
  assert (H : outcome (analyze_emotion env request)
              = Ok (mkResponse
                      (AnalyzeBody "joy" 0.82%float
                         (PyList [PyDict [("id", PyInt 1)]])) 200))
    by (vm_compute; reflexivity).
  split; [exact H|]. split; [reflexivity|].
  exact (Forall_inv (Forall_inv_tail success_needs_object_body)
           env request _ H eq_refl).
Defined.

(** ** Validation of the request body *)

Lemma validate_emotions_rejects es x :
  In x es -> blank_or_not_str x = true -> validate_emotions es = None.
Proof.
  induction es as [|e es IH]; simpl; [tauto|].
  intros [->|Hin] Hx; [now rewrite Hx|].
  destruct (blank_or_not_str e); [reflexivity|].
  rewrite (IH Hin Hx). now destruct e.
Qed.

(** X21.  How the playlist route rejects a JSON object, before anything
    else happens: without the key [emotions] (so also for the empty
    object) the message is "Missing required field: emotions"; when the
    value is not a list or is the empty list it is "emotions must be a
    non-empty list"; when some item is not a string or is blank it is
    "All emotions must be non-empty strings".  Each time the status is 400
    and the engine is not started. *)
Theorem generate_playlist_validation env items :
  let answer := generate_playlist env (mkRequest POST (Ok (PyDict items))) in
  (dict_lookup items "emotions" = None ->
   answer = mkPy [] (Ok (bad_request "Missing required field: emotions"))) /\
  (forall v,
      dict_lookup items "emotions" = Some v ->
      (forall e es, v <> PyList (e :: es)) ->
      answer = mkPy [] (Ok (bad_request "emotions must be a non-empty list"))) /\
  (forall e es x,
      dict_lookup items "emotions" = Some (PyList (e :: es)) ->
      In x (e :: es) -> blank_or_not_str x = true ->
      answer
      = mkPy [] (Ok (bad_request "All emotions must be non-empty strings"))).
Proof.
  intros answer. subst answer.
  unfold generate_playlist, generate_playlist_try. cbn [method get_json].
  rewrite !bind_lift_Ok, missing_field_dict.
  split; [|split].
  - intros ->. rewrite bind_lift_Ok. reflexivity.
  - intros v Hv Hshape. rewrite Hv, bind_lift_Ok.
    rewrite (py_getitem_present _ _ _ _ Hv), bind_lift_Ok.
    destruct v as [| | | | |[|e es]|]; try reflexivity.
    now destruct (Hshape e es).
  - intros e es x Hv Hin Hx. rewrite Hv, bind_lift_Ok.
    rewrite (py_getitem_present _ _ _ _ Hv), bind_lift_Ok.
    rewrite (validate_emotions_rejects _ _ Hin Hx). reflexivity.
Qed.

Lemma generate_playlist_validation_witness :
  let env := sample_env scenario_probs
               (Ok (subprocess.mkCompleted 0 scenario_stdout EmptyString))
               (Ok scenario_playlist) in
  generate_playlist env (mkRequest POST (Ok (PyDict [("emotions", PyList [])])))
  = mkPy [] (Ok (bad_request "emotions must be a non-empty list")).
Proof.
  intros env.
  refine (proj1 (proj2 (generate_playlist_validation env
                          [("emotions", PyList [])])) (PyList []) eq_refl _).
  discriminate.
Defined.

(** X22.  How a JSON object is rejected for its text: without the key
    [text] (so also for the empty object) the classify, analyze and full
    pipeline routes answer 400 "Missing required field: text"; when the
    value is not a string or has white space only, classify and analyze
    answer 400 "text must be a non-empty string".  Nothing is run or
    printed in either case. *)
Theorem text_validation env items :
  let request := mkRequest POST (Ok (PyDict items)) in
  (dict_lookup items "text" = None ->
   let missing := mkPy [] (Ok (bad_request "Missing required field: text")) in
   classify_emotion env request = missing /\
   analyze_emotion env request = missing /\
   generate_full_playlist env request = missing) /\
  (forall v,
      dict_lookup items "text" = Some v -> blank_or_not_str v = true ->
      let blank := mkPy [] (Ok (bad_request "text must be a non-empty string")) in
      classify_emotion env request = blank /\
      analyze_emotion env request = blank).
Proof.
  intros request. subst request.
  unfold classify_emotion, classify_emotion_try, analyze_emotion,
    analyze_emotion_try, generate_full_playlist, generate_full_playlist_try.
  cbn [method get_json].
  rewrite !bind_lift_Ok, !missing_field_dict.
  split.
  - intros ->. rewrite !bind_lift_Ok. repeat split; reflexivity.
  - intros v Hv Hb. rewrite Hv, !bind_lift_Ok.
    rewrite !(py_getitem_present _ _ _ _ Hv), !bind_lift_Ok, Hb.
    split; reflexivity.
Qed.

Lemma text_validation_witness :
  let env := sample_env scenario_probs
               (Ok (subprocess.mkCompleted 0 scenario_stdout EmptyString))
               (Ok scenario_playlist) in
  let request := mkRequest POST (Ok (PyDict [("text", PyInt 7)])) in
  classify_emotion env request
  = mkPy [] (Ok (bad_request "text must be a non-empty string")) /\
  analyze_emotion env request
  = mkPy [] (Ok (bad_request "text must be a non-empty string")).
Proof.
  intros env request.
  exact (proj2 (text_validation env [("text", PyInt 7)]) (PyInt 7)
           eq_refl eq_refl).
Defined.

Lemma analyze_emotion_answers_witness :
  let env := sample_env scenario_probs
               (Raise (mkExc TimeoutExpired "timed out after 10 seconds"))
               (Raise oops_error) in
  let request := mkRequest POST (Ok (PyDict [("text", PyStr "hi")])) in
  exists resp,
    outcome (analyze_emotion env request) = Ok resp /\
    Envelope resp /\
    (forall e,
        method request = POST ->
        outcome (analyze_emotion_try env request) = Raise e ->
        resp = mkResponse (ErrorBody "Internal Server Error" (exc_str e)) 500 /\
        In (EvPrint ("Error in " ++ "analyze" ++ " endpoint: " ++ exc_str e))
           (events (analyze_emotion env request))) /\
    (status resp = 500 ->
     method request = POST /\
     exists e, outcome (analyze_emotion_try env request) = Raise e).
Proof.
  intros env request.
  exact (analyze_emotion_answers env request).
Defined.
